(** * demeda: a clinic REST service (Go, gin + gorm + sqlite)

    A shallow embedding of [main.go]: the five record structs, the request
    DTOs with their [binding:"required"] tags, the nineteen handlers, the
    seed routine and the startup sequence, over an explicit model of the
    storage layer (five tables with auto-increment keys and signed 64-bit
    integer columns) in which every storage call may be made to fail by an
    injected fault. *)

From Stdlib Require Import ZArith NArith List String Ascii Bool Lia.
Import ListNotations.

Open Scope string_scope.
Open Scope list_scope.

(** ** Time

    A [time.Time] is kept as the instant it denotes, the number of
    nanoseconds since the zero time (January 1, year 1, 00:00:00 UTC),
    together with its location.  The zero value of the Go struct is the zero
    instant with no location set, which is how UTC is held; a time decoded
    from a text with a numeric offset, or read from the wall clock, has a
    location set.  The monotonic reading is not represented, and the storage
    layer is taken to keep a time as it is. *)

Inductive Location : Type :=
| UTC
| Local
| FixedZone (offset : Z).

Record Time : Type := mkTime {
  instant : Z;
  location : Location }.

Module time.

Definition zero : Time := mkTime 0 UTC.

(** [t.IsZero()]: the instant is the zero instant, whatever the location. *)
Definition IsZero (t : Time) : bool := (instant t =? 0)%Z.

(** The test by reflection that a [time.Time] is the zero value of its
    type, which is the test of gorm for a timestamp to fill in and of the
    validator for a [required] field. *)
Definition isZeroValue (t : Time) : bool :=
  (instant t =? 0)%Z
  && match location t with UTC => true | _ => false end.

Definition Nanosecond : Z := 1%Z.
Definition Second : Z := (1000000000 * Nanosecond)%Z.
Definition Minute : Z := (60 * Second)%Z.
Definition Hour : Z := (60 * Minute)%Z.

(** Days between January 1 of year 1 and the given civil date of the
    proleptic Gregorian calendar. *)
Definition daysSinceZero (year month day : Z) : Z :=
  let y := (if month <=? 2 then year - 1 else year)%Z in
  let era := (y / 400)%Z in
  let yoe := (y - era * 400)%Z in
  let mp := (if month <=? 2 then month + 9 else month - 3)%Z in
  let doy := ((153 * mp + 2) / 5 + day - 1)%Z in
  let doe := (yoe * 365 + yoe / 4 - yoe / 100 + doy)%Z in
  (era * 146097 + doe - 306)%Z.

(** [time.Date(year, month, day, hour, min, sec, nsec, time.UTC)]. *)
Definition Date (year month day hour min sec nsec : Z) : Time :=
  mkTime (daysSinceZero year month day * (24 * Hour)
          + hour * Hour + min * Minute + sec * Second + nsec)%Z
         UTC.

(** [t.Add(d)]. *)
Definition Add (t : Time) (d : Z) : Time :=
  mkTime (instant t + d)%Z (location t).

End time.

(** ** The record structs

    The Go structs refer to one another (a patient holds its appointments, an
    appointment holds its patient and doctor by value), hence one mutual
    definition.  A slice is a list; [nil] and the empty slice are not told
    apart, as in the JSON that [omitempty] produces for them. *)

Inductive Patient : Type := mkPatient {
  Patient_ID : N;
  Patient_CreatedAt : Time;
  Patient_FullName : string;
  Patient_BirthDate : Time;
  Patient_Gender : string;
  Patient_Phone : string;
  Patient_Email : string;
  Patient_Appointments : list Appointment;
  Patient_MedicalHistory : list MedicalHistory }
with Doctor : Type := mkDoctor {
  Doctor_ID : N;
  Doctor_CreatedAt : Time;
  Doctor_FullName : string;
  Doctor_Specialization : string;
  Doctor_Phone : string;
  Doctor_Email : string;
  Doctor_Appointments : list Appointment }
with Appointment : Type := mkAppointment {
  Appointment_ID : N;
  Appointment_CreatedAt : Time;
  Appointment_PatientID : N;
  Appointment_DoctorID : N;
  Appointment_Date : Time;
  Appointment_Diagnosis : string;
  Appointment_Treatment : string;
  Appointment_Notes : string;
  Appointment_Patient : Patient;
  Appointment_Doctor : Doctor;
  Appointment_MedicalTests : list MedicalTest }
with MedicalTest : Type := mkMedicalTest {
  MedicalTest_ID : N;
  MedicalTest_CreatedAt : Time;
  MedicalTest_AppointmentID : N;
  MedicalTest_Name : string;
  MedicalTest_Result : string;
  MedicalTest_Unit : string;
  MedicalTest_ReferenceRange : string;
  MedicalTest_Appointment : Appointment }
with MedicalHistory : Type := mkMedicalHistory {
  MedicalHistory_ID : N;
  MedicalHistory_CreatedAt : Time;
  MedicalHistory_PatientID : N;
  MedicalHistory_HistoryType : string;
  MedicalHistory_Description : string;
  MedicalHistory_StartDate : Time;
  MedicalHistory_Severity : string;
  MedicalHistory_Status : string;
  MedicalHistory_Notes : string;
  MedicalHistory_Patient : Patient }.

(** The zero values of the structs ([Patient{}], [Doctor{}], ...). *)

Definition zeroPatient : Patient :=
  mkPatient 0 time.zero "" time.zero "" "" "" [] [].
Definition zeroDoctor : Doctor :=
  mkDoctor 0 time.zero "" "" "" "" [].
Definition zeroAppointment : Appointment :=
  mkAppointment 0 time.zero 0 0 time.zero "" "" "" zeroPatient zeroDoctor [].

(** ** The request DTOs *)

Record CreatePatientRequest : Type := mkCreatePatientRequest {
  CreatePatientRequest_FullName : string;    (* binding:"required" *)
  CreatePatientRequest_BirthDate : Time;     (* binding:"required" *)
  CreatePatientRequest_Gender : string;      (* binding:"required" *)
  CreatePatientRequest_Phone : string;
  CreatePatientRequest_Email : string }.

Record CreateAppointmentRequest : Type := mkCreateAppointmentRequest {
  CreateAppointmentRequest_PatientID : N;    (* binding:"required" *)
  CreateAppointmentRequest_DoctorID : N;     (* binding:"required" *)
  CreateAppointmentRequest_Date : Time;      (* binding:"required" *)
  CreateAppointmentRequest_Diagnosis : string;
  CreateAppointmentRequest_Treatment : string;
  CreateAppointmentRequest_Notes : string }.

Record CreateMedicalHistoryRequest : Type := mkCreateMedicalHistoryRequest {
  CreateMedicalHistoryRequest_PatientID : N;        (* binding:"required" *)
  CreateMedicalHistoryRequest_HistoryType : string; (* binding:"required" *)
  CreateMedicalHistoryRequest_Description : string; (* binding:"required" *)
  CreateMedicalHistoryRequest_StartDate : Time;
  CreateMedicalHistoryRequest_Severity : string;
  CreateMedicalHistoryRequest_Status : string;
  CreateMedicalHistoryRequest_Notes : string }.

(** ** Results of storage and binding calls *)

Inductive result (A : Type) : Type :=
| Ok (a : A)
| Err (msg : string).
Arguments Ok {A} a.
Arguments Err {A} msg.

(** A fault injected into one storage call: [None] lets the statement run,
    [Some msg] makes the storage engine fail it with that message. *)
Definition Fault := option string.

(** ** The storage layer: gorm over sqlite

    What the handlers use of gorm, over tables held as lists of rows.  A row
    holds the columns of its struct; the association fields are not columns
    and are zero in every stored row.

    The integer columns of sqlite hold signed 64-bit values.  A [uint] field
    is written as the signed value with the same 64 bits, and a row is read
    back into its struct only when every such column holds a value that is
    not negative: the scan of a negative value into a [uint] fails, and with
    it the query. *)

Module gorm.

Definition minInt64 : Z := (- 2 ^ 63)%Z.
Definition maxInt64 : Z := (2 ^ 63 - 1)%Z.

(** [strconv.Atoi] accepts the decimal numeral of [z]. *)
Definition inInt64 (z : Z) : bool :=
  ((minInt64 <=? z) && (z <=? maxInt64))%Z.

(** The value an integer column holds for a [uint] field (a number below
    2^64): the signed number with the same 64 bits, which is negative from
    2^63 on. *)
Definition int64 (n : N) : Z :=
  if (Z.of_N n <=? maxInt64)%Z then Z.of_N n
  else (Z.of_N n mod 2 ^ 63 - 2 ^ 63)%Z.

(** The column written for a [uint] field scans back into a [uint]. *)
Definition uintScans (n : N) : bool := (0 <=? int64 n)%Z.

(** What gorm derives from a struct by reflection: its primary key and
    creation timestamp, the columns it maps to a row, the [check]
    constraints of its tags, and whether the row written for it scans back
    into the struct. *)
Class Model (T : Type) : Type := {
  primaryKey : T -> N;
  setPrimaryKey : N -> T -> T;
  createdAt : T -> Time;
  setCreatedAt : Time -> T -> T;
  columns : T -> T;
  constraint : T -> option string;
  scans : T -> bool }.

(** The one place where the SQL dialect shows: how the engine reads a text
    parameter that is compared with an integer column ([patient_id = ?]
    bound to a query-string value).  [None] when the text denotes no
    integer, in which case the comparison holds for no row. *)
Class Dialector : Type := {
  numericValue : string -> option Z }.

(** A table: its rows in storage order and the largest key ever given out
    (the primary keys are [integer PRIMARY KEY AUTOINCREMENT] columns). *)
Record Table (T : Type) : Type := mkTable {
  rows : list T;
  seq : N }.
Arguments mkTable {T} rows seq.
Arguments rows {T} t.
Arguments seq {T} t.

Definition ErrRecordNotFound : string := "record not found".

(** The error of a row that does not scan; the message of the driver also
    names the column and the value. *)
Definition ErrScan : string :=
  "sql: Scan error: converting driver.Value type int64 to a uint".

Definition andThen {A B : Type} (r : result A) (f : A -> result B)
  : result B :=
  match r with
  | Ok a => f a
  | Err e => Err e
  end.

Section Operations.
Context {T : Type} `{Model T}.

Definition keys (l : list T) : list N := map primaryKey l.

Definition maxKey (l : list T) : N :=
  fold_right N.max 0%N (keys l).

(** The key an insert with an unset primary key receives: one more than
    every key that has ever existed in the table. *)
Definition nextKey (t : Table T) : N :=
  N.succ (N.max (seq t) (maxKey (rows t))).

Definition hasKey (id : Z) (r : T) : bool :=
  (Z.of_N (primaryKey r) =? id)%Z.

(** One row of an INSERT: the creation timestamp is filled in when it is
    zero, the constraints are checked, and a zero primary key is
    replaced by the next key. *)
Definition insertRow (now : Time) (v : T) (t : Table T)
  : result (T * Table T) :=
  let v1 :=
    if time.isZeroValue (createdAt v) then setCreatedAt now v else v in
  match constraint v1 with
  | Some e => Err e
  | None =>
      if (primaryKey v1 =? 0)%N then
        let id := nextKey t in
        let v2 := setPrimaryKey id v1 in
        Ok (v2, mkTable (rows t ++ [columns v2]) id)
      else if existsb (hasKey (Z.of_N (primaryKey v1))) (rows t) then
        Err "UNIQUE constraint failed"
      else
        Ok (v1, mkTable (rows t ++ [columns v1])
                        (N.max (seq t) (primaryKey v1)))
  end.

(** [db.Create(&v)] for one struct: returns the struct with its generated
    fields, or the error and the table untouched. *)
Definition Create (now : Time) (fault : Fault) (v : T) (t : Table T)
  : result T * Table T :=
  match fault with
  | Some e => (Err e, t)
  | None =>
      match insertRow now v t with
      | Ok (v', t') => (Ok v', t')
      | Err e => (Err e, t)
      end
  end.

Fixpoint insertRows (now : Time) (vs : list T) (t : Table T)
  : result (list T * Table T) :=
  match vs with
  | [] => Ok ([], t)
  | v :: vs' =>
      match insertRow now v t with
      | Err e => Err e
      | Ok (v', t') =>
          match insertRows now vs' t' with
          | Err e => Err e
          | Ok (vs'', t'') => Ok (v' :: vs'', t'')
          end
      end
  end.

(** [db.Create(&slice)]: one INSERT statement for all the elements; it
    takes effect as a whole or not at all. *)
Definition CreateAll (now : Time) (fault : Fault) (vs : list T)
  (t : Table T) : result (list T) * Table T :=
  match fault with
  | Some e => (Err e, t)
  | None =>
      match insertRows now vs t with
      | Ok (vs', t') => (Ok vs', t')
      | Err e => (Err e, t)
      end
  end.

(** The first row in the order of the primary key ([ORDER BY id LIMIT 1]);
    among rows of one key, the first in storage order. *)
Fixpoint firstRow (l : list T) : option T :=
  match l with
  | [] => None
  | r :: l' =>
      match firstRow l' with
      | Some r' =>
          if (primaryKey r' <? primaryKey r)%N then Some r' else Some r
      | None => Some r
      end
  end.

(** The rows that the inline condition [id] of [db.First(&v, id)] and
    [db.Delete(&T{}, id)] selects, where [id] is the path parameter, a
    string.  gorm tries [strconv.Atoi] on it: a numeral that fits 64 bits is
    compared with the primary key; any other string is handed to the engine
    as the text of the WHERE clause, and a numeral that does not fit 64 bits
    is then a non-zero constant, a condition that holds for every row. *)
Definition selected (id : Z) (r : T) : bool :=
  if inInt64 id then hasKey id r else true.

Definition lookup (id : Z) (l : list T) : option T :=
  if inInt64 id then find (hasKey id) l else firstRow l.

(** [db.First(&v, id)]: the first of the selected rows in the order of the
    primary key, scanned into the struct. *)
Definition First (fault : Fault) (id : Z) (t : Table T) : result T :=
  match fault with
  | Some e => Err e
  | None =>
      match lookup id (rows t) with
      | Some r => if scans r then Ok r else Err ErrScan
      | None => Err ErrRecordNotFound
      end
  end.

(** A query under construction is the list of its WHERE conditions;
    [Where] adds one, [Find] returns the rows that satisfy all of them. *)
Definition Query : Type := list (T -> bool).

Definition Where (q : Query) (cond : T -> bool) : Query := q ++ [cond].

Definition satisfies (q : Query) (r : T) : bool :=
  forallb (fun cond => cond r) q.

(** The rows of a SELECT, scanned into their structs. *)
Definition scanned (l : list T) : result (list T) :=
  if forallb scans l then Ok l else Err ErrScan.

Definition Find (fault : Fault) (q : Query) (t : Table T)
  : result (list T) :=
  match fault with
  | Some e => Err e
  | None => scanned (filter (satisfies q) (rows t))
  end.

(** [db.Delete(&T{}, id)]: DELETE of the selected rows; the number of rows
    affected is not an error. *)
Definition Delete (fault : Fault) (id : Z) (t : Table T)
  : result unit * Table T :=
  match fault with
  | Some e => (Err e, t)
  | None =>
      (Ok tt, mkTable (filter (fun r => negb (selected id r)) (rows t))
                     (seq t))
  end.

Definition replaceRow (v : T) (l : list T) : list T :=
  map (fun r => if hasKey (Z.of_N (primaryKey v)) r then columns v else r)
      l.

(** [db.Save(&v)]: with a primary key set, an UPDATE of every column of
    that row, and an insert when no row was affected; without one, an
    insert. *)
Definition Save (now : Time) (fault : Fault) (v : T) (t : Table T)
  : result T * Table T :=
  match fault with
  | Some e => (Err e, t)
  | None =>
      if (primaryKey v =? 0)%N then Create now None v t
      else
        match constraint v with
        | Some e => (Err e, t)
        | None =>
            if existsb (hasKey (Z.of_N (primaryKey v))) (rows t) then
              (Ok v, mkTable (replaceRow v (rows t)) (seq t))
            else Create now None v t
        end
  end.

(** [db.Exec("DELETE FROM <table>")]: every row goes, the key counter
    stays. *)
Definition ExecDeleteAll (fault : Fault) (t : Table T)
  : result unit * Table T :=
  match fault with
  | Some e => (Err e, t)
  | None => (Ok tt, mkTable [] (seq t))
  end.

End Operations.

(** The comparison [col = ?] of the integer column of a [uint] field with a
    text parameter. *)
Definition eqText `{Dialector} (col : N) (param : string) : bool :=
  match numericValue param with
  | Some z => (int64 col =? z)%Z
  | None => false
  end.

(** The comparison [col = ?] of such a column with a path parameter, as the
    integer it denotes. *)
Definition eqParam (col : N) (id : Z) : bool := (int64 col =? id)%Z.

End gorm.

Import gorm.

(** The reading of a text parameter as an integer, for texts in plain
    decimal notation: an optional sign, digits, and an optional fraction of
    zeros only ([-7], [12], [1.0]).  sqlite reads further texts as numbers
    (with an exponent, or with spaces around); those are read as no integer
    here. *)

Definition digitValue (c : ascii) : option N :=
  let n := N_of_ascii c in
  if ((48 <=? n) && (n <=? 57))%N then Some (n - 48)%N else None.

Fixpoint zeros (s : string) : bool :=
  match s with
  | EmptyString => true
  | String c s' => (Ascii.eqb c "0" && zeros s')%bool
  end.

Fixpoint decimalFrom (seen : bool) (acc : N) (s : string) : option N :=
  match s with
  | EmptyString => if seen then Some acc else None
  | String c s' =>
      match digitValue c with
      | Some d => decimalFrom true (10 * acc + d)%N s'
      | None =>
          if (Ascii.eqb c "."
              && (seen || negb (String.eqb s' "")) && zeros s')%bool
          then Some acc
          else None
      end
  end.

Definition decimal (s : string) : option Z :=
  match s with
  | String "-" s' =>
      option_map (fun n => (- Z.of_N n)%Z) (decimalFrom false 0%N s')
  | String "+" s' => option_map Z.of_N (decimalFrom false 0%N s')
  | _ => option_map Z.of_N (decimalFrom false 0%N s)
  end.

Definition sqlite : Dialector := {| numericValue := decimal |}.

(** ** The structs as gorm models

    Go strings and times are never NULL, so the [not null] tags reject
    nothing; the only constraint that can refuse a row is the [check] on a
    patient's gender.  The [uint] fields that are written from a request or
    a literal are the foreign keys; the primary keys are given out by the
    engine. *)

Definition Patient_columns (p : Patient) : Patient :=
  mkPatient (Patient_ID p) (Patient_CreatedAt p) (Patient_FullName p)
    (Patient_BirthDate p) (Patient_Gender p) (Patient_Phone p)
    (Patient_Email p) [] [].

Definition Patient_check (p : Patient) : option string :=
  if (String.eqb (Patient_Gender p) "male"
      || String.eqb (Patient_Gender p) "female")%bool
  then None
  else Some "CHECK constraint failed: chk_patients_gender".

#[export] Instance Patient_Model : Model Patient := {|
  primaryKey := Patient_ID;
  setPrimaryKey id p :=
    mkPatient id (Patient_CreatedAt p) (Patient_FullName p)
      (Patient_BirthDate p) (Patient_Gender p) (Patient_Phone p)
      (Patient_Email p) (Patient_Appointments p) (Patient_MedicalHistory p);
  createdAt := Patient_CreatedAt;
  setCreatedAt t p :=
    mkPatient (Patient_ID p) t (Patient_FullName p)
      (Patient_BirthDate p) (Patient_Gender p) (Patient_Phone p)
      (Patient_Email p) (Patient_Appointments p) (Patient_MedicalHistory p);
  columns := Patient_columns;
  constraint := Patient_check;
  scans := fun _ => true |}.

Definition Doctor_columns (d : Doctor) : Doctor :=
  mkDoctor (Doctor_ID d) (Doctor_CreatedAt d) (Doctor_FullName d)
    (Doctor_Specialization d) (Doctor_Phone d) (Doctor_Email d) [].

#[export] Instance Doctor_Model : Model Doctor := {|
  primaryKey := Doctor_ID;
  setPrimaryKey id d :=
    mkDoctor id (Doctor_CreatedAt d) (Doctor_FullName d)
      (Doctor_Specialization d) (Doctor_Phone d) (Doctor_Email d)
      (Doctor_Appointments d);
  createdAt := Doctor_CreatedAt;
  setCreatedAt t d :=
    mkDoctor (Doctor_ID d) t (Doctor_FullName d)
      (Doctor_Specialization d) (Doctor_Phone d) (Doctor_Email d)
      (Doctor_Appointments d);
  columns := Doctor_columns;
  constraint := fun _ => None;
  scans := fun _ => true |}.

Definition Appointment_columns (a : Appointment) : Appointment :=
  mkAppointment (Appointment_ID a) (Appointment_CreatedAt a)
    (Appointment_PatientID a) (Appointment_DoctorID a) (Appointment_Date a)
    (Appointment_Diagnosis a) (Appointment_Treatment a) (Appointment_Notes a)
    zeroPatient zeroDoctor [].

#[export] Instance Appointment_Model : Model Appointment := {|
  primaryKey := Appointment_ID;
  setPrimaryKey id a :=
    mkAppointment id (Appointment_CreatedAt a)
      (Appointment_PatientID a) (Appointment_DoctorID a) (Appointment_Date a)
      (Appointment_Diagnosis a) (Appointment_Treatment a)
      (Appointment_Notes a) (Appointment_Patient a) (Appointment_Doctor a)
      (Appointment_MedicalTests a);
  createdAt := Appointment_CreatedAt;
  setCreatedAt t a :=
    mkAppointment (Appointment_ID a) t
      (Appointment_PatientID a) (Appointment_DoctorID a) (Appointment_Date a)
      (Appointment_Diagnosis a) (Appointment_Treatment a)
      (Appointment_Notes a) (Appointment_Patient a) (Appointment_Doctor a)
      (Appointment_MedicalTests a);
  columns := Appointment_columns;
  constraint := fun _ => None;
  scans a :=
    (uintScans (Appointment_PatientID a)
     && uintScans (Appointment_DoctorID a))%bool |}.

Definition MedicalTest_columns (m : MedicalTest) : MedicalTest :=
  mkMedicalTest (MedicalTest_ID m) (MedicalTest_CreatedAt m)
    (MedicalTest_AppointmentID m) (MedicalTest_Name m) (MedicalTest_Result m)
    (MedicalTest_Unit m) (MedicalTest_ReferenceRange m) zeroAppointment.

#[export] Instance MedicalTest_Model : Model MedicalTest := {|
  primaryKey := MedicalTest_ID;
  setPrimaryKey id m :=
    mkMedicalTest id (MedicalTest_CreatedAt m)
      (MedicalTest_AppointmentID m) (MedicalTest_Name m)
      (MedicalTest_Result m) (MedicalTest_Unit m)
      (MedicalTest_ReferenceRange m) (MedicalTest_Appointment m);
  createdAt := MedicalTest_CreatedAt;
  setCreatedAt t m :=
    mkMedicalTest (MedicalTest_ID m) t
      (MedicalTest_AppointmentID m) (MedicalTest_Name m)
      (MedicalTest_Result m) (MedicalTest_Unit m)
      (MedicalTest_ReferenceRange m) (MedicalTest_Appointment m);
  columns := MedicalTest_columns;
  constraint := fun _ => None;
  scans m := uintScans (MedicalTest_AppointmentID m) |}.

Definition MedicalHistory_columns (h : MedicalHistory) : MedicalHistory :=
  mkMedicalHistory (MedicalHistory_ID h) (MedicalHistory_CreatedAt h)
    (MedicalHistory_PatientID h) (MedicalHistory_HistoryType h)
    (MedicalHistory_Description h) (MedicalHistory_StartDate h)
    (MedicalHistory_Severity h) (MedicalHistory_Status h)
    (MedicalHistory_Notes h) zeroPatient.

#[export] Instance MedicalHistory_Model : Model MedicalHistory := {|
  primaryKey := MedicalHistory_ID;
  setPrimaryKey id h :=
    mkMedicalHistory id (MedicalHistory_CreatedAt h)
      (MedicalHistory_PatientID h) (MedicalHistory_HistoryType h)
      (MedicalHistory_Description h) (MedicalHistory_StartDate h)
      (MedicalHistory_Severity h) (MedicalHistory_Status h)
      (MedicalHistory_Notes h) (MedicalHistory_Patient h);
  createdAt := MedicalHistory_CreatedAt;
  setCreatedAt t h :=
    mkMedicalHistory (MedicalHistory_ID h) t
      (MedicalHistory_PatientID h) (MedicalHistory_HistoryType h)
      (MedicalHistory_Description h) (MedicalHistory_StartDate h)
      (MedicalHistory_Severity h) (MedicalHistory_Status h)
      (MedicalHistory_Notes h) (MedicalHistory_Patient h);
  columns := MedicalHistory_columns;
  constraint := fun _ => None;
  scans h := uintScans (MedicalHistory_PatientID h) |}.

(** ** The database: the five tables that AutoMigrate creates *)

Record DB : Type := mkDB {
  patients : Table Patient;
  doctors : Table Doctor;
  appointments : Table Appointment;
  medical_tests : Table MedicalTest;
  medical_histories : Table MedicalHistory }.

Definition with_patients (t : Table Patient) (db : DB) : DB :=
  mkDB t (doctors db) (appointments db) (medical_tests db)
    (medical_histories db).
Definition with_doctors (t : Table Doctor) (db : DB) : DB :=
  mkDB (patients db) t (appointments db) (medical_tests db)
    (medical_histories db).
Definition with_appointments (t : Table Appointment) (db : DB) : DB :=
  mkDB (patients db) (doctors db) t (medical_tests db)
    (medical_histories db).
Definition with_medical_tests (t : Table MedicalTest) (db : DB) : DB :=
  mkDB (patients db) (doctors db) (appointments db) t
    (medical_histories db).
Definition with_medical_histories (t : Table MedicalHistory) (db : DB) : DB :=
  mkDB (patients db) (doctors db) (appointments db) (medical_tests db) t.

(** A database file that has just been created and migrated. *)
Definition emptyDB : DB :=
  mkDB (mkTable [] 0) (mkTable [] 0) (mkTable [] 0) (mkTable [] 0)
    (mkTable [] 0).

(** ** Preloading of associations

    [Preload] runs one further query per association and stores its rows in
    the association field; a belongs-to field whose key matches no row keeps
    the value it had.  The rows of a has-many association are those whose
    foreign-key column holds the key of the owner; they are scanned into
    their structs, and a preload whose scan fails fails the query that asked
    for it. *)

Definition preloadPatient (db : DB) (a : Appointment) : Appointment :=
  match find (hasKey (Z.of_N (Appointment_PatientID a))) (rows (patients db))
  with
  | Some p =>
      mkAppointment (Appointment_ID a) (Appointment_CreatedAt a)
        (Appointment_PatientID a) (Appointment_DoctorID a)
        (Appointment_Date a) (Appointment_Diagnosis a)
        (Appointment_Treatment a) (Appointment_Notes a)
        p (Appointment_Doctor a) (Appointment_MedicalTests a)
  | None => a
  end.

Definition preloadDoctor (db : DB) (a : Appointment) : Appointment :=
  match find (hasKey (Z.of_N (Appointment_DoctorID a))) (rows (doctors db))
  with
  | Some d =>
      mkAppointment (Appointment_ID a) (Appointment_CreatedAt a)
        (Appointment_PatientID a) (Appointment_DoctorID a)
        (Appointment_Date a) (Appointment_Diagnosis a)
        (Appointment_Treatment a) (Appointment_Notes a)
        (Appointment_Patient a) d (Appointment_MedicalTests a)
  | None => a
  end.

Definition testsOf (db : DB) (a : Appointment) : list MedicalTest :=
  filter
    (fun m => eqParam (MedicalTest_AppointmentID m) (Z.of_N (Appointment_ID a)))
    (rows (medical_tests db)).

Definition preloadMedicalTests (db : DB) (a : Appointment)
  : result Appointment :=
  andThen (scanned (testsOf db a)) (fun tests =>
  Ok (mkAppointment (Appointment_ID a) (Appointment_CreatedAt a)
        (Appointment_PatientID a) (Appointment_DoctorID a)
        (Appointment_Date a) (Appointment_Diagnosis a)
        (Appointment_Treatment a) (Appointment_Notes a)
        (Appointment_Patient a) (Appointment_Doctor a) tests)).

Definition historyOf (db : DB) (p : Patient) : list MedicalHistory :=
  filter
    (fun h => eqParam (MedicalHistory_PatientID h) (Z.of_N (Patient_ID p)))
    (rows (medical_histories db)).

Definition preloadMedicalHistory (db : DB) (p : Patient) : result Patient :=
  andThen (scanned (historyOf db p)) (fun history =>
  Ok (mkPatient (Patient_ID p) (Patient_CreatedAt p) (Patient_FullName p)
        (Patient_BirthDate p) (Patient_Gender p) (Patient_Phone p)
        (Patient_Email p) (Patient_Appointments p) history)).

Definition appointmentsOfPatient (db : DB) (p : Patient)
  : list Appointment :=
  filter
    (fun a => eqParam (Appointment_PatientID a) (Z.of_N (Patient_ID p)))
    (rows (appointments db)).

Definition preloadAppointments (db : DB) (p : Patient) : result Patient :=
  andThen (scanned (appointmentsOfPatient db p)) (fun appointments =>
  Ok (mkPatient (Patient_ID p) (Patient_CreatedAt p) (Patient_FullName p)
        (Patient_BirthDate p) (Patient_Gender p) (Patient_Phone p)
        (Patient_Email p) appointments (Patient_MedicalHistory p))).

(** [Preload("Appointments.Doctor")]: the doctor of each loaded
    appointment. *)
Definition preloadAppointmentsDoctor (db : DB) (p : Patient) : Patient :=
  mkPatient (Patient_ID p) (Patient_CreatedAt p) (Patient_FullName p)
    (Patient_BirthDate p) (Patient_Gender p) (Patient_Phone p)
    (Patient_Email p)
    (map (preloadDoctor db) (Patient_Appointments p))
    (Patient_MedicalHistory p).

Definition preloadHistoryPatient (db : DB) (h : MedicalHistory)
  : MedicalHistory :=
  match find (hasKey (Z.of_N (MedicalHistory_PatientID h)))
          (rows (patients db))
  with
  | Some p =>
      mkMedicalHistory (MedicalHistory_ID h) (MedicalHistory_CreatedAt h)
        (MedicalHistory_PatientID h) (MedicalHistory_HistoryType h)
        (MedicalHistory_Description h) (MedicalHistory_StartDate h)
        (MedicalHistory_Severity h) (MedicalHistory_Status h)
        (MedicalHistory_Notes h) p
  | None => h
  end.

(** ** Request binding: gin's [ShouldBindJSON]

    The request body is either no JSON object with values of the right
    kinds for the DTO (malformed JSON, a text where a number is expected, a
    negative number for a [uint]), or such an object, given as the DTO with
    the values as written and the zero value for every absent field.  The
    decoding of such an object still fails when a number does not fit its
    [uint] field; the [required] tags are then checked, and a required field
    fails when it holds the zero value of its type. *)

Module gin.

Inductive Body (T : Type) : Type :=
| Malformed (msg : string)
| Decoded (v : T).
Arguments Malformed {T} msg.
Arguments Decoded {T} v.

(** The DTO's name and, for a decoded struct, the JSON names of its [uint]
    fields whose number does not fit and the names of its required fields
    that hold a zero value, in declaration order. *)
Class Binding (T : Type) : Type := {
  structName : string;
  outOfRange : T -> list string;
  missing : T -> list string }.

Definition maxUint : N := (2 ^ 64 - 1)%N.

Definition uintField (name : string) (v : N) : list string :=
  if (v <=? maxUint)%N then [] else [name].

Definition requiredString (name : string) (v : string) : list string :=
  if String.eqb v "" then [name] else [].
Definition requiredUint (name : string) (v : N) : list string :=
  if (v =? 0)%N then [name] else [].
Definition requiredTime (name : string) (v : Time) : list string :=
  if time.isZeroValue v then [name] else [].

Definition newline : string := String (ascii_of_nat 10) "".

Definition fieldError (struct field : string) : string :=
  "Key: '" ++ struct ++ "." ++ field
  ++ "' Error:Field validation for '" ++ field
  ++ "' failed on the 'required' tag".

Definition validationError (struct : string) (fields : list string)
  : string :=
  String.concat newline (map (fieldError struct) fields).

(** The message of the decoder also quotes the number. *)
Definition unmarshalError (struct field : string) : string :=
  "json: cannot unmarshal number into Go struct field "
  ++ struct ++ "." ++ field ++ " of type uint".

Definition ShouldBindJSON {T : Type} `{Binding T} (body : Body T)
  : result T :=
  match body with
  | Malformed msg => Err msg
  | Decoded v =>
      match outOfRange v with
      | field :: _ => Err (unmarshalError structName field)
      | [] =>
          match missing v with
          | [] => Ok v
          | fields => Err (validationError structName fields)
          end
      end
  end.

End gin.

Import gin.

#[export] Instance CreatePatientRequest_Binding
  : Binding CreatePatientRequest := {|
  structName := "CreatePatientRequest";
  outOfRange _ := [];
  missing req :=
    requiredString "FullName" (CreatePatientRequest_FullName req)
    ++ requiredTime "BirthDate" (CreatePatientRequest_BirthDate req)
    ++ requiredString "Gender" (CreatePatientRequest_Gender req) |}.

#[export] Instance CreateAppointmentRequest_Binding
  : Binding CreateAppointmentRequest := {|
  structName := "CreateAppointmentRequest";
  outOfRange req :=
    uintField "patient_id" (CreateAppointmentRequest_PatientID req)
    ++ uintField "doctor_id" (CreateAppointmentRequest_DoctorID req);
  missing req :=
    requiredUint "PatientID" (CreateAppointmentRequest_PatientID req)
    ++ requiredUint "DoctorID" (CreateAppointmentRequest_DoctorID req)
    ++ requiredTime "Date" (CreateAppointmentRequest_Date req) |}.

#[export] Instance CreateMedicalHistoryRequest_Binding
  : Binding CreateMedicalHistoryRequest := {|
  structName := "CreateMedicalHistoryRequest";
  outOfRange req :=
    uintField "patient_id" (CreateMedicalHistoryRequest_PatientID req);
  missing req :=
    requiredUint "PatientID" (CreateMedicalHistoryRequest_PatientID req)
    ++ requiredString "HistoryType"
         (CreateMedicalHistoryRequest_HistoryType req)
    ++ requiredString "Description"
         (CreateMedicalHistoryRequest_Description req) |}.

(** ** Responses *)

Module http.
Definition StatusOK : N := 200.
Definition StatusCreated : N := 201.
Definition StatusNoContent : N := 204.
Definition StatusBadRequest : N := 400.
Definition StatusNotFound : N := 404.
Definition StatusInternalServerError : N := 500.
End http.

(** What a handler hands to [c.JSON]: a struct, a slice of structs, or one
    of the two [gin.H] objects, [{"error": msg}] and [{"message": msg}]. *)
Inductive JSON : Type :=
| JPatient (p : Patient)
| JPatients (l : list Patient)
| JDoctor (d : Doctor)
| JDoctors (l : list Doctor)
| JAppointment (a : Appointment)
| JAppointments (l : list Appointment)
| JMedicalTests (l : list MedicalTest)
| JMedicalHistory (h : MedicalHistory)
| JMedicalHistories (l : list MedicalHistory)
| H_error (msg : string)
| H_message (msg : string).

Record Response : Type := mkResponse {
  status : N;
  body : JSON }.

(** ** The handlers

    Each handler takes what it reads of the request (the [:id] path
    parameter as the integer it denotes, query parameters as strings, empty
    when absent, and the body), the clock reading and one fault per storage
    call it makes, and the database; a handler that writes returns the new
    database.  A path parameter that is not a decimal integer is handed by
    gorm to the SQL engine as a condition of its own and is not covered; one
    that is a decimal integer outside 64 bits is (see [selected]). *)

Section Handlers.
Context {dialect : Dialector}.

(* Patients *)

Definition getPatients (fault : Fault) (db : DB) : Response :=
  match Find fault [] (patients db) with
  | Err e => mkResponse http.StatusInternalServerError (H_error e)
  | Ok patients => mkResponse http.StatusOK (JPatients patients)
  end.

Definition getPatient (fault : Fault) (id : Z) (db : DB) : Response :=
  match
    andThen (First fault id (patients db)) (fun patient =>
    andThen (preloadMedicalHistory db patient) (fun patient =>
    andThen (preloadAppointments db patient) (fun patient =>
    Ok (preloadAppointmentsDoctor db patient))))
  with
  | Err _ => mkResponse http.StatusNotFound (H_error "Patient not found")
  | Ok patient => mkResponse http.StatusOK (JPatient patient)
  end.

Definition createPatient (now : Time) (fault : Fault)
  (body : Body CreatePatientRequest) (db : DB) : Response * DB :=
  match ShouldBindJSON body with
  | Err e => (mkResponse http.StatusBadRequest (H_error e), db)
  | Ok req =>
      let patient :=
        mkPatient 0 time.zero
          (CreatePatientRequest_FullName req)
          (CreatePatientRequest_BirthDate req)
          (CreatePatientRequest_Gender req)
          (CreatePatientRequest_Phone req)
          (CreatePatientRequest_Email req) [] [] in
      match Create now fault patient (patients db) with
      | (Err e, _) =>
          (mkResponse http.StatusInternalServerError (H_error e), db)
      | (Ok patient, t) =>
          (mkResponse http.StatusCreated (JPatient patient),
           with_patients t db)
      end
  end.

Definition updatePatient (now : Time) (fault1 fault2 : Fault) (id : Z)
  (body : Body CreatePatientRequest) (db : DB) : Response * DB :=
  match First fault1 id (patients db) with
  | Err _ =>
      (mkResponse http.StatusNotFound (H_error "Patient not found"), db)
  | Ok patient =>
      match ShouldBindJSON body with
      | Err e => (mkResponse http.StatusBadRequest (H_error e), db)
      | Ok req =>
          let patient :=
            mkPatient (Patient_ID patient) (Patient_CreatedAt patient)
              (CreatePatientRequest_FullName req)
              (CreatePatientRequest_BirthDate req)
              (CreatePatientRequest_Gender req)
              (CreatePatientRequest_Phone req)
              (CreatePatientRequest_Email req)
              (Patient_Appointments patient)
              (Patient_MedicalHistory patient) in
          match Save now fault2 patient (patients db) with
          | (Err e, _) =>
              (mkResponse http.StatusInternalServerError (H_error e), db)
          | (Ok patient, t) =>
              (mkResponse http.StatusOK (JPatient patient),
               with_patients t db)
          end
      end
  end.

Definition deletePatient (fault : Fault) (id : Z) (db : DB)
  : Response * DB :=
  match Delete fault id (patients db) with
  | (Err e, _) =>
      (mkResponse http.StatusInternalServerError (H_error e), db)
  | (Ok _, t) =>
      (mkResponse http.StatusOK (H_message "Patient deleted"),
       with_patients t db)
  end.

Definition getPatientAppointments (fault : Fault) (id : Z) (db : DB)
  : Response :=
  match Find fault
          (Where [] (fun a => eqParam (Appointment_PatientID a) id))
          (appointments db) with
  | Err e => mkResponse http.StatusInternalServerError (H_error e)
  | Ok appointments =>
      mkResponse http.StatusOK
        (JAppointments (map (preloadDoctor db) appointments))
  end.

Definition getPatientMedicalHistory (fault : Fault) (id : Z) (db : DB)
  : Response :=
  match Find fault
          (Where [] (fun h => eqParam (MedicalHistory_PatientID h) id))
          (medical_histories db) with
  | Err e => mkResponse http.StatusInternalServerError (H_error e)
  | Ok history => mkResponse http.StatusOK (JMedicalHistories history)
  end.

(* Doctors *)

Definition getDoctors (fault : Fault) (db : DB) : Response :=
  match Find fault [] (doctors db) with
  | Err e => mkResponse http.StatusInternalServerError (H_error e)
  | Ok doctors => mkResponse http.StatusOK (JDoctors doctors)
  end.

Definition getDoctor (fault : Fault) (id : Z) (db : DB) : Response :=
  match First fault id (doctors db) with
  | Err _ => mkResponse http.StatusNotFound (H_error "Doctor not found")
  | Ok doctor => mkResponse http.StatusOK (JDoctor doctor)
  end.

Definition getDoctorAppointments (fault : Fault) (id : Z) (db : DB)
  : Response :=
  match Find fault
          (Where [] (fun a => eqParam (Appointment_DoctorID a) id))
          (appointments db) with
  | Err e => mkResponse http.StatusInternalServerError (H_error e)
  | Ok appointments =>
      mkResponse http.StatusOK
        (JAppointments (map (preloadPatient db) appointments))
  end.

(* Appointments *)

Definition getAppointments (fault : Fault) (patient_id doctor_id : string)
  (db : DB) : Response :=
  let query : Query (T := Appointment) := [] in
  let query :=
    if negb (String.eqb patient_id "")
    then Where query (fun a => eqText (Appointment_PatientID a) patient_id)
    else query in
  let query :=
    if negb (String.eqb doctor_id "")
    then Where query (fun a => eqText (Appointment_DoctorID a) doctor_id)
    else query in
  match Find fault query (appointments db) with
  | Err e => mkResponse http.StatusInternalServerError (H_error e)
  | Ok appointments =>
      mkResponse http.StatusOK
        (JAppointments
           (map (fun a => preloadDoctor db (preloadPatient db a))
              appointments))
  end.

Definition getAppointment (fault : Fault) (id : Z) (db : DB) : Response :=
  match
    andThen (First fault id (appointments db)) (fun appointment =>
    preloadMedicalTests db
      (preloadDoctor db (preloadPatient db appointment)))
  with
  | Err _ =>
      mkResponse http.StatusNotFound (H_error "Appointment not found")
  | Ok appointment => mkResponse http.StatusOK (JAppointment appointment)
  end.

Definition createAppointment (now : Time) (fault : Fault)
  (body : Body CreateAppointmentRequest) (db : DB) : Response * DB :=
  match ShouldBindJSON body with
  | Err e => (mkResponse http.StatusBadRequest (H_error e), db)
  | Ok req =>
      let appointment :=
        mkAppointment 0 time.zero
          (CreateAppointmentRequest_PatientID req)
          (CreateAppointmentRequest_DoctorID req)
          (CreateAppointmentRequest_Date req)
          (CreateAppointmentRequest_Diagnosis req)
          (CreateAppointmentRequest_Treatment req)
          (CreateAppointmentRequest_Notes req)
          zeroPatient zeroDoctor [] in
      match Create now fault appointment (appointments db) with
      | (Err e, _) =>
          (mkResponse http.StatusInternalServerError (H_error e), db)
      | (Ok appointment, t) =>
          (mkResponse http.StatusCreated (JAppointment appointment),
           with_appointments t db)
      end
  end.

Definition updateAppointment (now : Time) (fault1 fault2 : Fault) (id : Z)
  (body : Body CreateAppointmentRequest) (db : DB) : Response * DB :=
  match First fault1 id (appointments db) with
  | Err _ =>
      (mkResponse http.StatusNotFound (H_error "Appointment not found"), db)
  | Ok appointment =>
      match ShouldBindJSON body with
      | Err e => (mkResponse http.StatusBadRequest (H_error e), db)
      | Ok req =>
          let appointment :=
            mkAppointment (Appointment_ID appointment)
              (Appointment_CreatedAt appointment)
              (CreateAppointmentRequest_PatientID req)
              (CreateAppointmentRequest_DoctorID req)
              (CreateAppointmentRequest_Date req)
              (CreateAppointmentRequest_Diagnosis req)
              (CreateAppointmentRequest_Treatment req)
              (CreateAppointmentRequest_Notes req)
              (Appointment_Patient appointment)
              (Appointment_Doctor appointment)
              (Appointment_MedicalTests appointment) in
          match Save now fault2 appointment (appointments db) with
          | (Err e, _) =>
              (mkResponse http.StatusInternalServerError (H_error e), db)
          | (Ok appointment, t) =>
              (mkResponse http.StatusOK (JAppointment appointment),
               with_appointments t db)
          end
      end
  end.

Definition deleteAppointment (fault : Fault) (id : Z) (db : DB)
  : Response * DB :=
  match Delete fault id (appointments db) with
  | (Err e, _) =>
      (mkResponse http.StatusInternalServerError (H_error e), db)
  | (Ok _, t) =>
      (mkResponse http.StatusOK (H_message "Appointment deleted"),
       with_appointments t db)
  end.

Definition getAppointmentTests (fault : Fault) (id : Z) (db : DB)
  : Response :=
  match Find fault
          (Where [] (fun m => eqParam (MedicalTest_AppointmentID m) id))
          (medical_tests db) with
  | Err e => mkResponse http.StatusInternalServerError (H_error e)
  | Ok tests => mkResponse http.StatusOK (JMedicalTests tests)
  end.

(* Medical history *)

Definition getMedicalHistory (fault : Fault) (patient_id type : string)
  (db : DB) : Response :=
  let query : Query (T := MedicalHistory) := [] in
  let query :=
    if negb (String.eqb patient_id "")
    then Where query (fun h => eqText (MedicalHistory_PatientID h) patient_id)
    else query in
  let query :=
    if negb (String.eqb type "")
    then Where query (fun h => String.eqb (MedicalHistory_HistoryType h) type)
    else query in
  match Find fault query (medical_histories db) with
  | Err e => mkResponse http.StatusInternalServerError (H_error e)
  | Ok history =>
      mkResponse http.StatusOK
        (JMedicalHistories (map (preloadHistoryPatient db) history))
  end.

Definition createMedicalHistory (now : Time) (fault : Fault)
  (body : Body CreateMedicalHistoryRequest) (db : DB) : Response * DB :=
  match ShouldBindJSON body with
  | Err e => (mkResponse http.StatusBadRequest (H_error e), db)
  | Ok req =>
      let history :=
        mkMedicalHistory 0 time.zero
          (CreateMedicalHistoryRequest_PatientID req)
          (CreateMedicalHistoryRequest_HistoryType req)
          (CreateMedicalHistoryRequest_Description req)
          (CreateMedicalHistoryRequest_StartDate req)
          (CreateMedicalHistoryRequest_Severity req)
          (CreateMedicalHistoryRequest_Status req)
          (CreateMedicalHistoryRequest_Notes req)
          zeroPatient in
      match Create now fault history (medical_histories db) with
      | (Err e, _) =>
          (mkResponse http.StatusInternalServerError (H_error e), db)
      | (Ok history, t) =>
          (mkResponse http.StatusCreated (JMedicalHistory history),
           with_medical_histories t db)
      end
  end.

Definition deleteMedicalHistory (fault : Fault) (id : Z) (db : DB)
  : Response * DB :=
  match Delete fault id (medical_histories db) with
  | (Err e, _) =>
      (mkResponse http.StatusInternalServerError (H_error e), db)
  | (Ok _, t) =>
      (mkResponse http.StatusOK (H_message "Medical history record deleted"),
       with_medical_histories t db)
  end.

(** ** The route table of [main] *)

Inductive Request : Type :=
| GET_patients
| GET_patients_id (id : Z)
| POST_patients (body : Body CreatePatientRequest)
| PUT_patients_id (id : Z) (body : Body CreatePatientRequest)
| DELETE_patients_id (id : Z)
| GET_patients_id_appointments (id : Z)
| GET_patients_id_medical_history (id : Z)
| GET_doctors
| GET_doctors_id (id : Z)
| GET_doctors_id_appointments (id : Z)
| GET_appointments (patient_id doctor_id : string)
| GET_appointments_id (id : Z)
| POST_appointments (body : Body CreateAppointmentRequest)
| PUT_appointments_id (id : Z) (body : Body CreateAppointmentRequest)
| DELETE_appointments_id (id : Z)
| GET_appointments_id_tests (id : Z)
| GET_medical_history (patient_id type : string)
| POST_medical_history (body : Body CreateMedicalHistoryRequest)
| DELETE_medical_history_id (id : Z).

(** What the world contributes to the handling of one request: the clock
    reading and the fault of each storage call the handler makes. *)
Record Env : Type := mkEnv {
  env_now : Time;
  env_fault1 : Fault;
  env_fault2 : Fault }.

Definition serve (env : Env) (req : Request) (db : DB) : Response * DB :=
  let now := env_now env in
  let fault := env_fault1 env in
  match req with
  | GET_patients => (getPatients fault db, db)
  | GET_patients_id id => (getPatient fault id db, db)
  | POST_patients body => createPatient now fault body db
  | PUT_patients_id id body =>
      updatePatient now fault (env_fault2 env) id body db
  | DELETE_patients_id id => deletePatient fault id db
  | GET_patients_id_appointments id => (getPatientAppointments fault id db, db)
  | GET_patients_id_medical_history id =>
      (getPatientMedicalHistory fault id db, db)
  | GET_doctors => (getDoctors fault db, db)
  | GET_doctors_id id => (getDoctor fault id db, db)
  | GET_doctors_id_appointments id => (getDoctorAppointments fault id db, db)
  | GET_appointments patient_id doctor_id =>
      (getAppointments fault patient_id doctor_id db, db)
  | GET_appointments_id id => (getAppointment fault id db, db)
  | POST_appointments body => createAppointment now fault body db
  | PUT_appointments_id id body =>
      updateAppointment now fault (env_fault2 env) id body db
  | DELETE_appointments_id id => deleteAppointment fault id db
  | GET_appointments_id_tests id => (getAppointmentTests fault id db, db)
  | GET_medical_history patient_id type =>
      (getMedicalHistory fault patient_id type db, db)
  | POST_medical_history body => createMedicalHistory now fault body db
  | DELETE_medical_history_id id => deleteMedicalHistory fault id db
  end.

(** The database after a sequence of requests, each served in its own
    environment. *)
Fixpoint serveAll (reqs : list (Env * Request)) (db : DB) : DB :=
  match reqs with
  | [] => db
  | (env, req) :: reqs' => serveAll reqs' (snd (serve env req db))
  end.

End Handlers.

(** ** The seed routine

    [clock k] is the k-th reading of the wall clock during the routine (one
    by each [Create], one by each [time.Now()] of the appointment literals),
    [fault k] the fault of its k-th storage statement.  No result of a
    storage statement is looked at. *)

Definition seedPatients : list Patient :=
  [ mkPatient 0 time.zero
      "Иванов Иван Иванович"
      (time.Date 1985 5 15 0 0 0 0) "male"
      "+79990000001" "ivanov@mail.ru" [] [];
    mkPatient 0 time.zero
      "Петрова Мария Сергеевна"
      (time.Date 1990 8 22 0 0 0 0) "female"
      "+79990000002" "petrova@mail.ru" [] [];
    mkPatient 0 time.zero
      "Сидоров Алексей Владимирович"
      (time.Date 1978 3 10 0 0 0 0) "male"
      "+79990000003" "sidorov@mail.ru" [] [];
    mkPatient 0 time.zero
      "Кузнецова Елена Викторовна"
      (time.Date 1982 11 5 0 0 0 0) "female"
      "+79990000004" "kuznetsova@mail.ru" [] [];
    mkPatient 0 time.zero
      "Смирнов Дмитрий Петрович"
      (time.Date 1995 7 30 0 0 0 0) "male"
      "+79990000005" "smirnov@mail.ru" [] [] ].

Definition seedDoctors : list Doctor :=
  [ mkDoctor 0 time.zero
      "Прохоров Андрей Васильевич"
      "Кардиолог"
      "+79991111111" "prokhorov@clinic.ru" [];
    mkDoctor 0 time.zero
      "Громова Ольга Игоревна"
      "Невролог"
      "+79991111112" "gromova@clinic.ru" [];
    mkDoctor 0 time.zero
      "Белов Станислав Михайлович"
      "Терапевт"
      "+79991111113" "belov@clinic.ru" [];
    mkDoctor 0 time.zero
      "Ковальчук Анна Денисовна"
      "Офтальмолог"
      "+79991111114" "kovalchuk@clinic.ru" [] ].

Definition seedAppointments (clock : nat -> Time) : list Appointment :=
  [ mkAppointment 0 time.zero 1 1
      (time.Add (clock 2%nat) (-24 * time.Hour))
      "Гипертония"
      "Контроль давления, лизиноприл 10 мг 1 раз в день"
      "Жалобы на головные боли"
      zeroPatient zeroDoctor [];
    mkAppointment 0 time.zero 2 2
      (time.Add (clock 3%nat) (-12 * time.Hour))
      "Мигрень"
      "Ибупрофен при болях, режим сна"
      "Рекомендован отдых"
      zeroPatient zeroDoctor [];
    mkAppointment 0 time.zero 3 3
      (time.Add (clock 4%nat) (-6 * time.Hour))
      "ОРВИ"
      "Обильное питье, парацетамол"
      "Температура 37.8"
      zeroPatient zeroDoctor [];
    mkAppointment 0 time.zero 4 4
      (time.Add (clock 5%nat) (-3 * time.Hour))
      "Конъюнктивит"
      "Глазные капли Офтальмоферон"
      "Назначен повторный прием через 5 дней"
      zeroPatient zeroDoctor [];
    mkAppointment 0 time.zero 5 1
      (clock 6%nat)
      "Аритмия"
      "Холтеровское мониторирование"
      "Направлен на дополнительное обследование"
      zeroPatient zeroDoctor [] ].

Definition seedMedicalTests : list MedicalTest :=
  [ mkMedicalTest 0 time.zero 1
      "Артериальное давление"
      "140/90" "мм рт.ст." "120/80"
      zeroAppointment;
    mkMedicalTest 0 time.zero 1
      "Холестерин"
      "5.2" "ммоль/л" "3.5-5.2"
      zeroAppointment;
    mkMedicalTest 0 time.zero 2
      "МРТ головного мозга"
      "Без патологий" "-" "-"
      zeroAppointment;
    mkMedicalTest 0 time.zero 3
      "Температура тела"
      "37.8" "°C" "36.6"
      zeroAppointment;
    mkMedicalTest 0 time.zero 4
      "Острота зрения"
      "0.8" "усл.ед." "1.0"
      zeroAppointment;
    mkMedicalTest 0 time.zero 5
      "ЭКГ"
      "Мерцательная аритмия" "-" "Синусовый ритм"
      zeroAppointment ].

Definition seedMedicalHistories : list MedicalHistory :=
  [ mkMedicalHistory 0 time.zero 1 "allergy"
      "Аллергия на пенициллин"
      (time.Date 2005 1 1 0 0 0 0)
      "severe" "active"
      "Анафилактический шок при приеме"
      zeroPatient;
    mkMedicalHistory 0 time.zero 2 "allergy"
      "Сезонная аллергия на пыльцу"
      (time.Date 2010 1 1 0 0 0 0)
      "moderate" "active"
      "Обострение весной"
      zeroPatient;
    mkMedicalHistory 0 time.zero 1 "chronic"
      "Артериальная гипертензия"
      (time.Date 2015 1 1 0 0 0 0)
      "moderate" "chronic"
      "Постоянный прием препаратов"
      zeroPatient;
    mkMedicalHistory 0 time.zero 3 "chronic"
      "Сахарный диабет 2 типа"
      (time.Date 2018 1 1 0 0 0 0)
      "mild" "chronic"
      "Контроль диеты"
      zeroPatient;
    mkMedicalHistory 0 time.zero 4 "chronic"
      "Бронхиальная астма"
      (time.Date 2012 1 1 0 0 0 0)
      "mild" "chronic"
      "Ингалятор по необходимости"
      zeroPatient;
    mkMedicalHistory 0 time.zero 2 "surgery"
      "Аппендэктомия"
      (time.Date 2015 6 15 0 0 0 0)
      "moderate" "resolved"
      "Восстановление прошло без осложнений"
      zeroPatient;
    mkMedicalHistory 0 time.zero 5 "surgery"
      "Артроскопия коленного сустава"
      (time.Date 2020 3 10 0 0 0 0)
      "moderate" "resolved"
      "Спортивная травма"
      zeroPatient;
    mkMedicalHistory 0 time.zero 1 "family"
      "Инфаркт миокарда у отца в 55 лет"
      (time.Date 2010 1 1 0 0 0 0)
      "severe" "active"
      "Наследственная предрасположенность"
      zeroPatient;
    mkMedicalHistory 0 time.zero 3 "family"
      "Онкологические заболевания у родственников"
      (time.Date 2000 1 1 0 0 0 0)
      "moderate" "active"
      "Бабушка - рак молочной железы"
      zeroPatient;
    mkMedicalHistory 0 time.zero 3 "habit"
      "Курение"
      (time.Date 2000 1 1 0 0 0 0)
      "moderate" "active"
      "10 сигарет в день, 20 лет стажа"
      zeroPatient;
    mkMedicalHistory 0 time.zero 5 "habit"
      "Злоупотребление алкоголем"
      (time.Date 2018 1 1 0 0 0 0)
      "mild" "resolved"
      "Воздержание 2 года"
      zeroPatient ].

Definition seedDatabase (clock : nat -> Time) (fault : nat -> Fault)
  (db : DB) : DB :=
  (* clearing the existing data *)
  let db :=
    with_medical_histories
      (snd (ExecDeleteAll (fault 0%nat) (medical_histories db))) db in
  let db :=
    with_medical_tests
      (snd (ExecDeleteAll (fault 1%nat) (medical_tests db))) db in
  let db :=
    with_appointments
      (snd (ExecDeleteAll (fault 2%nat) (appointments db))) db in
  let db :=
    with_patients (snd (ExecDeleteAll (fault 3%nat) (patients db))) db in
  let db :=
    with_doctors (snd (ExecDeleteAll (fault 4%nat) (doctors db))) db in
  (* patients *)
  let db :=
    with_patients
      (snd (CreateAll (clock 0%nat) (fault 5%nat) seedPatients (patients db)))
      db in
  (* doctors *)
  let db :=
    with_doctors
      (snd (CreateAll (clock 1%nat) (fault 6%nat) seedDoctors (doctors db)))
      db in
  (* appointments *)
  let db :=
    with_appointments
      (snd (CreateAll (clock 7%nat) (fault 7%nat) (seedAppointments clock)
              (appointments db)))
      db in
  (* medical tests *)
  let db :=
    with_medical_tests
      (snd (CreateAll (clock 8%nat) (fault 8%nat) seedMedicalTests
              (medical_tests db)))
      db in
  (* medical history *)
  with_medical_histories
    (snd (CreateAll (clock 9%nat) (fault 9%nat) seedMedicalHistories
            (medical_histories db)))
    db.

(** ** Startup

    [main] opens the database file, migrates the schema, seeds and then
    serves.  [file] is the content of [clinic.db] when the process starts
    ([emptyDB] when the file is new); the outcome is a panic or a listener
    serving the seeded database. *)

Inductive Process : Type :=
| Panic (msg : string)
| Listening (db : DB).

Definition main (openErr migrateErr : Fault) (clock : nat -> Time)
  (fault : nat -> Fault) (file : DB) : Process :=
  match openErr with
  | Some _ => Panic "Failed to connect to database"
  | None =>
      match migrateErr with
      | Some _ => Panic "Database migration failed"
      | None => Listening (seedDatabase clock fault file)
      end
  end.

(** A storage layer that never fails. *)
Definition noFault : nat -> Fault := fun _ => None.


(** ** Notions the statements below are written in *)

(** An identifier within 64 bits, and a reference below 2^63: the numbers
    that the storage layer compares and returns as they are written. *)
Definition within64 (id : Z) : Prop := (- 2 ^ 63 <= id < 2 ^ 63)%Z.

Definition below63 (n : N) : Prop := (n < 2 ^ 63)%N.

(** A number that fits a [uint] field. *)
Definition fitsUint (n : N) : Prop := (n < 2 ^ 64)%N.

(** An appointment whose references are below 2^63. *)
Definition readsBack (a : Appointment) : Prop :=
  below63 (Appointment_PatientID a) /\ below63 (Appointment_DoctorID a).

(** The filter of a filtered list as the interface describes it: a parameter
    that is absent imposes no condition, one that is present requires its
    column to equal the supplied value (for a reference, the integer that
    the supplied text is read as), and two parameters are combined with a
    logical AND. *)
Definition sameNumber (x y : option Z) : bool :=
  match x, y with
  | Some a, Some b => (a =? b)%Z
  | _, _ => false
  end.

Definition referenceAdmitted {dialect : Dialector} (param : string)
  (col : N) : bool :=
  (String.eqb param ""
   || sameNumber (numericValue param) (Some (Z.of_N col)))%bool.

Definition tagAdmitted (param : string) (col : string) : bool :=
  (String.eqb param "" || String.eqb col param)%bool.

Definition appointmentAdmitted {dialect : Dialector}
  (patient_id doctor_id : string) (a : Appointment) : bool :=
  (referenceAdmitted patient_id (Appointment_PatientID a)
   && referenceAdmitted doctor_id (Appointment_DoctorID a))%bool.

Definition historyAdmitted {dialect : Dialector}
  (patient_id type : string) (h : MedicalHistory) : bool :=
  (referenceAdmitted patient_id (MedicalHistory_PatientID h)
   && tagAdmitted type (MedicalHistory_HistoryType h))%bool.

(** A row without what the storage layer generated for it: the primary key
    and the creation timestamp. *)
Definition unstamped {T : Type} `{Model T} (r : T) : T :=
  setPrimaryKey 0%N (setCreatedAt time.zero r).

(** An appointment without its date. *)
Definition undated (a : Appointment) : Appointment :=
  mkAppointment (Appointment_ID a) (Appointment_CreatedAt a)
    (Appointment_PatientID a) (Appointment_DoctorID a) time.zero
    (Appointment_Diagnosis a) (Appointment_Treatment a) (Appointment_Notes a)
    (Appointment_Patient a) (Appointment_Doctor a)
    (Appointment_MedicalTests a).

(** The content of the five tables apart from generated keys, creation
    timestamps and appointment dates. *)
Definition demoData (db : DB)
  : list Patient * list Doctor * list Appointment * list MedicalTest
    * list MedicalHistory :=
  (map unstamped (rows (patients db)),
   map unstamped (rows (doctors db)),
   map (fun a => undated (unstamped a)) (rows (appointments db)),
   map unstamped (rows (medical_tests db)),
   map unstamped (rows (medical_histories db))).

(** The key counters of the five tables. *)
Definition counters (db : DB) : N * N * N * N * N :=
  (seq (patients db), seq (doctors db), seq (appointments db),
   seq (medical_tests db), seq (medical_histories db)).

(** The database with every table emptied and the key counters kept: what
    the DELETE statements of the seed routine leave when none fails. *)
Definition cleared (db : DB) : DB :=
  mkDB (mkTable [] (seq (patients db))) (mkTable [] (seq (doctors db)))
    (mkTable [] (seq (appointments db))) (mkTable [] (seq (medical_tests db)))
    (mkTable [] (seq (medical_histories db))).

(** No appointment refers to patient 0 or doctor 0, no history entry to
    patient 0. *)
Definition refersToNoZero (db : DB) : Prop :=
  Forall (fun a => Appointment_PatientID a <> 0%N
                   /\ Appointment_DoctorID a <> 0%N)
         (rows (appointments db))
  /\ Forall (fun h => MedicalHistory_PatientID h <> 0%N)
            (rows (medical_histories db)).

(** A clock for examples: noon of January 1, 2025, one nanosecond later at
    each reading, in the local zone as [time.Now()] reports it. *)
Definition exampleClock : nat -> Time :=
  fun k =>
    mkTime (instant (time.Date 2025 1 1 12 0 0 0) + Z.of_nat k)%Z Local.

(** The database of a first start at that time. *)
Definition exampleDB : DB := seedDatabase exampleClock noFault emptyDB.

(** The struct that [createAppointment] answers with for a request that
    binds, on a store whose appointments table is [t]. *)
Definition createdAppointment (now : Time) (req : CreateAppointmentRequest)
  (t : Table Appointment) : Appointment :=
  mkAppointment (nextKey t) now
    (CreateAppointmentRequest_PatientID req)
    (CreateAppointmentRequest_DoctorID req)
    (CreateAppointmentRequest_Date req)
    (CreateAppointmentRequest_Diagnosis req)
    (CreateAppointmentRequest_Treatment req)
    (CreateAppointmentRequest_Notes req)
    zeroPatient zeroDoctor [].

(** The structs that [createPatient] and [createMedicalHistory] answer with
    for a request that binds. *)
Definition createdPatient (now : Time) (req : CreatePatientRequest)
  (t : Table Patient) : Patient :=
  mkPatient (nextKey t) now
    (CreatePatientRequest_FullName req)
    (CreatePatientRequest_BirthDate req)
    (CreatePatientRequest_Gender req)
    (CreatePatientRequest_Phone req)
    (CreatePatientRequest_Email req) [] [].

Definition createdHistory (now : Time) (req : CreateMedicalHistoryRequest)
  (t : Table MedicalHistory) : MedicalHistory :=
  mkMedicalHistory (nextKey t) now
    (CreateMedicalHistoryRequest_PatientID req)
    (CreateMedicalHistoryRequest_HistoryType req)
    (CreateMedicalHistoryRequest_Description req)
    (CreateMedicalHistoryRequest_StartDate req)
    (CreateMedicalHistoryRequest_Severity req)
    (CreateMedicalHistoryRequest_Status req)
    (CreateMedicalHistoryRequest_Notes req)
    zeroPatient.


(** What a get-by-id answers with for a stored row: the row with the
    associations that the handler preloads. *)
Definition loadedPatient (db : DB) (p : Patient) : Patient :=
  mkPatient (Patient_ID p) (Patient_CreatedAt p) (Patient_FullName p)
    (Patient_BirthDate p) (Patient_Gender p) (Patient_Phone p)
    (Patient_Email p)
    (map (preloadDoctor db) (appointmentsOfPatient db p))
    (historyOf db p).

Definition loadedAppointment (db : DB) (a : Appointment) : Appointment :=
  mkAppointment (Appointment_ID a) (Appointment_CreatedAt a)
    (Appointment_PatientID a) (Appointment_DoctorID a)
    (Appointment_Date a) (Appointment_Diagnosis a)
    (Appointment_Treatment a) (Appointment_Notes a)
    (Appointment_Patient (preloadPatient db a))
    (Appointment_Doctor (preloadDoctor db a))
    (testsOf db a).

(** An identifier is fresh for a table when it is larger than every key the
    table has ever given out and no row of the table bears it; a row is the
    only one with its identifier when filtering the table by that identifier
    leaves exactly that row. *)
Definition freshIn {T : Type} `{Model T} (t : Table T) (id : N) : Prop :=
  (seq t < id)%N /\ forall r, In r (rows t) -> primaryKey r <> id.

Definition onlyRowWith {T : Type} `{Model T} (l : list T) (id : N) (r : T)
  : Prop :=
  filter (hasKey (Z.of_N id)) l = [r].

(** What one request can do to a table: nothing, or one [Create], [Save] or
    [Delete]. *)
Inductive mutation {T : Type} `{Model T} (t : Table T) : Table T -> Prop :=
| mutation_none : mutation t t
| mutation_Create (now : Time) (fault : Fault) (v : T) :
    mutation t (snd (Create now fault v t))
| mutation_Save (now : Time) (fault : Fault) (v : T) :
    mutation t (snd (Save now fault v t))
| mutation_Delete (fault : Fault) (id : Z) :
    mutation t (snd (Delete fault id t)).

(** The two facts about keys that hold of every struct of the program:
    setting the key sets it, and the key is one of the columns. *)
Class KeyLaws (T : Type) `{Model T} : Prop := {
  primaryKey_setPrimaryKey :
    forall (id : N) (r : T), primaryKey (setPrimaryKey id r) = id;
  primaryKey_columns :
    forall r : T, primaryKey (columns r) = primaryKey r }.

(** No row bears the key 0. *)
Definition keyed {T : Type} `{Model T} (t : Table T) : Prop :=
  Forall (fun r => primaryKey r <> 0%N) (rows t).

Definition wellKeyed (db : DB) : Prop :=
  keyed (patients db) /\ keyed (doctors db) /\ keyed (appointments db)
  /\ keyed (medical_tests db) /\ keyed (medical_histories db).

(** A status that is not the one assumed. *)
Ltac status_mismatch H :=
  exfalso; cbv [fst status] in H; vm_compute in H; discriminate H.

(** ** Notions for further properties of the handlers *)

(** The status codes each route can answer with. *)
Definition routeStatuses (req : Request) : list N :=
  match req with
  | GET_patients | GET_doctors | GET_appointments _ _
  | GET_medical_history _ _
  | GET_patients_id_appointments _ | GET_patients_id_medical_history _
  | GET_doctors_id_appointments _ | GET_appointments_id_tests _ =>
      [http.StatusOK; http.StatusInternalServerError]
  | GET_patients_id _ | GET_doctors_id _ | GET_appointments_id _ =>
      [http.StatusOK; http.StatusNotFound]
  | POST_patients _ | POST_appointments _ | POST_medical_history _ =>
      [http.StatusCreated; http.StatusBadRequest;
       http.StatusInternalServerError]
  | PUT_patients_id _ _ | PUT_appointments_id _ _ =>
      [http.StatusOK; http.StatusBadRequest; http.StatusNotFound;
       http.StatusInternalServerError]
  | DELETE_patients_id _ | DELETE_appointments_id _
  | DELETE_medical_history_id _ =>
      [http.StatusOK; http.StatusInternalServerError]
  end.

(** A body of the shape [{"error": msg}]. *)
Definition isErrorBody (j : JSON) : bool :=
  match j with
  | H_error _ => true
  | _ => false
  end.

(** A request that only reads. *)
Definition isRead (req : Request) : bool :=
  match req with
  | POST_patients _ | PUT_patients_id _ _ | DELETE_patients_id _
  | POST_appointments _ | PUT_appointments_id _ _ | DELETE_appointments_id _
  | POST_medical_history _ | DELETE_medical_history_id _ => false
  | _ => true
  end.

(** The columns of a row are the row: it carries no association. *)
Class ColumnLaws (T : Type) `{Model T} : Prop := {
  columns_columns : forall r : T, columns (columns r) = columns r }.

(** A table is sound when no two rows share a key, the key counter bounds
    every key, and every stored row holds columns only. *)
Definition sound {T : Type} `{Model T} (t : Table T) : Prop :=
  NoDup (keys (rows t))
  /\ (maxKey (rows t) <= seq t)%N
  /\ Forall (fun r => columns r = r) (rows t).

Definition soundDB (db : DB) : Prop :=
  sound (patients db) /\ sound (doctors db) /\ sound (appointments db)
  /\ sound (medical_tests db) /\ sound (medical_histories db).

(** What a batch insert makes of structs whose key and creation timestamp
    are unset, on a table whose counter is [k]: consecutive keys from
    [k + 1], one creation timestamp. *)
Fixpoint stamped {T : Type} `{Model T} (now : Time) (k : N) (vs : list T)
  : list T :=
  match vs with
  | [] => []
  | v :: vs' =>
      setPrimaryKey (N.succ k) (setCreatedAt now v)
      :: stamped now (N.succ k) vs'
  end.

(** The gender values the check constraint of the patients table admits. *)
Definition allowedGender (g : string) : bool :=
  (String.eqb g "male" || String.eqb g "female")%bool.

(** The list a handler answered with, by kind of element. *)
Definition appointmentsOf (r : Response) : list Appointment :=
  match body r with
  | JAppointments l => l
  | _ => []
  end.

Definition historiesOf (r : Response) : list MedicalHistory :=
  match body r with
  | JMedicalHistories l => l
  | _ => []
  end.

(** Case analysis on the matches of a handler. *)
Ltac split_handler :=
  repeat match goal with
    | |- context [match ?x with _ => _ end] => destruct x; simpl
    end.

(** A status other than 400 on one side of an equivalence. *)
Ltac not_400 :=
  split; [intros H; exfalso; vm_compute in H; discriminate H|];
  intros H; exfalso.

(** One storage write of a handler, split into its outcomes. *)
Ltac step_table :=
  match goal with
  | |- context [Create ?n ?f ?v ?t] =>
      let M := fresh "M" in
      pose proof (mutation_Create t n f v) as M;
      destruct (Create n f v t) as [[?|?] ?]; simpl in M |- *
  | |- context [Save ?n ?f ?v ?t] =>
      let M := fresh "M" in
      pose proof (mutation_Save t n f v) as M;
      destruct (Save n f v t) as [[?|?] ?]; simpl in M |- *
  | |- context [Delete ?f ?i ?t] =>
      let M := fresh "M" in
      pose proof (mutation_Delete t f i) as M;
      destruct (Delete f i t) as [[?|?] ?]; simpl in M |- *
  | |- context [match ?x with _ => _ end] => destruct x; simpl
  end.

(** ** Facts about tables *)

Lemma uintScans_spec (n : N) :
  uintScans n = true <-> (Z.of_N n <= maxInt64)%Z.
Proof.
  unfold uintScans, int64, maxInt64.
  destruct (Z.leb_spec (Z.of_N n) (2 ^ 63 - 1)) as [Hle|Hgt].
  - split; [intros _; exact Hle|intros _; apply Z.leb_le; lia].
  - split; [|lia]. intros Hs. apply Z.leb_le in Hs.
    pose proof (Z.mod_pos_bound (Z.of_N n) (2 ^ 63)). lia.
Qed.

Lemma int64_scans (n : N) : uintScans n = true -> int64 n = Z.of_N n.
Proof.
  intros Hs. apply uintScans_spec in Hs. unfold int64.
  destruct (Z.leb_spec (Z.of_N n) maxInt64); [reflexivity|lia].
Qed.

Lemma int64_inInt64 (n : N) : inInt64 (int64 n) = true.
Proof.
  unfold inInt64, int64, minInt64, maxInt64.
  destruct (Z.leb_spec (Z.of_N n) (2 ^ 63 - 1)) as [Hle|Hgt].
  - apply andb_true_iff. split; apply Z.leb_le; lia.
  - pose proof (Z.mod_pos_bound (Z.of_N n) (2 ^ 63)).
    apply andb_true_iff. split; apply Z.leb_le; lia.
Qed.

(** A column that holds a key holds the number of a [uint] that scans. *)
Lemma eqParam_key (col key : N) :
  eqParam col (Z.of_N key) = true <-> col = key /\ uintScans col = true.
Proof.
  unfold eqParam. rewrite Z.eqb_eq. split.
  - intros He.
    assert (Hs : uintScans col = true)
      by (unfold uintScans; apply Z.leb_le; lia).
    rewrite (int64_scans _ Hs) in He. split; [lia|exact Hs].
  - intros [-> Hs]. now apply int64_scans.
Qed.

Lemma inInt64_small (n : N) :
  uintScans n = true -> inInt64 (Z.of_N n) = true.
Proof.
  intros Hs. rewrite <- (int64_scans n Hs). apply int64_inInt64.
Qed.

Lemma inInt64_spec (id : Z) : inInt64 id = true <-> within64 id.
Proof.
  unfold inInt64, within64, minInt64, maxInt64.
  rewrite andb_true_iff, !Z.leb_le. lia.
Qed.

Lemma uintScans_below (n : N) : uintScans n = true <-> below63 n.
Proof.
  rewrite uintScans_spec. unfold below63, maxInt64. lia.
Qed.

Lemma within64_below (n : N) : below63 n -> inInt64 (Z.of_N n) = true.
Proof. intros Hn. apply inInt64_small. now apply uintScans_below. Qed.

Lemma scans_appointment (a : Appointment) :
  scans a = true <-> readsBack a.
Proof.
  unfold readsBack. simpl.
  now rewrite andb_true_iff, !uintScans_below.
Qed.

Lemma scans_history (h : MedicalHistory) :
  scans h = true <-> below63 (MedicalHistory_PatientID h).
Proof. simpl. apply uintScans_below. Qed.

Lemma forallb_Forall_iff {A : Type} (f : A -> bool) (P : A -> Prop)
  (l : list A) :
  (forall x, f x = true <-> P x) ->
  forallb f l = true <-> Forall P l.
Proof.
  intros Hf. rewrite forallb_forall, Forall_forall.
  split; intros H x Hx; apply Hf; now apply H.
Qed.

Lemma forallb_Exists_not {A : Type} (f : A -> bool) (P : A -> Prop)
  (l : list A) :
  (forall x, f x = true <-> P x) ->
  Exists (fun x => ~ P x) l -> forallb f l = false.
Proof.
  intros Hf He. destruct (forallb f l) eqn:E; [|reflexivity].
  exfalso. apply Exists_exists in He as (x & Hx & Hn). apply Hn.
  apply Hf. exact (proj1 (forallb_forall f l) E x Hx).
Qed.

Section TableFacts.
Context {T : Type} {M : Model T}.

Lemma maxKey_ge (l : list T) (r : T) :
  In r l -> (primaryKey r <= maxKey l)%N.
Proof.
  unfold maxKey, keys. induction l as [|x l IH]; simpl; [easy|].
  intros [->|Hin]; [lia|]. specialize (IH Hin). lia.
Qed.

Lemma nextKey_above_rows (t : Table T) (r : T) :
  In r (rows t) -> (primaryKey r < nextKey t)%N.
Proof.
  intros Hin. apply maxKey_ge in Hin. unfold nextKey. lia.
Qed.

Lemma nextKey_above_seq (t : Table T) : (seq t < nextKey t)%N.
Proof. unfold nextKey. lia. Qed.

Lemma nextKey_nonzero (t : Table T) : nextKey t <> 0%N.
Proof. unfold nextKey. lia. Qed.

Lemma hasKey_true (id : Z) (r : T) :
  hasKey id r = true <-> Z.of_N (primaryKey r) = id.
Proof. unfold hasKey. apply Z.eqb_eq. Qed.

Lemma hasKey_false (id : Z) (r : T) :
  hasKey id r = false <-> Z.of_N (primaryKey r) <> id.
Proof. unfold hasKey. apply Z.eqb_neq. Qed.

Lemma find_absent (id : Z) (l : list T) :
  (forall r, In r l -> Z.of_N (primaryKey r) <> id) ->
  find (hasKey id) l = None.
Proof.
  induction l as [|x l IH]; simpl; intros Hall; [reflexivity|].
  destruct (hasKey id x) eqn:E.
  - apply hasKey_true in E. exfalso. apply (Hall x); auto.
  - apply IH. intros r Hr. apply Hall. auto.
Qed.

Lemma filter_absent (id : Z) (l : list T) :
  (forall r, In r l -> Z.of_N (primaryKey r) <> id) ->
  filter (hasKey id) l = [].
Proof.
  induction l as [|x l IH]; simpl; intros Hall; [reflexivity|].
  destruct (hasKey id x) eqn:E.
  - apply hasKey_true in E. exfalso. apply (Hall x); auto.
  - apply IH. intros r Hr. apply Hall. auto.
Qed.

Lemma find_app_absent (id : Z) (l : list T) (r : T) :
  (forall x, In x l -> Z.of_N (primaryKey x) <> id) ->
  Z.of_N (primaryKey r) = id ->
  find (hasKey id) (l ++ [r]) = Some r.
Proof.
  intros Hall Hr. induction l as [|x l IH]; simpl.
  - apply hasKey_true in Hr. now rewrite Hr.
  - destruct (hasKey id x) eqn:E.
    + apply hasKey_true in E. exfalso. apply (Hall x); simpl; auto.
    + apply IH. intros y Hy. apply Hall. simpl; auto.
Qed.

Lemma filter_app_absent (id : Z) (l : list T) (r : T) :
  (forall x, In x l -> Z.of_N (primaryKey x) <> id) ->
  Z.of_N (primaryKey r) = id ->
  filter (hasKey id) (l ++ [r]) = [r].
Proof.
  intros Hall Hr. rewrite filter_app, (filter_absent id l Hall). simpl.
  apply hasKey_true in Hr. now rewrite Hr.
Qed.

(** A key that an insert generates matches no row present before. *)
Lemma nextKey_absent (t : Table T) (r : T) :
  In r (rows t) -> Z.of_N (primaryKey r) <> Z.of_N (nextKey t).
Proof.
  intros Hin Heq. apply nextKey_above_rows in Hin. lia.
Qed.

Lemma delete_absent (id : Z) (l : list T) :
  find (hasKey id) l = None ->
  filter (fun r => negb (hasKey id r)) l = l.
Proof.
  intros Hnone. apply forallb_filter_id. apply forallb_forall.
  intros r Hr. now rewrite (find_none _ _ Hnone r Hr).
Qed.

Lemma find_existsb (id : Z) (l : list T) (r : T) :
  find (hasKey id) l = Some r -> existsb (hasKey id) l = true.
Proof.
  intros Hf. apply find_some in Hf as [Hin Hk].
  apply existsb_exists. now exists r.
Qed.

Lemma find_replaceRow (id : Z) (l : list T) (old v : T) :
  find (hasKey id) l = Some old ->
  Z.of_N (primaryKey v) = id ->
  primaryKey (columns v) = primaryKey v ->
  find (hasKey id) (replaceRow v l) = Some (columns v).
Proof.
  intros Hf Hv Hc. unfold replaceRow. rewrite Hv.
  induction l as [|x l IH]; simpl in *; [discriminate|].
  destruct (hasKey id x) eqn:E.
  - assert (Hk : hasKey id (columns v) = true)
      by (apply hasKey_true; now rewrite Hc).
    now rewrite Hk.
  - rewrite E. now apply IH.
Qed.

Lemma Forall_replaceRow (P : T -> Prop) (v : T) (l : list T) :
  Forall P l -> P (columns v) -> Forall P (replaceRow v l).
Proof.
  intros Hl Hv. unfold replaceRow. apply Forall_map.
  eapply Forall_impl; [|exact Hl]. intros r Hr. simpl.
  now destruct (hasKey _ r).
Qed.

Lemma Forall_filter (P : T -> Prop) (f : T -> bool) (l : list T) :
  Forall P l -> Forall P (filter f l).
Proof.
  rewrite !Forall_forall. intros Hl r Hr. apply filter_In in Hr as [Hr _].
  now apply Hl.
Qed.

Lemma firstRow_In (l : list T) (r : T) : firstRow l = Some r -> In r l.
Proof.
  revert r. induction l as [|x l IH]; simpl; [discriminate|]. intros r.
  destruct (firstRow l) as [r'|].
  - destruct (primaryKey r' <? primaryKey x)%N; intros [= <-]; auto.
  - intros [= <-]. auto.
Qed.

Lemma firstRow_none (l : list T) : firstRow l = None -> l = [].
Proof.
  destruct l as [|x l]; simpl; [reflexivity|].
  destruct (firstRow l) as [r'|]; [|discriminate].
  destruct (primaryKey r' <? primaryKey x)%N; discriminate.
Qed.

Lemma lookup_inInt64 (id : Z) (l : list T) :
  inInt64 id = true -> lookup id l = find (hasKey id) l.
Proof. intros Hid. unfold lookup. now rewrite Hid. Qed.

Lemma lookup_In (id : Z) (l : list T) (r : T) :
  lookup id l = Some r -> In r l.
Proof.
  unfold lookup. destruct (inInt64 id).
  - intros Hf. now apply find_some in Hf.
  - apply firstRow_In.
Qed.

Lemma lookup_selected (id : Z) (l : list T) (r : T) :
  lookup id l = Some r -> selected id r = true.
Proof.
  unfold lookup, selected. destruct (inInt64 id); [|reflexivity].
  intros Hf. now apply find_some in Hf.
Qed.

(** No row is selected among those that the selection left out. *)
Lemma lookup_after_delete (id : Z) (l : list T) :
  lookup id (filter (fun r => negb (selected id r)) l) = None.
Proof.
  destruct (lookup id (filter (fun r => negb (selected id r)) l))
    as [r|] eqn:E; [|reflexivity].
  pose proof (lookup_selected _ _ _ E) as Hs.
  apply lookup_In, filter_In in E as [_ E]. rewrite Hs in E. discriminate.
Qed.

Lemma selected_inInt64 (id : Z) (l : list T) :
  inInt64 id = true ->
  filter (fun r => negb (selected id r)) l
  = filter (fun r => negb (hasKey id r)) l.
Proof.
  intros Hid. apply filter_ext. intros r. unfold selected. now rewrite Hid.
Qed.

Lemma First_Ok (id : Z) (t : Table T) (r : T) :
  First None id t = Ok r ->
  lookup id (rows t) = Some r /\ scans r = true.
Proof.
  unfold First. destruct (lookup id (rows t)) as [x|]; [|discriminate].
  destruct (scans x) eqn:E; [|discriminate]. intros [= <-]. auto.
Qed.

Lemma First_found (id : Z) (t : Table T) (r : T) :
  lookup id (rows t) = Some r -> scans r = true -> First None id t = Ok r.
Proof. intros Hl Hs. unfold First. now rewrite Hl, Hs. Qed.

Lemma First_none (fault : Fault) (id : Z) (t : Table T) :
  lookup id (rows t) = None -> exists e, First fault id t = Err e.
Proof.
  intros Hl. unfold First. destruct fault; [eauto|]. rewrite Hl. eauto.
Qed.

Lemma scanned_readable (l : list T) :
  forallb scans l = true -> scanned l = Ok l.
Proof. intros Hs. unfold scanned. now rewrite Hs. Qed.

End TableFacts.

(** ** Keys and key counters along requests *)

#[export] Instance Patient_KeyLaws : KeyLaws Patient.
Proof. split; reflexivity. Qed.

#[export] Instance Doctor_KeyLaws : KeyLaws Doctor.
Proof. split; reflexivity. Qed.

#[export] Instance Appointment_KeyLaws : KeyLaws Appointment.
Proof. split; reflexivity. Qed.

#[export] Instance MedicalTest_KeyLaws : KeyLaws MedicalTest.
Proof. split; reflexivity. Qed.

#[export] Instance MedicalHistory_KeyLaws : KeyLaws MedicalHistory.
Proof. split; reflexivity. Qed.

Section KeyFacts.
Context {T : Type} {M : Model T} {L : KeyLaws T}.

Lemma insertRow_seq (now : Time) (v v' : T) (t t' : Table T) :
  insertRow now v t = Ok (v', t') ->
  (seq t <= seq t')%N /\ (primaryKey v' <= seq t')%N.
Proof.
  unfold insertRow.
  set (v1 := if time.isZeroValue (createdAt v) then setCreatedAt now v else v).
  destruct (constraint v1); [discriminate|].
  destruct (primaryKey v1 =? 0)%N.
  - intros [= <- <-]. simpl. rewrite primaryKey_setPrimaryKey.
    unfold nextKey. lia.
  - destruct (existsb _ _); [discriminate|].
    intros [= <- <-]. simpl. lia.
Qed.

Lemma insertRow_keyed (now : Time) (v v' : T) (t t' : Table T) :
  keyed t -> insertRow now v t = Ok (v', t') -> keyed t'.
Proof.
  unfold keyed, insertRow. intros Ht.
  set (v1 := if time.isZeroValue (createdAt v) then setCreatedAt now v else v).
  destruct (constraint v1); [discriminate|].
  destruct (N.eqb_spec (primaryKey v1) 0) as [E|E].
  - intros [= _ <-]. simpl. apply Forall_app. split; [exact Ht|].
    constructor; [|constructor].
    rewrite primaryKey_columns, primaryKey_setPrimaryKey.
    apply nextKey_nonzero.
  - destruct (existsb _ _); [discriminate|].
    intros [= _ <-]. simpl. apply Forall_app. split; [exact Ht|].
    constructor; [|constructor]. now rewrite primaryKey_columns.
Qed.

Lemma insertRows_keyed (now : Time) (vs vs' : list T) (t t' : Table T) :
  keyed t -> insertRows now vs t = Ok (vs', t') -> keyed t'.
Proof.
  revert vs' t t'. induction vs as [|v vs IH]; intros vs' t t' Ht; simpl.
  - now intros [= _ <-].
  - destruct (insertRow now v t) as [[v1 t1]|e] eqn:E; [|discriminate].
    destruct (insertRows now vs t1) as [[vs1 t2]|e] eqn:E'; [|discriminate].
    intros [= _ <-]. eapply IH; [|exact E'].
    eapply insertRow_keyed; eauto.
Qed.

Lemma CreateAll_keyed (now : Time) (fault : Fault) (vs : list T)
  (t : Table T) :
  keyed t -> keyed (snd (CreateAll now fault vs t)).
Proof.
  intros Ht. unfold CreateAll. destruct fault; [exact Ht|].
  destruct (insertRows now vs t) as [[vs' t']|e] eqn:E; [|exact Ht].
  simpl. eapply insertRows_keyed; eauto.
Qed.

Lemma ExecDeleteAll_keyed (fault : Fault) (t : Table T) :
  keyed t -> keyed (snd (ExecDeleteAll fault t)).
Proof.
  intros Ht. unfold ExecDeleteAll. destruct fault; [exact Ht|].
  constructor.
Qed.

Lemma mutation_seq (t t' : Table T) :
  mutation t t' -> (seq t <= seq t')%N.
Proof.
  assert (HC : forall now fault v,
             (seq t <= seq (snd (Create now fault v t)))%N).
  { intros now fault v. unfold Create. destruct fault; [simpl; lia|].
    destruct (insertRow now v t) as [[v' t1]|e] eqn:E; [|simpl; lia].
    simpl. now apply insertRow_seq in E. }
  intros [ |now fault v|now fault v|fault id].
  - lia.
  - apply HC.
  - unfold Save. destruct fault; [simpl; lia|].
    destruct (primaryKey v =? 0)%N; [apply HC|].
    destruct (constraint v); [simpl; lia|].
    destruct (existsb _ _); [simpl; lia|apply HC].
  - unfold Delete. destruct fault; simpl; lia.
Qed.

Lemma mutation_keyed (t t' : Table T) :
  mutation t t' -> keyed t -> keyed t'.
Proof.
  intros Hm Ht.
  assert (HC : forall now fault v, keyed (snd (Create now fault v t))).
  { intros now fault v. unfold Create. destruct fault; [exact Ht|].
    destruct (insertRow now v t) as [[v' t1]|e] eqn:E; [|exact Ht].
    simpl. eapply insertRow_keyed; eauto. }
  destruct Hm as [ |now fault v|now fault v|fault id].
  - exact Ht.
  - apply HC.
  - unfold Save. destruct fault; [exact Ht|].
    destruct (N.eqb_spec (primaryKey v) 0) as [E|E]; [apply HC|].
    destruct (constraint v); [exact Ht|].
    destruct (existsb _ _); [|apply HC].
    unfold keyed. simpl. apply Forall_replaceRow; [exact Ht|].
    now rewrite primaryKey_columns.
  - unfold Delete. destruct fault; [exact Ht|].
    unfold keyed. simpl. now apply Forall_filter.
Qed.

End KeyFacts.

(** Every request leaves the doctors and the medical tests alone and does
    at most one storage write to each other table. *)
Lemma serve_mutates {dialect : Dialector} (env : Env) (req : Request)
  (db : DB) :
  mutation (patients db) (patients (snd (serve env req db)))
  /\ doctors (snd (serve env req db)) = doctors db
  /\ mutation (appointments db) (appointments (snd (serve env req db)))
  /\ medical_tests (snd (serve env req db)) = medical_tests db
  /\ mutation (medical_histories db)
       (medical_histories (snd (serve env req db))).
Proof.
  destruct req; simpl;
    unfold createPatient, updatePatient, deletePatient, createAppointment,
      updateAppointment, deleteAppointment, createMedicalHistory,
      deleteMedicalHistory;
    repeat step_table;
    repeat split; auto using @mutation_none.
Qed.

Lemma serve_wellKeyed {dialect : Dialector} (env : Env) (req : Request)
  (db : DB) :
  wellKeyed db -> wellKeyed (snd (serve env req db)).
Proof.
  intros (Hp & Hd & Ha & Ht & Hh).
  destruct (serve_mutates env req db) as (Mp & Ed & Ma & Et & Mh).
  unfold wellKeyed. rewrite Ed, Et.
  repeat split; auto; eapply mutation_keyed; eauto.
Qed.

Lemma serveAll_wellKeyed {dialect : Dialector} (reqs : list (Env * Request))
  (db : DB) :
  wellKeyed db -> wellKeyed (serveAll reqs db).
Proof.
  revert db. induction reqs as [|[env req] reqs IH]; intros db H; simpl.
  - exact H.
  - apply IH. now apply serve_wellKeyed.
Qed.

Lemma serveAll_counters {dialect : Dialector} (reqs : list (Env * Request))
  (db : DB) :
  (seq (patients db) <= seq (patients (serveAll reqs db)))%N
  /\ (seq (appointments db) <= seq (appointments (serveAll reqs db)))%N
  /\ (seq (medical_histories db)
      <= seq (medical_histories (serveAll reqs db)))%N.
Proof.
  revert db. induction reqs as [|[env req] reqs IH]; intros db; simpl.
  - lia.
  - destruct (serve_mutates env req db) as (Mp & _ & Ma & _ & Mh).
    apply mutation_seq in Mp, Ma, Mh.
    destruct (IH (snd (serve env req db))) as (Ip & Ia & Ih). lia.
Qed.

Lemma emptyDB_wellKeyed : wellKeyed emptyDB.
Proof. repeat split; constructor. Qed.

(** The seed routine, whatever statements of it fail, and hence every
    state the listener ever serves from a well-keyed file, is well-keyed. *)
Lemma seedDatabase_wellKeyed (clock : nat -> Time) (fault : nat -> Fault)
  (db : DB) :
  wellKeyed db -> wellKeyed (seedDatabase clock fault db).
Proof.
  intros (Hp & Hd & Ha & Ht & Hh). unfold seedDatabase, wellKeyed. simpl.
  repeat split;
    apply CreateAll_keyed; apply ExecDeleteAll_keyed; assumption.
Qed.

Lemma served_states_wellKeyed {dialect : Dialector} (clock : nat -> Time)
  (fault : nat -> Fault) (file db : DB) (reqs : list (Env * Request)) :
  wellKeyed file ->
  main None None clock fault file = Listening db ->
  wellKeyed (serveAll reqs db).
Proof.
  intros Hfile [= <-]. apply serveAll_wellKeyed.
  now apply seedDatabase_wellKeyed.
Qed.

(** ** Deleting *)

Lemma with_patients_same (db : DB) : with_patients (patients db) db = db.
Proof. now destruct db. Qed.

Lemma Delete_absent {T : Type} `{Model T} (id : Z) (t : Table T) :
  inInt64 id = true ->
  find (hasKey id) (rows t) = None -> Delete None id t = (Ok tt, t).
Proof.
  intros Hid Hnone. unfold Delete.
  rewrite (selected_inInt64 id _ Hid), (delete_absent id _ Hnone).
  now destruct t.
Qed.

(** Deleting an identifier that no row has leaves the database as it was. *)
Lemma deletePatient_absent (id : Z) (db : DB) :
  inInt64 id = true ->
  find (hasKey id) (rows (patients db)) = None ->
  snd (deletePatient None id db) = db.
Proof.
  intros Hid Hnone. unfold deletePatient.
  rewrite (Delete_absent id _ Hid Hnone).
  simpl. apply with_patients_same.
Qed.

(** A delete leaves no row that a lookup of the same identifier selects. *)
Lemma First_after_Delete {T : Type} `{Model T} (fault : Fault) (id : Z)
  (t : Table T) :
  exists e, First fault id (snd (Delete None id t)) = Err e.
Proof. apply First_none. simpl. apply lookup_after_delete. Qed.

(** C5: for every identifier and every state of the store, when the storage
    engine does not fail the statement, DELETE /patients/:id, DELETE
    /appointments/:id and DELETE /medical_history/:id answer 200 with their
    confirmation message; the answer does not depend on the store, so it is
    the same when no row has the identifier. *)
Theorem delete_reports_success_unconditionally :
  forall (id : Z) (db : DB),
    fst (deletePatient None id db)
    = mkResponse http.StatusOK (H_message "Patient deleted")
    /\ fst (deleteAppointment None id db)
       = mkResponse http.StatusOK (H_message "Appointment deleted")
    /\ fst (deleteMedicalHistory None id db)
       = mkResponse http.StatusOK
           (H_message "Medical history record deleted").
Proof.
  intros id db. repeat split.
Qed.

(** On the seeded database no patient has identifier 9999; deleting it is
    reported as a success and changes nothing. *)
Example delete_missing_patient :
  find (hasKey 9999) (rows (patients exampleDB)) = None
  /\ deletePatient None 9999 exampleDB
     = (mkResponse 200 (H_message "Patient deleted"), exampleDB).
Proof. split; vm_compute; reflexivity. Qed.

(** C3: after a delete by identifier, a get of the same identifier answers
    404 with the fixed message, whatever the storage engine does on the
    read.  Patients and appointments are deleted by their handlers; the
    route table has no delete for doctors, so for them the statement is
    about the storage operation the other two handlers use. *)
Theorem get_after_delete_is_not_found :
  forall (fault : Fault) (id : Z) (db : DB),
    getPatient fault id (snd (deletePatient None id db))
    = mkResponse http.StatusNotFound (H_error "Patient not found")
    /\ getAppointment fault id (snd (deleteAppointment None id db))
       = mkResponse http.StatusNotFound (H_error "Appointment not found")
    /\ getDoctor fault id
         (with_doctors (snd (Delete None id (doctors db))) db)
       = mkResponse http.StatusNotFound (H_error "Doctor not found").
Proof.
  intros fault id db.
  destruct (First_after_Delete fault id (patients db)) as [ep Hp].
  destruct (First_after_Delete fault id (appointments db)) as [ea Ha].
  destruct (First_after_Delete fault id (doctors db)) as [ed Hd].
  unfold getPatient, getAppointment, getDoctor, deletePatient,
    deleteAppointment.
  simpl in *. rewrite Hp, Ha, Hd. auto.
Qed.

(** No request changes the doctors table: the interface has no way to
    create, replace or delete a doctor. *)
Lemma serve_keeps_doctors {dialect : Dialector} (env : Env) (req : Request)
  (db : DB) :
  doctors (snd (serve env req db)) = doctors db.
Proof.
  destruct req; simpl; try reflexivity;
    unfold createPatient, updatePatient, deletePatient, createAppointment,
      updateAppointment, deleteAppointment, createMedicalHistory,
      deleteMedicalHistory;
    repeat match goal with
      | |- context [match ?x with _ => _ end] => destruct x; simpl
      end; reflexivity.
Qed.

(** ** Errors of a get-by-id *)

(** A read that the storage engine fails is answered by [getDoctor] with
    404 and the fixed message, not with 500 and the engine's message. *)
Lemma getDoctor_read_failure_is_404 :
  getDoctor (Some "disk I/O error") 1 exampleDB
  = mkResponse http.StatusNotFound (H_error "Doctor not found")
  /\ getDoctor (Some "disk I/O error") 1 exampleDB
     <> mkResponse http.StatusInternalServerError (H_error "disk I/O error")
  /\ find (hasKey 1) (rows (doctors exampleDB)) <> None.
Proof. repeat split; vm_compute; discriminate. Qed.

(** An identifier outside 64 bits selects every row: the get answers with
    the first doctor, though no doctor has that identifier. *)
Example getDoctor_outside_int64 :
  find (hasKey (2 ^ 63)) (rows (doctors exampleDB)) = None
  /\ exists d, getDoctor None (2 ^ 63) exampleDB
               = mkResponse http.StatusOK (JDoctor d)
               /\ Doctor_ID d = 1%N.
Proof. split; [vm_compute; reflexivity|]. eexists. split; reflexivity. Qed.

(** C9, amended: on each get-by-id endpoint an identifier within 64 bits
    that no row has is answered with 404 and the endpoint's fixed message;
    on GET /doctors/:id and GET /appointments/:id a read that the storage
    engine fails is answered with the same 404 and fixed message, whatever
    the identifier and the engine's message are. *)
Theorem get_by_id_errors_are_404 :
  forall (id : Z) (db : DB),
    (within64 id ->
     find (hasKey id) (rows (patients db)) = None ->
     getPatient None id db
     = mkResponse http.StatusNotFound (H_error "Patient not found"))
    /\ (within64 id ->
        find (hasKey id) (rows (doctors db)) = None ->
        getDoctor None id db
        = mkResponse http.StatusNotFound (H_error "Doctor not found"))
    /\ (within64 id ->
        find (hasKey id) (rows (appointments db)) = None ->
        getAppointment None id db
        = mkResponse http.StatusNotFound (H_error "Appointment not found"))
    /\ (forall e : string,
          getDoctor (Some e) id db
          = mkResponse http.StatusNotFound (H_error "Doctor not found")
          /\ getAppointment (Some e) id db
             = mkResponse http.StatusNotFound
                 (H_error "Appointment not found")).
Proof.
  intros id db. unfold getPatient, getDoctor, getAppointment, First, lookup.
  repeat split; try (intros Hid -> ; apply inInt64_spec in Hid; rewrite Hid);
    reflexivity.
Qed.

Lemma get_by_id_errors_are_404_witness :
  within64 9999
  /\ find (hasKey 9999) (rows (patients exampleDB)) = None
  /\ find (hasKey 9999) (rows (doctors exampleDB)) = None
  /\ find (hasKey 9999) (rows (appointments exampleDB)) = None
  /\ getPatient None 9999 exampleDB
     = mkResponse 404 (H_error "Patient not found")
  /\ getDoctor None 9999 exampleDB
     = mkResponse 404 (H_error "Doctor not found")
  /\ getAppointment None 9999 exampleDB
     = mkResponse 404 (H_error "Appointment not found").
Proof.
  pose proof (get_by_id_errors_are_404 9999 exampleDB) as (Hp & Hd & Ha & _).
  assert (Hid : within64 9999) by (unfold within64; lia).
  assert (Np : find (hasKey 9999) (rows (patients exampleDB)) = None)
    by (vm_compute; reflexivity).
  assert (Nd : find (hasKey 9999) (rows (doctors exampleDB)) = None)
    by (vm_compute; reflexivity).
  assert (Na : find (hasKey 9999) (rows (appointments exampleDB)) = None)
    by (vm_compute; reflexivity).
  repeat split; auto; unfold within64 in Hid; lia.
Defined.
(** ** Startup *)

(** The insert of the appointments fails at a first start: the process
    does not abort, and the listener serves patients and medical tests
    while the appointments the tests belong to are missing. *)
Lemma main_listens_after_seed_failure :
  match
    main None None exampleClock
      (fun k => if Nat.eqb k 7 then Some "database or disk is full" else None)
      emptyDB
  with
  | Panic _ => False
  | Listening db =>
      rows (appointments db) = []
      /\ List.length (rows (patients db)) = 5%nat
      /\ List.length (rows (medical_tests db)) = 6%nat
  end.
Proof. vm_compute. repeat split. Qed.

Lemma seedDatabase_all_failing (clock : nat -> Time) (e : string)
  (db : DB) :
  seedDatabase clock (fun _ => Some e) db = db.
Proof. destruct db; reflexivity. Qed.

(** C8, amended: a failure to open the database or to migrate the schema
    aborts startup with a panic, before any listener exists.  A storage
    failure during the seed step does not: whatever statements of the seed
    routine fail, [main] goes on to listen on the state the routine left,
    which is the content of the database file as it was when every
    statement fails. *)
Theorem startup_aborts_only_on_open_or_migrate :
  forall (clock : nat -> Time) (fault : nat -> Fault) (file : DB)
         (e : string) (migrateErr : Fault),
    main (Some e) migrateErr clock fault file
    = Panic "Failed to connect to database"
    /\ main None (Some e) clock fault file
       = Panic "Database migration failed"
    /\ main None None clock fault file
       = Listening (seedDatabase clock fault file)
    /\ main None None clock (fun _ => Some e) file = Listening file.
Proof.
  intros. repeat split. simpl. now rewrite seedDatabase_all_failing.
Qed.

(** ** Filtered lists *)

Lemma satisfies_nil {T : Type} (r : T) : satisfies [] r = true.
Proof. reflexivity. Qed.

Lemma satisfies_Where {T : Type} (q : Query) (cond : T -> bool) (r : T) :
  satisfies (Where q cond) r = (satisfies q r && cond r)%bool.
Proof.
  unfold satisfies, Where. rewrite forallb_app. simpl.
  now rewrite andb_true_r.
Qed.

Lemma referenceAdmitted_eqText {dialect : Dialector} (param : string)
  (col : N) :
  uintScans col = true ->
  referenceAdmitted param col
  = (String.eqb param "" || eqText col param)%bool.
Proof.
  intros Hs. unfold referenceAdmitted, eqText, sameNumber.
  rewrite (int64_scans col Hs).
  destruct (numericValue param); [|reflexivity]. now rewrite Z.eqb_sym.
Qed.

Lemma referenceAdmitted_spec {dialect : Dialector} (param : string)
  (col : N) :
  referenceAdmitted param col = true
  <-> param = "" \/ numericValue param = Some (Z.of_N col).
Proof.
  unfold referenceAdmitted, sameNumber.
  rewrite orb_true_iff, String.eqb_eq.
  destruct (numericValue param) as [z|].
  - rewrite Z.eqb_eq. split; (intros [H|H]; [now left|right]); congruence.
  - split; (intros [H|H]; [now left|discriminate]).
Qed.

Lemma tagAdmitted_spec (param col : string) :
  tagAdmitted param col = true <-> param = "" \/ col = param.
Proof.
  unfold tagAdmitted. now rewrite orb_true_iff, !String.eqb_eq.
Qed.

Lemma filter_ext_in_list {A : Type} (f g : A -> bool) (l : list A) :
  (forall x, In x l -> f x = g x) -> filter f l = filter g l.
Proof.
  induction l as [|x l IH]; simpl; intros H; [reflexivity|].
  rewrite (H x) by now left. rewrite IH; [reflexivity|].
  intros y Hy. apply H. now right.
Qed.

(** On a table whose rows can be read back, the conditions that the two
    handlers put together select the rows that the filter of the interface
    admits. *)
Lemma getAppointments_selects {dialect : Dialector}
  (patient_id doctor_id : string) (db : DB) :
  Forall readsBack (rows (appointments db)) ->
  getAppointments None patient_id doctor_id db
  = mkResponse http.StatusOK
      (JAppointments
         (map (fun a => preloadDoctor db (preloadPatient db a))
            (filter (appointmentAdmitted patient_id doctor_id)
               (rows (appointments db))))).
Proof.
  intros Hr. unfold getAppointments, Find.
  set (q := if negb (String.eqb doctor_id "") then _ else _).
  assert (Hq : filter (satisfies q) (rows (appointments db))
               = filter (appointmentAdmitted patient_id doctor_id)
                   (rows (appointments db))).
  { apply filter_ext_in_list. intros a Ha.
    pose proof (proj1 (Forall_forall _ _) Hr a Ha) as [Hp Hd].
    apply uintScans_below in Hp, Hd.
    unfold appointmentAdmitted.
    rewrite !referenceAdmitted_eqText by assumption. subst q.
    destruct (String.eqb patient_id ""), (String.eqb doctor_id ""); simpl;
      rewrite ?satisfies_Where, ?satisfies_nil; simpl;
      rewrite ?andb_true_r; reflexivity. }
  rewrite Hq. rewrite scanned_readable; [reflexivity|].
  apply forallb_forall. intros a Ha. apply filter_In in Ha as [Ha _].
  apply scans_appointment. exact (proj1 (Forall_forall _ _) Hr a Ha).
Qed.

Lemma getMedicalHistory_selects {dialect : Dialector}
  (patient_id type : string) (db : DB) :
  Forall (fun h => below63 (MedicalHistory_PatientID h))
    (rows (medical_histories db)) ->
  getMedicalHistory None patient_id type db
  = mkResponse http.StatusOK
      (JMedicalHistories
         (map (preloadHistoryPatient db)
            (filter (historyAdmitted patient_id type)
               (rows (medical_histories db))))).
Proof.
  intros Hr. unfold getMedicalHistory, Find.
  set (q := if negb (String.eqb type "") then _ else _).
  assert (Hq : filter (satisfies q) (rows (medical_histories db))
               = filter (historyAdmitted patient_id type)
                   (rows (medical_histories db))).
  { apply filter_ext_in_list. intros h Hh.
    pose proof (proj1 (Forall_forall _ _) Hr h Hh) as Hp.
    apply uintScans_below in Hp.
    unfold historyAdmitted, tagAdmitted.
    rewrite referenceAdmitted_eqText by assumption. subst q.
    destruct (String.eqb patient_id ""), (String.eqb type ""); simpl;
      rewrite ?satisfies_Where, ?satisfies_nil; simpl;
      rewrite ?andb_true_r; reflexivity. }
  rewrite Hq. rewrite scanned_readable; [reflexivity|].
  apply forallb_forall. intros h Hh. apply filter_In in Hh as [Hh _].
  apply scans_history. exact (proj1 (Forall_forall _ _) Hr h Hh).
Qed.

Lemma filter_all {A : Type} (l : list A) : filter (fun _ => true) l = l.
Proof. induction l; simpl; congruence. Qed.

Lemma Find_all {T : Type} `{Model T} (t : Table T) :
  Find None [] t = scanned (rows t).
Proof.
  unfold Find. now rewrite (filter_ext (satisfies []) (fun _ => true)),
    filter_all.
Qed.

(** The unfiltered lists. *)
Lemma getAppointments_all {dialect : Dialector} (db : DB) :
  getAppointments None "" "" db
  = match scanned (rows (appointments db)) with
    | Err e => mkResponse http.StatusInternalServerError (H_error e)
    | Ok l =>
        mkResponse http.StatusOK
          (JAppointments
             (map (fun a => preloadDoctor db (preloadPatient db a)) l))
    end.
Proof.
  unfold getAppointments. cbn [String.eqb negb]. now rewrite Find_all.
Qed.

Lemma getMedicalHistory_unfiltered {dialect : Dialector} (db : DB) :
  getMedicalHistory None "" "" db
  = match scanned (rows (medical_histories db)) with
    | Err e => mkResponse http.StatusInternalServerError (H_error e)
    | Ok l =>
        mkResponse http.StatusOK
          (JMedicalHistories (map (preloadHistoryPatient db) l))
    end.
Proof.
  unfold getMedicalHistory. cbn [String.eqb negb]. now rewrite Find_all.
Qed.

(** An appointment created with a patient reference of 2^63 is stored (the
    creation answers 201) and cannot be read back: the unfiltered GET
    /appointments then answers 500 instead of the rows. *)
Lemma unreadable_appointment_fails_the_list :
  let created :=
    createAppointment (exampleClock 12) None
      (Decoded
         (mkCreateAppointmentRequest (2 ^ 63) 1 (exampleClock 12) "" "" ""))
      exampleDB in
  status (fst created) = http.StatusCreated
  /\ List.length (rows (appointments (snd created))) = 6
  /\ getAppointments (dialect := sqlite) None "" "" (snd created)
     = mkResponse http.StatusInternalServerError (H_error ErrScan).
Proof. vm_compute. repeat split. Qed.

(** C4, amended: a row passes the filter of the interface when each
    parameter is absent or its column equals the supplied value, both
    conditions together when both parameters are present.  In every state
    of the store in which the rows of the table can be read back (their
    references are below 2^63), when the storage engine does not fail the
    query, GET /appointments and GET /medical_history answer 200 with the
    rows that pass, in storage order, with their preloaded associations.
    In a state with a row that cannot be read back, the unfiltered lists
    answer 500. *)
Theorem filtered_lists_are_exact :
  forall (dialect : Dialector) (db : DB) (patient_id doctor_id type : string),
    (forall a : Appointment,
        appointmentAdmitted patient_id doctor_id a = true
        <-> (patient_id = ""
             \/ numericValue patient_id
                = Some (Z.of_N (Appointment_PatientID a)))
            /\ (doctor_id = ""
                \/ numericValue doctor_id
                   = Some (Z.of_N (Appointment_DoctorID a))))
    /\ (forall h : MedicalHistory,
          historyAdmitted patient_id type h = true
          <-> (patient_id = ""
               \/ numericValue patient_id
                  = Some (Z.of_N (MedicalHistory_PatientID h)))
              /\ (type = "" \/ MedicalHistory_HistoryType h = type))
    /\ (Forall readsBack (rows (appointments db)) ->
        getAppointments None patient_id doctor_id db
        = mkResponse http.StatusOK
            (JAppointments
               (map (fun a => preloadDoctor db (preloadPatient db a))
                  (filter (appointmentAdmitted patient_id doctor_id)
                     (rows (appointments db))))))
    /\ (Forall (fun h => below63 (MedicalHistory_PatientID h))
          (rows (medical_histories db)) ->
        getMedicalHistory None patient_id type db
        = mkResponse http.StatusOK
            (JMedicalHistories
               (map (preloadHistoryPatient db)
                  (filter (historyAdmitted patient_id type)
                     (rows (medical_histories db))))))
    /\ (Exists (fun a => ~ readsBack a) (rows (appointments db)) ->
        status (getAppointments None "" "" db)
        = http.StatusInternalServerError)
    /\ (Exists (fun h => ~ below63 (MedicalHistory_PatientID h))
          (rows (medical_histories db)) ->
        status (getMedicalHistory None "" "" db)
        = http.StatusInternalServerError).
Proof.
  intros dialect db patient_id doctor_id type.
  split; [|split; [|split; [|split; [|split]]]].
  - intros a. unfold appointmentAdmitted.
    now rewrite andb_true_iff, !referenceAdmitted_spec.
  - intros h. unfold historyAdmitted.
    now rewrite andb_true_iff, referenceAdmitted_spec, tagAdmitted_spec.
  - apply getAppointments_selects.
  - apply getMedicalHistory_selects.
  - intros He. rewrite getAppointments_all. unfold scanned.
    now rewrite (forallb_Exists_not scans readsBack _ scans_appointment He).
  - intros He. rewrite getMedicalHistory_unfiltered. unfold scanned.
    now rewrite (forallb_Exists_not scans _ _ scans_history He).
Qed.

Lemma filtered_lists_are_exact_witness :
  (Forall readsBack (rows (appointments exampleDB))
   /\ getAppointments (dialect := sqlite) None "1" "1" exampleDB
      = mkResponse http.StatusOK
          (JAppointments
             (map (fun a => preloadDoctor exampleDB
                              (preloadPatient exampleDB a))
                (filter (appointmentAdmitted (dialect := sqlite) "1" "1")
                   (rows (appointments exampleDB))))))
  /\ (Forall (fun h => below63 (MedicalHistory_PatientID h))
        (rows (medical_histories exampleDB))
      /\ getMedicalHistory (dialect := sqlite) None "1" "chronic" exampleDB
         = mkResponse http.StatusOK
             (JMedicalHistories
                (map (preloadHistoryPatient exampleDB)
                   (filter (historyAdmitted (dialect := sqlite) "1" "chronic")
                      (rows (medical_histories exampleDB)))))).
Proof.
  destruct (filtered_lists_are_exact sqlite exampleDB "1" "1" "chronic")
    as (_ & _ & Ha & Hh & _).
  assert (Sa : Forall readsBack (rows (appointments exampleDB))).
  { apply (forallb_Forall_iff scans readsBack _ scans_appointment).
    vm_compute. reflexivity. }
  assert (Sh : Forall (fun h => below63 (MedicalHistory_PatientID h))
                 (rows (medical_histories exampleDB))).
  { apply (forallb_Forall_iff scans _ _ scans_history).
    vm_compute. reflexivity. }
  split; [split; [exact Sa | exact (Ha Sa)]|].
  split; [exact Sh | exact (Hh Sh)].
Defined.

(** On the seeded database: the history entries of patient 1, those of type
    chronic, and their intersection. *)
Example getMedicalHistory_intersection :
  let ids resp :=
    match body resp with
    | JMedicalHistories l => map MedicalHistory_ID l
    | _ => []
    end in
  ids (getMedicalHistory (dialect := sqlite) None "1" "" exampleDB)
  = [1; 3; 8]%N
  /\ ids (getMedicalHistory (dialect := sqlite) None "" "chronic" exampleDB)
     = [3; 4; 5]%N
  /\ ids (getMedicalHistory (dialect := sqlite) None "1" "chronic" exampleDB)
     = [3]%N
  /\ ids (getMedicalHistory (dialect := sqlite) None "" "" exampleDB)
     = [1; 2; 3; 4; 5; 6; 7; 8; 9; 10; 11]%N.
Proof. vm_compute. repeat split. Qed.

(** ** Creating *)

Lemma app_nil_iff {A : Type} (l1 l2 : list A) :
  l1 ++ l2 = [] <-> l1 = [] /\ l2 = [].
Proof.
  split; [apply app_eq_nil|]. now intros [-> ->].
Qed.

Lemma requiredUint_nil (name : string) (v : N) :
  requiredUint name v = [] <-> v <> 0%N.
Proof.
  unfold requiredUint. destruct (N.eqb_spec v 0); split; intros; try easy.
Qed.

Lemma requiredTime_nil (name : string) (v : Time) :
  requiredTime name v = [] <-> v <> time.zero.
Proof.
  unfold requiredTime, time.isZeroValue, time.zero.
  destruct v as [i [ | |offset]]; simpl;
    destruct (Z.eqb_spec i 0); split; intros; try easy; congruence.
Qed.

Lemma uintField_nil (name : string) (v : N) :
  uintField name v = [] <-> fitsUint v.
Proof.
  unfold uintField, fitsUint. destruct (N.leb_spec v maxUint) as [H|H];
    unfold maxUint in H; split; intros; try easy; lia.
Qed.

Lemma appointment_fits (req : CreateAppointmentRequest) :
  outOfRange req = []
  <-> fitsUint (CreateAppointmentRequest_PatientID req)
      /\ fitsUint (CreateAppointmentRequest_DoctorID req).
Proof. simpl. now rewrite app_nil_iff, !uintField_nil. Qed.

Lemma history_fits (req : CreateMedicalHistoryRequest) :
  outOfRange req = []
  <-> fitsUint (CreateMedicalHistoryRequest_PatientID req).
Proof. simpl. now rewrite uintField_nil. Qed.

Lemma requiredString_nil (name : string) (v : string) :
  requiredString name v = [] <-> v <> "".
Proof.
  unfold requiredString. destruct (String.eqb_spec v ""); split; intros;
    try easy.
Qed.

Lemma appointment_binds (req : CreateAppointmentRequest) :
  missing req = []
  <-> CreateAppointmentRequest_PatientID req <> 0%N
      /\ CreateAppointmentRequest_DoctorID req <> 0%N
      /\ CreateAppointmentRequest_Date req <> time.zero.
Proof.
  simpl. now rewrite !app_nil_iff, !requiredUint_nil, requiredTime_nil.
Qed.

Lemma history_binds (req : CreateMedicalHistoryRequest) :
  missing req = []
  <-> CreateMedicalHistoryRequest_PatientID req <> 0%N
      /\ CreateMedicalHistoryRequest_HistoryType req <> ""
      /\ CreateMedicalHistoryRequest_Description req <> "".
Proof.
  simpl. now rewrite !app_nil_iff, requiredUint_nil, !requiredString_nil.
Qed.

Lemma patient_binds (req : CreatePatientRequest) :
  missing req = []
  <-> CreatePatientRequest_FullName req <> ""
      /\ CreatePatientRequest_BirthDate req <> time.zero
      /\ CreatePatientRequest_Gender req <> "".
Proof.
  simpl. now rewrite !app_nil_iff, !requiredString_nil, requiredTime_nil.
Qed.

Lemma createAppointment_created (now : Time) (req : CreateAppointmentRequest)
  (db : DB) :
  outOfRange req = [] ->
  missing req = [] ->
  let a := createdAppointment now req (appointments db) in
  createAppointment now None (Decoded req) db
  = (mkResponse http.StatusCreated (JAppointment a),
     with_appointments
       (mkTable (rows (appointments db) ++ [a]) (nextKey (appointments db)))
       db).
Proof.
  intros Ho Hm. unfold createAppointment, ShouldBindJSON. rewrite Ho, Hm.
  reflexivity.
Qed.

Lemma First_created {T : Type} `{Model T} (t : Table T) (r : T) :
  primaryKey r = nextKey t ->
  inInt64 (Z.of_N (nextKey t)) = true ->
  scans r = true ->
  First None (Z.of_N (nextKey t)) (mkTable (rows t ++ [r]) (nextKey t))
  = Ok r.
Proof.
  intros Hk Hid Hs. apply First_found; [|exact Hs]. simpl.
  rewrite lookup_inInt64 by exact Hid.
  rewrite find_app_absent; [reflexivity| |now rewrite Hk].
  intros x Hx. now apply nextKey_absent.
Qed.

Lemma nextKey_freshIn {T : Type} `{Model T} (t : Table T) :
  freshIn t (nextKey t).
Proof.
  split; [apply nextKey_above_seq|].
  intros r Hr Heq. apply nextKey_above_rows in Hr. lia.
Qed.

Lemma onlyRowWith_created {T : Type} `{Model T} (t : Table T) (r : T) :
  primaryKey r = nextKey t ->
  onlyRowWith (rows t ++ [r]) (nextKey t) r.
Proof.
  intros Hk. unfold onlyRowWith.
  apply filter_app_absent; [|now rewrite Hk].
  intros x Hx. now apply nextKey_absent.
Qed.

(** An insert of a struct whose key and creation timestamp are unset. *)
Lemma Create_unset {T : Type} `{Model T} (now : Time) (v : T)
  (t : Table T) :
  createdAt v = time.zero ->
  primaryKey (setCreatedAt now v) = 0%N ->
  Create now None v t
  = match constraint (setCreatedAt now v) with
    | Some e => (Err e, t)
    | None =>
        let v' := setPrimaryKey (nextKey t) (setCreatedAt now v) in
        (Ok v', mkTable (rows t ++ [columns v']) (nextKey t))
    end.
Proof.
  intros Hc Hk. unfold Create, insertRow. rewrite Hc. simpl.
  rewrite Hk. simpl. now destruct (constraint (setCreatedAt now v)).
Qed.

(** A request that is answered with 201 has its required fields. *)
Lemma createAppointment_201_binds (now : Time) (fault : Fault)
  (req : CreateAppointmentRequest) (db : DB) :
  status (fst (createAppointment now fault (Decoded req) db))
  = http.StatusCreated ->
  missing req = [].
Proof.
  intros H. unfold createAppointment, ShouldBindJSON in *.
  destruct (outOfRange req) eqn:Ho; [|status_mismatch H].
  destruct (missing req) eqn:Hm; [reflexivity|status_mismatch H].
Qed.

Lemma createPatient_201 (now : Time) (fault : Fault)
  (body : Body CreatePatientRequest) (db : DB) :
  status (fst (createPatient now fault body db)) = http.StatusCreated ->
  exists req : CreatePatientRequest,
    body = Decoded req
    /\ createPatient now fault body db
       = (mkResponse http.StatusCreated
            (JPatient (createdPatient now req (patients db))),
          with_patients
            (mkTable
               (rows (patients db) ++ [createdPatient now req (patients db)])
               (nextKey (patients db)))
            db).
Proof.
  intros H. unfold createPatient, ShouldBindJSON in *.
  destruct body as [msg|req]; [status_mismatch H|].
  exists req. split; [reflexivity|].
  cbn [outOfRange CreatePatientRequest_Binding] in *.
  destruct (missing req) eqn:Hm; [|status_mismatch H].
  destruct fault; [status_mismatch H|].
  rewrite Create_unset in * by reflexivity.
  cbn [constraint setCreatedAt Patient_Model Patient_check Patient_Gender]
    in *.
  unfold Patient_check in *. cbn [Patient_Gender] in *.
  destruct (_ || _)%bool; [reflexivity|status_mismatch H].
Qed.

Lemma createAppointment_201 (now : Time) (fault : Fault)
  (body : Body CreateAppointmentRequest) (db : DB) :
  status (fst (createAppointment now fault body db)) = http.StatusCreated ->
  exists req : CreateAppointmentRequest,
    body = Decoded req
    /\ createAppointment now fault body db
       = (mkResponse http.StatusCreated
            (JAppointment (createdAppointment now req (appointments db))),
          with_appointments
            (mkTable
               (rows (appointments db)
                ++ [createdAppointment now req (appointments db)])
               (nextKey (appointments db)))
            db).
Proof.
  intros H. unfold createAppointment, ShouldBindJSON in *.
  destruct body as [msg|req]; [status_mismatch H|].
  exists req. split; [reflexivity|].
  destruct (outOfRange req) eqn:Ho; [|status_mismatch H].
  destruct (missing req) eqn:Hm; [|status_mismatch H].
  destruct fault; [status_mismatch H|]. reflexivity.
Qed.

Lemma createMedicalHistory_201 (now : Time) (fault : Fault)
  (body : Body CreateMedicalHistoryRequest) (db : DB) :
  status (fst (createMedicalHistory now fault body db))
  = http.StatusCreated ->
  exists req : CreateMedicalHistoryRequest,
    body = Decoded req
    /\ createMedicalHistory now fault body db
       = (mkResponse http.StatusCreated
            (JMedicalHistory (createdHistory now req (medical_histories db))),
          with_medical_histories
            (mkTable
               (rows (medical_histories db)
                ++ [createdHistory now req (medical_histories db)])
               (nextKey (medical_histories db)))
            db).
Proof.
  intros H. unfold createMedicalHistory, ShouldBindJSON in *.
  destruct body as [msg|req]; [status_mismatch H|].
  exists req. split; [reflexivity|].
  destruct (outOfRange req) eqn:Ho; [|status_mismatch H].
  destruct (missing req) eqn:Hm; [|status_mismatch H].
  destruct fault; [status_mismatch H|]. reflexivity.
Qed.

Lemma Appointment_columns_preloadPatient (db : DB) (a : Appointment) :
  Appointment_columns (preloadPatient db a) = Appointment_columns a.
Proof. unfold preloadPatient. now destruct (find _ _). Qed.

Lemma Appointment_columns_preloadDoctor (db : DB) (a : Appointment) :
  Appointment_columns (preloadDoctor db a) = Appointment_columns a.
Proof. unfold preloadDoctor. now destruct (find _ _). Qed.

Lemma MedicalHistory_columns_preload (db : DB) (h : MedicalHistory) :
  MedicalHistory_columns (preloadHistoryPatient db h)
  = MedicalHistory_columns h.
Proof. unfold preloadHistoryPatient. now destruct (find _ _). Qed.

(** The rows of a has-many association hold the key of their owner in
    their foreign-key column, so that column scans. *)
Lemma testsOf_scans (db : DB) (a : Appointment) :
  forallb scans (testsOf db a) = true.
Proof.
  apply forallb_forall. intros m Hm. apply filter_In in Hm as [_ Hm].
  now apply eqParam_key in Hm.
Qed.

Lemma historyOf_scans (db : DB) (p : Patient) :
  forallb scans (historyOf db p) = true.
Proof.
  apply forallb_forall. intros h Hh. apply filter_In in Hh as [_ Hh].
  now apply eqParam_key in Hh.
Qed.

(** What the two get-by-id handlers with preloads answer for a row that
    [First] returns. *)
Lemma getPatient_found (id : Z) (db : DB) (p : Patient) :
  First None id (patients db) = Ok p ->
  forallb scans (appointmentsOfPatient db p) = true ->
  getPatient None id db
  = mkResponse http.StatusOK (JPatient (loadedPatient db p)).
Proof.
  intros Hf Hs. unfold getPatient. rewrite Hf.
  unfold andThen at 1. unfold preloadMedicalHistory.
  rewrite (scanned_readable _ (historyOf_scans db p)).
  unfold andThen at 1 2. unfold preloadAppointments.
  change (appointmentsOfPatient db _) with (appointmentsOfPatient db p).
  rewrite (scanned_readable _ Hs). reflexivity.
Qed.

Lemma getPatient_unreadable (id : Z) (db : DB) (p : Patient) :
  First None id (patients db) = Ok p ->
  forallb scans (appointmentsOfPatient db p) = false ->
  getPatient None id db
  = mkResponse http.StatusNotFound (H_error "Patient not found").
Proof.
  intros Hf Hs. unfold getPatient. rewrite Hf.
  unfold andThen at 1. unfold preloadMedicalHistory.
  rewrite (scanned_readable _ (historyOf_scans db p)).
  unfold andThen at 1 2. unfold preloadAppointments.
  change (appointmentsOfPatient db _) with (appointmentsOfPatient db p).
  unfold scanned. rewrite Hs. reflexivity.
Qed.

Lemma preloadMedicalTests_loaded (db : DB) (a : Appointment) :
  preloadMedicalTests db (preloadDoctor db (preloadPatient db a))
  = Ok (loadedAppointment db a).
Proof.
  assert (Ht : testsOf db (preloadDoctor db (preloadPatient db a))
               = testsOf db a).
  { unfold testsOf, preloadDoctor, preloadPatient.
    destruct (find _ (rows (patients db))); cbn [Appointment_DoctorID];
      destruct (find _ (rows (doctors db))); reflexivity. }
  unfold preloadMedicalTests, loadedAppointment.
  rewrite Ht, (scanned_readable _ (testsOf_scans db a)). unfold andThen.
  unfold preloadDoctor, preloadPatient.
  destruct (find _ (rows (patients db))); cbn [Appointment_DoctorID];
    destruct (find _ (rows (doctors db))); reflexivity.
Qed.

Lemma getAppointment_found (id : Z) (db : DB) (a : Appointment) :
  First None id (appointments db) = Ok a ->
  getAppointment None id db
  = mkResponse http.StatusOK (JAppointment (loadedAppointment db a)).
Proof.
  intros Hf. unfold getAppointment. rewrite Hf. unfold andThen.
  now rewrite preloadMedicalTests_loaded.
Qed.

(** C6: a POST /appointments whose body carries a non-zero patient_id, a
    non-zero doctor_id (numbers that fit their fields) and a non-zero date,
    and refers to a patient or to a doctor that does not exist, is answered
    with 201 when the storage engine does not fail the insert, and the row
    is in the store afterwards, the only one under the identifier of the
    answer; GET /appointments/:id returns its columns under that identifier
    when the identifier and the references are below 2^63. *)
Theorem createAppointment_without_referenced_rows :
  forall (now : Time) (req : CreateAppointmentRequest) (db : DB),
    fitsUint (CreateAppointmentRequest_PatientID req) ->
    fitsUint (CreateAppointmentRequest_DoctorID req) ->
    CreateAppointmentRequest_PatientID req <> 0%N ->
    CreateAppointmentRequest_DoctorID req <> 0%N ->
    CreateAppointmentRequest_Date req <> time.zero ->
    find (hasKey (Z.of_N (CreateAppointmentRequest_PatientID req)))
      (rows (patients db)) = None
    \/ find (hasKey (Z.of_N (CreateAppointmentRequest_DoctorID req)))
         (rows (doctors db)) = None ->
    let created := createAppointment now None (Decoded req) db in
    exists a : Appointment,
      fst created = mkResponse http.StatusCreated (JAppointment a)
      /\ Appointment_PatientID a = CreateAppointmentRequest_PatientID req
      /\ Appointment_DoctorID a = CreateAppointmentRequest_DoctorID req
      /\ Appointment_Date a = CreateAppointmentRequest_Date req
      /\ onlyRowWith (rows (appointments (snd created)))
           (Appointment_ID a) a
      /\ (below63 (Appointment_ID a) ->
          below63 (CreateAppointmentRequest_PatientID req) ->
          below63 (CreateAppointmentRequest_DoctorID req) ->
          exists a' : Appointment,
            getAppointment None (Z.of_N (Appointment_ID a)) (snd created)
            = mkResponse http.StatusOK (JAppointment a')
            /\ Appointment_columns a' = a).
Proof.
  intros now req db Fp Fd Hp Hd Ht _ created. subst created.
  assert (Ho : outOfRange req = []) by (now apply appointment_fits).
  assert (Hm : missing req = []) by (now apply appointment_binds).
  exists (createdAppointment now req (appointments db)).
  rewrite (createAppointment_created now req db Ho Hm).
  cbn [fst snd]. set (a := createdAppointment now req (appointments db)).
  set (db' := with_appointments _ db).
  split; [reflexivity|]. do 3 (split; [reflexivity|]). split.
  - now apply (onlyRowWith_created (appointments db)).
  - intros Hid Sp Sd.
    assert (Hf : First None (Z.of_N (Appointment_ID a)) (appointments db')
                 = Ok a).
    { apply (First_created (appointments db) a); [reflexivity| |].
      - now apply within64_below.
      - apply scans_appointment. now split. }
    rewrite (getAppointment_found _ db' a Hf). eexists.
    split; reflexivity.
Qed.

Lemma createAppointment_without_referenced_rows_witness :
  let req :=
    mkCreateAppointmentRequest 9999 1 (time.Date 2025 2 1 9 30 0 0)
      "" "" "" in
  let created :=
    createAppointment (exampleClock 10) None (Decoded req) exampleDB in
  find (hasKey 9999) (rows (patients exampleDB)) = None
  /\ exists a : Appointment,
       fst created = mkResponse http.StatusCreated (JAppointment a)
       /\ Appointment_PatientID a = 9999%N
       /\ Appointment_DoctorID a = 1%N
       /\ Appointment_Date a = time.Date 2025 2 1 9 30 0 0
       /\ onlyRowWith (rows (appointments (snd created)))
            (Appointment_ID a) a
       /\ exists a' : Appointment,
            getAppointment None (Z.of_N (Appointment_ID a)) (snd created)
            = mkResponse http.StatusOK (JAppointment a')
            /\ Appointment_columns a' = a.
Proof.
  intros req created. split; [vm_compute; reflexivity|].
  destruct (createAppointment_without_referenced_rows (exampleClock 10) req
              exampleDB) as (a & Ea & Ep & Ed & Et & Eo & Ef).
  - unfold fitsUint. simpl. lia.
  - unfold fitsUint. simpl. lia.
  - discriminate.
  - discriminate.
  - vm_compute. discriminate.
  - left. vm_compute. reflexivity.
  - exists a. repeat split; auto. apply Ef.
    + apply (f_equal body) in Ea. vm_compute in Ea. injection Ea as <-.
      reflexivity.
    + reflexivity.
    + reflexivity.
Defined.

(** The same request with a patient reference of 2^63: the answer is 201
    and the row is stored, and the get by the identifier of the answer does
    not find it. *)
Example createAppointment_reference_outside_int63 :
  let req :=
    mkCreateAppointmentRequest (2 ^ 63) 1 (time.Date 2025 2 1 9 30 0 0)
      "" "" "" in
  let created :=
    createAppointment (exampleClock 10) None (Decoded req) exampleDB in
  status (fst created) = http.StatusCreated
  /\ List.length (rows (appointments (snd created))) = 6
  /\ getAppointment None 6 (snd created)
     = mkResponse http.StatusNotFound (H_error "Appointment not found").
Proof. vm_compute. repeat split. Qed.

(** Filtering twice, in either order. *)
Lemma filter_filter_comm {A : Type} (f g : A -> bool) (l : list A) :
  filter f (filter g l) = filter g (filter f l).
Proof.
  induction l as [|x l IH]; simpl; [reflexivity|].
  destruct (f x) eqn:Ef, (g x) eqn:Eg; simpl; rewrite ?Ef, ?Eg, IH;
    reflexivity.
Qed.

Lemma nil_iff_no_member {A : Type} (l : list A) :
  l = [] <-> forall x, ~ In x l.
Proof.
  split; [intros -> x []|]. destruct l as [|x l]; [reflexivity|].
  intros H. exfalso. apply (H x). now left.
Qed.

Lemma find_none_iff {T : Type} `{Model T} (k : N) (l : list T) :
  find (hasKey (Z.of_N k)) l = None
  <-> forall x, In x l -> primaryKey x <> k.
Proof.
  split.
  - intros Hf x Hx Hk. pose proof (find_none _ _ Hf x Hx) as E.
    apply hasKey_false in E. apply E. now rewrite Hk.
  - intros Hall. apply find_absent. intros x Hx Hk.
    apply (Hall x Hx). lia.
Qed.

(** The rows of a has-many association, for an owner whose key is below
    2^63, are the rows whose foreign key is that key. *)
Lemma appointmentsOfPatient_spec (db : DB) (p : Patient) (a : Appointment) :
  below63 (Patient_ID p) ->
  In a (appointmentsOfPatient db p)
  <-> In a (rows (appointments db))
      /\ Appointment_PatientID a = Patient_ID p.
Proof.
  intros Hp. unfold appointmentsOfPatient. rewrite filter_In, eqParam_key.
  split; [tauto|]. intros [Hin He]. repeat split; auto.
  apply uintScans_below. now rewrite He.
Qed.

Lemma historyOf_spec (db : DB) (p : Patient) (h : MedicalHistory) :
  below63 (Patient_ID p) ->
  In h (historyOf db p)
  <-> In h (rows (medical_histories db))
      /\ MedicalHistory_PatientID h = Patient_ID p.
Proof.
  intros Hp. unfold historyOf. rewrite filter_In, eqParam_key.
  split; [tauto|]. intros [Hin He]. repeat split; auto.
  apply uintScans_below. now rewrite He.
Qed.

Lemma testsOf_spec (db : DB) (a : Appointment) (m : MedicalTest) :
  below63 (Appointment_ID a) ->
  In m (testsOf db a)
  <-> In m (rows (medical_tests db))
      /\ MedicalTest_AppointmentID m = Appointment_ID a.
Proof.
  intros Ha. unfold testsOf. rewrite filter_In, eqParam_key.
  split; [tauto|]. intros [Hin He]. repeat split; auto.
  apply uintScans_below. now rewrite He.
Qed.

(** The appointments of a patient can be read back when their doctor
    references are below 2^63. *)
Lemma appointmentsOfPatient_scans (db : DB) (p : Patient) :
  below63 (Patient_ID p) ->
  (forall a, In a (rows (appointments db)) ->
             Appointment_PatientID a = Patient_ID p ->
             below63 (Appointment_DoctorID a)) ->
  forallb scans (appointmentsOfPatient db p) = true.
Proof.
  intros Hp Hd. apply forallb_forall. intros a Ha.
  apply (appointmentsOfPatient_spec db p a Hp) in Ha as [Hin He].
  apply scans_appointment. split; [now rewrite He|now apply Hd].
Qed.

(** C1, amended: when a create handler answers 201, the identifier of the
    returned record is fresh for its table (larger than every key the table
    ever gave out, borne by no row), afterwards it is borne by the created
    row only and is the value of the table's key counter, and no sequence
    of requests ever lowers a key counter: no earlier and no later creation
    shares the identifier.  When the identifier is below 2^63 and the rows
    to read can be read back (for a patient, the appointments that refer to
    it have a doctor reference below 2^63; for an appointment, its own
    references are below 2^63), a following GET /patients/:id or GET
    /appointments/:id with that identifier answers 200 with a record whose
    columns are those of the record returned at creation; its associations
    are loaded at read time, and the two records are equal as a whole
    exactly when there is nothing to load (no appointment or history entry
    refers to the new patient; the patient and the doctor of the new
    appointment do not exist and no medical test refers to it).  A history
    entry has no get-by-id: when its patient reference is below 2^63, GET
    /patients/:id/medical-history for that patient lists exactly one entry
    with the identifier, the record returned at creation. *)
Theorem created_record_is_fresh_and_reads_back :
  forall (dialect : Dialector) (now : Time) (fault : Fault) (db : DB),
    (forall body : Body CreatePatientRequest,
        let created := createPatient now fault body db in
        status (fst created) = http.StatusCreated ->
        exists p : Patient,
          fst created = mkResponse http.StatusCreated (JPatient p)
          /\ freshIn (patients db) (Patient_ID p)
          /\ onlyRowWith (rows (patients (snd created))) (Patient_ID p) p
          /\ seq (patients (snd created)) = Patient_ID p
          /\ (below63 (Patient_ID p) ->
              (forall a : Appointment,
                  In a (rows (appointments db)) ->
                  Appointment_PatientID a = Patient_ID p ->
                  below63 (Appointment_DoctorID a)) ->
              exists p' : Patient,
                getPatient None (Z.of_N (Patient_ID p)) (snd created)
                = mkResponse http.StatusOK (JPatient p')
                /\ Patient_columns p' = p
                /\ (p' = p
                    <-> (forall a : Appointment,
                            In a (rows (appointments db)) ->
                            Appointment_PatientID a <> Patient_ID p)
                        /\ (forall h : MedicalHistory,
                               In h (rows (medical_histories db)) ->
                               MedicalHistory_PatientID h <> Patient_ID p))))
    /\ (forall body : Body CreateAppointmentRequest,
          let created := createAppointment now fault body db in
          status (fst created) = http.StatusCreated ->
          exists a : Appointment,
            fst created = mkResponse http.StatusCreated (JAppointment a)
            /\ freshIn (appointments db) (Appointment_ID a)
            /\ onlyRowWith (rows (appointments (snd created)))
                 (Appointment_ID a) a
            /\ seq (appointments (snd created)) = Appointment_ID a
            /\ (below63 (Appointment_ID a) ->
                readsBack a ->
                exists a' : Appointment,
                  getAppointment None (Z.of_N (Appointment_ID a))
                    (snd created)
                  = mkResponse http.StatusOK (JAppointment a')
                  /\ Appointment_columns a' = a
                  /\ (a' = a
                      <-> (forall x : Patient,
                              In x (rows (patients db)) ->
                              Patient_ID x <> Appointment_PatientID a)
                          /\ (forall d : Doctor,
                                 In d (rows (doctors db)) ->
                                 Doctor_ID d <> Appointment_DoctorID a)
                          /\ (forall m : MedicalTest,
                                 In m (rows (medical_tests db)) ->
                                 MedicalTest_AppointmentID m
                                 <> Appointment_ID a))))
    /\ (forall body : Body CreateMedicalHistoryRequest,
          let created := createMedicalHistory now fault body db in
          status (fst created) = http.StatusCreated ->
          exists h : MedicalHistory,
            fst created = mkResponse http.StatusCreated (JMedicalHistory h)
            /\ freshIn (medical_histories db) (MedicalHistory_ID h)
            /\ onlyRowWith (rows (medical_histories (snd created)))
                 (MedicalHistory_ID h) h
            /\ seq (medical_histories (snd created)) = MedicalHistory_ID h
            /\ (below63 (MedicalHistory_PatientID h) ->
                exists l : list MedicalHistory,
                  getPatientMedicalHistory None
                    (Z.of_N (MedicalHistory_PatientID h)) (snd created)
                  = mkResponse http.StatusOK (JMedicalHistories l)
                  /\ onlyRowWith l (MedicalHistory_ID h) h))
    /\ (forall reqs : list (Env * Request),
          (seq (patients db) <= seq (patients (serveAll reqs db)))%N
          /\ (seq (appointments db)
              <= seq (appointments (serveAll reqs db)))%N
          /\ (seq (medical_histories db)
              <= seq (medical_histories (serveAll reqs db)))%N).
Proof.
  intros dialect now fault db. split; [|split; [|split]].
  - intros body created H. subst created.
    destruct (createPatient_201 now fault body db H) as (req & _ & ->).
    cbn [fst snd]. set (p := createdPatient now req (patients db)).
    exists p. split; [reflexivity|]. split; [apply nextKey_freshIn|].
    split; [now apply onlyRowWith_created|]. split; [reflexivity|].
    intros Hid Hd. set (db' := with_patients _ db).
    assert (Hs : forallb scans (appointmentsOfPatient db p) = true)
      by (now apply appointmentsOfPatient_scans).
    assert (Hf : First None (Z.of_N (Patient_ID p)) (patients db') = Ok p).
    { apply (First_created (patients db) p); [reflexivity| |reflexivity].
      now apply within64_below. }
    rewrite (getPatient_found _ db' p Hf Hs).
    eexists. split; [reflexivity|]. split; [reflexivity|].
    change (loadedPatient db' p)
      with (mkPatient (Patient_ID p) (Patient_CreatedAt p)
              (Patient_FullName p) (Patient_BirthDate p) (Patient_Gender p)
              (Patient_Phone p) (Patient_Email p)
              (map (preloadDoctor db') (appointmentsOfPatient db p))
              (historyOf db p)).
    assert (Ea : appointmentsOfPatient db p = []
                 <-> forall a, In a (rows (appointments db)) ->
                               Appointment_PatientID a <> Patient_ID p).
    { rewrite nil_iff_no_member. split.
      - intros Hn a Ha He. apply (Hn a).
        now apply appointmentsOfPatient_spec.
      - intros Hn a Ha. apply appointmentsOfPatient_spec in Ha as [Ha He];
          [|exact Hid]. now apply (Hn a). }
    assert (Eh : historyOf db p = []
                 <-> forall h, In h (rows (medical_histories db)) ->
                               MedicalHistory_PatientID h <> Patient_ID p).
    { rewrite nil_iff_no_member. split.
      - intros Hn h Hh He. apply (Hn h). now apply historyOf_spec.
      - intros Hn h Hh. apply historyOf_spec in Hh as [Hh He];
          [|exact Hid]. now apply (Hn h). }
    rewrite <- Ea, <- Eh. split.
    + intros E. split.
      * apply (f_equal Patient_Appointments) in E. cbn in E.
        now apply map_eq_nil in E.
      * apply (f_equal Patient_MedicalHistory) in E. exact E.
    + intros [-> ->]. reflexivity.
  - intros body created H. subst created.
    destruct (createAppointment_201 now fault body db H) as (req & -> & E).
    pose proof (createAppointment_201_binds now fault req db H) as Hm.
    apply appointment_binds in Hm as (Np & Nd & _).
    rewrite E. clear E.
    cbn [fst snd]. set (a := createdAppointment now req (appointments db)).
    exists a. split; [reflexivity|]. split; [apply nextKey_freshIn|].
    split; [now apply onlyRowWith_created|]. split; [reflexivity|].
    intros Hid Hr. set (db' := with_appointments _ db).
    assert (Hf : First None (Z.of_N (Appointment_ID a)) (appointments db')
                 = Ok a).
    { apply (First_created (appointments db) a); [reflexivity| |].
      - now apply within64_below.
      - now apply scans_appointment. }
    rewrite (getAppointment_found _ db' a Hf).
    eexists. split; [reflexivity|]. split; [reflexivity|].
    assert (Ep : find (hasKey (Z.of_N (Appointment_PatientID a)))
                   (rows (patients db)) = None
                 <-> forall x : Patient,
                       In x (rows (patients db)) ->
                       Patient_ID x <> Appointment_PatientID a)
      by (exact (find_none_iff (T := Patient) (Appointment_PatientID a)
                   (rows (patients db)))).
    assert (Ed : find (hasKey (Z.of_N (Appointment_DoctorID a)))
                   (rows (doctors db)) = None
                 <-> forall d : Doctor,
                       In d (rows (doctors db)) ->
                       Doctor_ID d <> Appointment_DoctorID a)
      by (exact (find_none_iff (T := Doctor) (Appointment_DoctorID a)
                   (rows (doctors db)))).
    rewrite <- Ep, <- Ed.
    assert (Et : testsOf db a = []
                 <-> forall m, In m (rows (medical_tests db)) ->
                               MedicalTest_AppointmentID m
                               <> Appointment_ID a).
    { rewrite nil_iff_no_member. split.
      - intros Hn m Hm He. apply (Hn m). now apply testsOf_spec.
      - intros Hn m Hm. apply testsOf_spec in Hm as [Hm He];
          [|exact Hid]. now apply (Hn m). }
    rewrite <- Et.
    unfold loadedAppointment, preloadPatient, preloadDoctor.
    change (patients db') with (patients db).
    change (doctors db') with (doctors db).
    change (testsOf db' a) with (testsOf db a).
    split.
    + intros Eq.
      destruct (find (hasKey (Z.of_N (Appointment_PatientID a)))
                  (rows (patients db))) as [x|] eqn:Fp.
      { exfalso. apply find_some in Fp as [_ Fp].
        apply hasKey_true in Fp.
        apply (f_equal (fun r => Patient_ID (Appointment_Patient r))) in Eq.
        cbn in Eq. cbn in Fp. rewrite Eq in Fp. cbn in Fp. lia. }
      destruct (find (hasKey (Z.of_N (Appointment_DoctorID a)))
                  (rows (doctors db))) as [y|] eqn:Fd.
      { exfalso. apply find_some in Fd as [_ Fd].
        apply hasKey_true in Fd.
        apply (f_equal (fun r => Doctor_ID (Appointment_Doctor r))) in Eq.
        cbn in Eq. cbn in Fd. rewrite Eq in Fd. cbn in Fd. lia. }
      split; [reflexivity|]. split; [reflexivity|].
      apply (f_equal Appointment_MedicalTests) in Eq. exact Eq.
    + intros (-> & -> & ->). reflexivity.
  - intros body created H. subst created.
    destruct (createMedicalHistory_201 now fault body db H)
      as (req & _ & ->).
    cbn [fst snd]. set (h := createdHistory now req (medical_histories db)).
    exists h. split; [reflexivity|]. split; [apply nextKey_freshIn|].
    split; [now apply onlyRowWith_created|]. split; [reflexivity|].
    intros Sp. apply uintScans_below in Sp.
    unfold getPatientMedicalHistory, Find.
    cbn [medical_histories with_medical_histories rows].
    set (sel := filter _ _).
    assert (Hs : forallb scans sel = true).
    { apply forallb_forall. intros x Hx. apply filter_In in Hx as [_ Hx].
      rewrite satisfies_Where, satisfies_nil in Hx. simpl in Hx.
      now apply eqParam_key in Hx. }
    rewrite (scanned_readable _ Hs). eexists. split; [reflexivity|].
    unfold onlyRowWith. subst sel. rewrite filter_filter_comm.
    assert (Hu : filter (hasKey (Z.of_N (MedicalHistory_ID h)))
                   (rows (medical_histories db) ++ [h]) = [h])
      by (apply (onlyRowWith_created (medical_histories db) h);
          reflexivity).
    rewrite Hu. cbn [filter]. rewrite satisfies_Where, satisfies_nil.
    assert (He : eqParam (MedicalHistory_PatientID h)
                   (Z.of_N (MedicalHistory_PatientID h)) = true)
      by (now apply eqParam_key).
    now rewrite He.
  - intros reqs. apply serveAll_counters.
Qed.

Lemma created_record_is_fresh_and_reads_back_witness :
  let now := exampleClock 10 in
  let patient :=
    createPatient now None
      (Decoded
         (mkCreatePatientRequest "Test User" (time.Date 1990 1 1 0 0 0 0)
            "male" "" ""))
      exampleDB in
  let appointment :=
    createAppointment now None
      (Decoded
         (mkCreateAppointmentRequest 9999 9999 (time.Date 2025 2 1 9 30 0 0)
            "" "" ""))
      exampleDB in
  let history :=
    createMedicalHistory now None
      (Decoded
         (mkCreateMedicalHistoryRequest 1 "allergy" "Latex" time.zero "mild"
            "active" ""))
      exampleDB in
  (status (fst patient) = http.StatusCreated
   /\ exists p : Patient,
        fst patient = mkResponse http.StatusCreated (JPatient p)
        /\ Patient_ID p = 6%N
        /\ getPatient None 6 (snd patient)
           = mkResponse http.StatusOK (JPatient p))
  /\ (status (fst appointment) = http.StatusCreated
      /\ exists a : Appointment,
           fst appointment = mkResponse http.StatusCreated (JAppointment a)
           /\ Appointment_ID a = 6%N
           /\ getAppointment None 6 (snd appointment)
              = mkResponse http.StatusOK (JAppointment a))
  /\ (status (fst history) = http.StatusCreated
      /\ exists h : MedicalHistory,
           fst history = mkResponse http.StatusCreated (JMedicalHistory h)
           /\ MedicalHistory_ID h = 12%N
           /\ exists l : list MedicalHistory,
                getPatientMedicalHistory None 1 (snd history)
                = mkResponse http.StatusOK (JMedicalHistories l)
                /\ onlyRowWith l 12 h).
Proof.
  intros now patient appointment history.
  pose proof (created_record_is_fresh_and_reads_back sqlite now None
                exampleDB) as (Hp & Ha & Hh & _).
  assert (Sp : status (fst patient) = http.StatusCreated)
    by (vm_compute; reflexivity).
  assert (Sa : status (fst appointment) = http.StatusCreated)
    by (vm_compute; reflexivity).
  assert (Sh : status (fst history) = http.StatusCreated)
    by (vm_compute; reflexivity).
  assert (Na : forall a : Appointment,
             In a (rows (appointments exampleDB)) ->
             (Appointment_PatientID a <=? 5)%N = true).
  { apply forallb_forall. vm_compute. reflexivity. }
  assert (Nh : forall h : MedicalHistory,
             In h (rows (medical_histories exampleDB)) ->
             (MedicalHistory_PatientID h <=? 5)%N = true).
  { apply forallb_forall. vm_compute. reflexivity. }
  split; [split; [exact Sp|]|split; [split; [exact Sa|]|split; [exact Sh|]]].
  - destruct (Hp _ Sp) as (p & Ep & _ & _ & _ & Hget).
    assert (Ip : p = createdPatient now
                       (mkCreatePatientRequest "Test User"
                          (time.Date 1990 1 1 0 0 0 0) "male" "" "")
                       (patients exampleDB)).
    { apply (f_equal body) in Ep. vm_compute in Ep.
      injection Ep as <-. vm_compute. reflexivity. }
    assert (I6 : Patient_ID p = 6%N) by (now rewrite Ip).
    exists p. split; [exact Ep|]. split; [exact I6|].
    destruct Hget as (p' & Eget & _ & Esame).
    + rewrite I6. reflexivity.
    + intros a Hin He. apply Na, N.leb_le in Hin. rewrite I6 in He. lia.
    + rewrite I6 in Eget. change (Z.of_N 6) with 6%Z in Eget.
      fold patient in Eget. rewrite Eget.
      assert (Es : p' = p).
      { apply Esame. rewrite I6. split.
        - intros a Hin. apply Na, N.leb_le in Hin. lia.
        - intros h Hin. apply Nh, N.leb_le in Hin. lia. }
      now rewrite Es.
  - destruct (Ha _ Sa) as (a & Ea & _ & _ & _ & Hget).
    assert (Ia : a = createdAppointment now
                       (mkCreateAppointmentRequest 9999 9999
                          (time.Date 2025 2 1 9 30 0 0) "" "" "")
                       (appointments exampleDB)).
    { apply (f_equal body) in Ea. vm_compute in Ea.
      injection Ea as <-. vm_compute. reflexivity. }
    assert (I6 : Appointment_ID a = 6%N) by (now rewrite Ia).
    exists a. split; [exact Ea|]. split; [exact I6|].
    destruct Hget as (a' & Eget & _ & Esame).
    + rewrite I6. reflexivity.
    + rewrite Ia. split; reflexivity.
    + rewrite I6 in Eget. change (Z.of_N 6) with 6%Z in Eget.
      fold appointment in Eget. rewrite Eget.
      assert (Es : a' = a).
      { assert (Px : forall x : Patient,
                   In x (rows (patients exampleDB)) ->
                   (Patient_ID x <=? 5)%N = true)
          by (apply forallb_forall; vm_compute; reflexivity).
        assert (Pd : forall d : Doctor,
                   In d (rows (doctors exampleDB)) ->
                   (Doctor_ID d <=? 5)%N = true)
          by (apply forallb_forall; vm_compute; reflexivity).
        assert (Pm : forall m : MedicalTest,
                   In m (rows (medical_tests exampleDB)) ->
                   (MedicalTest_AppointmentID m <=? 5)%N = true)
          by (apply forallb_forall; vm_compute; reflexivity).
        apply Esame. rewrite I6.
        assert (Ir : Appointment_PatientID a = 9999%N
                     /\ Appointment_DoctorID a = 9999%N)
          by (rewrite Ia; split; reflexivity).
        destruct Ir as [-> ->].
        split; [|split].
        - intros x Hx. apply Px, N.leb_le in Hx. lia.
        - intros d Hd. apply Pd, N.leb_le in Hd. lia.
        - intros m Hm. apply Pm, N.leb_le in Hm. lia. }
      now rewrite Es.
  - destruct (Hh _ Sh) as (h & Eh & _ & _ & _ & Hget).
    assert (Ih : h = createdHistory now
                       (mkCreateMedicalHistoryRequest 1 "allergy" "Latex"
                          time.zero "mild" "active" "")
                       (medical_histories exampleDB)).
    { apply (f_equal body) in Eh. vm_compute in Eh.
      injection Eh as <-. vm_compute. reflexivity. }
    exists h. split; [exact Eh|]. split; [now rewrite Ih|].
    destruct Hget as (l & Eget & Eonly).
    + rewrite Ih. reflexivity.
    + exists l.
      assert (E1 : Z.of_N (MedicalHistory_PatientID h) = 1%Z)
        by (now rewrite Ih).
      assert (E12 : MedicalHistory_ID h = 12%N) by (now rewrite Ih).
      rewrite E1 in Eget. rewrite E12 in Eonly. fold history in Eget.
      split; [exact Eget|exact Eonly].
Defined.

(** An appointment for the seeded patient 1 and doctor 1 is created with
    zero [patient] and [doctor] objects and read back with the objects of
    patient 1 and doctor 1: the record of the get is not equal to the
    record of the creation. *)
Lemma created_appointment_reads_back_with_associations :
  let created :=
    createAppointment (exampleClock 10) None
      (Decoded
         (mkCreateAppointmentRequest 1 1 (time.Date 2025 2 1 9 30 0 0)
            "" "" ""))
      exampleDB in
  match fst created with
  | mkResponse code (JAppointment a) =>
      code = http.StatusCreated
      /\ Appointment_Patient a = zeroPatient
      /\ getAppointment None (Z.of_N (Appointment_ID a)) (snd created)
         <> mkResponse http.StatusOK (JAppointment a)
      /\ match getAppointment None (Z.of_N (Appointment_ID a)) (snd created)
         with
         | mkResponse code' (JAppointment a') =>
             code' = http.StatusOK /\ Patient_ID (Appointment_Patient a') = 1%N
         | _ => False
         end
  | _ => False
  end.
Proof.
  vm_compute. repeat split; discriminate.
Qed.
(** ** Replacing *)

Lemma Save_existing {T : Type} `{Model T} (now : Time) (v old : T)
  (t : Table T) :
  primaryKey v <> 0%N ->
  constraint v = None ->
  find (hasKey (Z.of_N (primaryKey v))) (rows t) = Some old ->
  Save now None v t = (Ok v, mkTable (replaceRow v (rows t)) (seq t)).
Proof.
  intros Hk Hc Hf. unfold Save.
  destruct (N.eqb_spec (primaryKey v) 0) as [E|_]; [contradiction|].
  now rewrite Hc, (find_existsb _ _ _ Hf).
Qed.

Lemma First_not_found {T : Type} `{Model T} (fault : Fault) (id : Z)
  (t : Table T) :
  inInt64 id = true ->
  find (hasKey id) (rows t) = None -> exists e, First fault id t = Err e.
Proof.
  intros Hid Hf. apply First_none. now rewrite lookup_inInt64.
Qed.

Lemma First_in_range {T : Type} `{Model T} (id : Z) (t : Table T) (r : T) :
  inInt64 id = true ->
  find (hasKey id) (rows t) = Some r ->
  scans r = true ->
  First None id t = Ok r.
Proof.
  intros Hid Hf Hs. apply First_found; [|exact Hs].
  now rewrite lookup_inInt64.
Qed.

Lemma Patient_check_allowed (p : Patient) :
  Patient_Gender p = "male" \/ Patient_Gender p = "female" ->
  Patient_check p = None.
Proof.
  unfold Patient_check. intros [-> | ->]; reflexivity.
Qed.



(** ** The seed routine *)

(** Two first starts, one an hour after the other, leave different
    appointment tables: the dates of the seeded appointments are computed
    from the wall clock. *)
Lemma seed_depends_on_the_clock :
  seedDatabase exampleClock noFault emptyDB
  <> seedDatabase (fun k => time.Add (exampleClock k) time.Hour) noFault
       emptyDB.
Proof.
  intros H.
  apply (f_equal (fun db => map Appointment_Date (rows (appointments db))))
    in H.
  vm_compute in H. discriminate H.
Qed.

(** Without faults the routine starts from the tables emptied, with their
    key counters as they were. *)
Lemma seedDatabase_cleared (clock : nat -> Time) (db : DB) :
  seedDatabase clock noFault db = seedDatabase clock noFault (cleared db).
Proof. reflexivity. Qed.

Lemma cleared_counters (db1 db2 : DB) :
  counters db1 = counters db2 -> cleared db1 = cleared db2.
Proof.
  unfold counters, cleared. intros H. injection H as -> -> -> -> ->.
  reflexivity.
Qed.

Lemma seedDatabase_clock_ext (clock1 clock2 : nat -> Time)
  (fault : nat -> Fault) (db : DB) :
  (forall k, (k < 10)%nat -> clock1 k = clock2 k) ->
  seedDatabase clock1 fault db = seedDatabase clock2 fault db.
Proof.
  intros H. unfold seedDatabase, seedAppointments.
  rewrite (H 0%nat), (H 1%nat), (H 2%nat), (H 3%nat), (H 4%nat), (H 5%nat),
    (H 6%nat), (H 7%nat), (H 8%nat), (H 9%nat) by lia.
  reflexivity.
Qed.

(** What the routine leaves, apart from keys, creation timestamps and
    appointment dates, is the content of its five literals. *)
Lemma seedDatabase_demoData (clock : nat -> Time) (db : DB) :
  demoData (seedDatabase clock noFault db)
  = (seedPatients, seedDoctors,
     map undated (seedAppointments (fun _ => time.zero)),
     seedMedicalTests, seedMedicalHistories).
Proof.
  rewrite seedDatabase_cleared. unfold cleared.
  generalize (seq (patients db)), (seq (doctors db)),
    (seq (appointments db)), (seq (medical_tests db)),
    (seq (medical_histories db)).
  intros s1 s2 s3 s4 s5. vm_compute. reflexivity.
Qed.

(** C7, amended: when no storage statement fails, the seed routine replaces
    whatever rows the five tables hold by the same fixed records: any two
    starts, at any times and from any previous content, yield tables that
    agree in every column except the generated ones (identifier, creation
    timestamp) and the dates of the appointments, which are computed from
    the wall clock.  Two starts that read the same clock values, from
    database files with the same key counters, yield equal database
    states. *)
Theorem seed_is_deterministic_up_to_clock_and_keys :
  forall (clock1 clock2 : nat -> Time) (file1 file2 : DB),
    demoData (seedDatabase clock1 noFault file1)
    = demoData (seedDatabase clock2 noFault file2)
    /\ ((forall k, (k < 10)%nat -> clock1 k = clock2 k) ->
        counters file1 = counters file2 ->
        seedDatabase clock1 noFault file1
        = seedDatabase clock2 noFault file2).
Proof.
  intros clock1 clock2 file1 file2. split.
  - now rewrite !seedDatabase_demoData.
  - intros Hclock Hcount.
    rewrite (seedDatabase_clock_ext clock1 clock2 noFault file1 Hclock).
    rewrite (seedDatabase_cleared clock2 file1),
      (seedDatabase_cleared clock2 file2).
    now rewrite (cleared_counters file1 file2 Hcount).
Qed.

Lemma seed_is_deterministic_up_to_clock_and_keys_witness :
  let clock2 : nat -> Time :=
    fun k =>
      mkTime (Z.of_nat k + instant (time.Date 2025 1 1 12 0 0 0))%Z Local in
  (forall k, (k < 10)%nat -> exampleClock k = clock2 k)
  /\ counters exampleDB = counters (cleared exampleDB)
  /\ seedDatabase exampleClock noFault exampleDB
     = seedDatabase clock2 noFault (cleared exampleDB).
Proof.
  intros clock2.
  assert (Hc : forall k, (k < 10)%nat -> exampleClock k = clock2 k)
    by (intros k _; unfold exampleClock, clock2; f_equal; lia).
  assert (Hn : counters exampleDB = counters (cleared exampleDB))
    by reflexivity.
  split; [exact Hc|]. split; [exact Hn|].
  exact (proj2 (seed_is_deterministic_up_to_clock_and_keys exampleClock
                  clock2 exampleDB (cleared exampleDB)) Hc Hn).
Defined.

(** ** Required fields and references to identifier 0 *)

Lemma ShouldBindJSON_Ok {T : Type} `{Binding T} (body : Body T) (req : T) :
  ShouldBindJSON body = Ok req -> body = Decoded req /\ missing req = [].
Proof.
  unfold ShouldBindJSON. destruct body as [msg|v]; [discriminate|].
  destruct (outOfRange v); [|discriminate].
  destruct (missing v) eqn:Hm; [|discriminate].
  intros [= ->]. now split.
Qed.

Section Preservation.
Context {T : Type} {M : Model T}.
Variable P : T -> Prop.
Hypothesis P_setPrimaryKey : forall id r, P r -> P (setPrimaryKey id r).
Hypothesis P_setCreatedAt : forall t r, P r -> P (setCreatedAt t r).
Hypothesis P_columns : forall r, P r -> P (columns r).

Lemma insertRow_Forall (now : Time) (v v' : T) (t t' : Table T) :
  P v -> Forall P (rows t) ->
  insertRow now v t = Ok (v', t') -> Forall P (rows t').
Proof.
  intros Hv Ht. unfold insertRow.
  set (v1 :=
         if time.isZeroValue (createdAt v) then setCreatedAt now v else v).
  assert (Hv1 : P v1) by (subst v1; destruct (time.isZeroValue _); auto).
  destruct (constraint v1); [discriminate|].
  destruct (primaryKey v1 =? 0)%N.
  - intros [= _ <-]. simpl. apply Forall_app. split; auto.
  - destruct (existsb _ _); [discriminate|].
    intros [= _ <-]. simpl. apply Forall_app. split; auto.
Qed.

Lemma Create_Forall (now : Time) (fault : Fault) (v : T) (t : Table T) :
  P v -> Forall P (rows t) -> Forall P (rows (snd (Create now fault v t))).
Proof.
  intros Hv Ht. unfold Create. destruct fault; [exact Ht|].
  destruct (insertRow now v t) as [[v' t']|e] eqn:E; [|exact Ht].
  simpl. eapply insertRow_Forall; eauto.
Qed.

Lemma Save_Forall (now : Time) (fault : Fault) (v : T) (t : Table T) :
  P v -> Forall P (rows t) -> Forall P (rows (snd (Save now fault v t))).
Proof.
  intros Hv Ht. unfold Save. destruct fault; [exact Ht|].
  destruct (primaryKey v =? 0)%N; [now apply Create_Forall|].
  destruct (constraint v); [exact Ht|].
  destruct (existsb _ _); [|now apply Create_Forall].
  simpl. apply Forall_replaceRow; auto.
Qed.

Lemma Delete_Forall (fault : Fault) (id : Z) (t : Table T) :
  Forall P (rows t) -> Forall P (rows (snd (Delete fault id t))).
Proof.
  intros Ht. unfold Delete. destruct fault; [exact Ht|].
  simpl. now apply Forall_filter.
Qed.

End Preservation.

Lemma createAppointment_keeps_nonzero (now : Time) (fault : Fault)
  (body : Body CreateAppointmentRequest) (db : DB) :
  refersToNoZero db ->
  refersToNoZero (snd (createAppointment now fault body db)).
Proof.
  intros [Ha Hh]. unfold createAppointment.
  destruct (ShouldBindJSON body) as [req|e] eqn:Hb; [|now split].
  apply ShouldBindJSON_Ok in Hb as [_ Hm]. apply appointment_binds in Hm.
  match goal with
  | |- context [Create now fault ?v ?t] =>
      pose proof (Create_Forall
                    (fun a => Appointment_PatientID a <> 0%N
                              /\ Appointment_DoctorID a <> 0%N)
                    (fun _ _ H => H) (fun _ _ H => H) (fun _ H => H)
                    now fault v t) as HC;
      destruct (Create now fault v t) as [[a|e] t']
  end; [|now split].
  split; [|exact Hh]. simpl in *. apply HC; [tauto|exact Ha].
Qed.

Lemma updateAppointment_keeps_nonzero (now : Time) (fault1 fault2 : Fault)
  (id : Z) (body : Body CreateAppointmentRequest) (db : DB) :
  refersToNoZero db ->
  refersToNoZero (snd (updateAppointment now fault1 fault2 id body db)).
Proof.
  intros [Ha Hh]. unfold updateAppointment.
  destruct (First fault1 id (appointments db)) as [old|e]; [|now split].
  destruct (ShouldBindJSON body) as [req|e] eqn:Hb; [|now split].
  apply ShouldBindJSON_Ok in Hb as [_ Hm]. apply appointment_binds in Hm.
  match goal with
  | |- context [Save now fault2 ?v ?t] =>
      pose proof (Save_Forall
                    (fun a => Appointment_PatientID a <> 0%N
                              /\ Appointment_DoctorID a <> 0%N)
                    (fun _ _ H => H) (fun _ _ H => H) (fun _ H => H)
                    now fault2 v t) as HS;
      destruct (Save now fault2 v t) as [[a|e] t']
  end; [|now split].
  split; [|exact Hh]. simpl in *. apply HS; [tauto|exact Ha].
Qed.

Lemma deleteAppointment_keeps_nonzero (fault : Fault) (id : Z) (db : DB) :
  refersToNoZero db -> refersToNoZero (snd (deleteAppointment fault id db)).
Proof.
  intros [Ha Hh]. unfold deleteAppointment.
  pose proof (Delete_Forall
                (fun a => Appointment_PatientID a <> 0%N
                          /\ Appointment_DoctorID a <> 0%N)
                fault id (appointments db) Ha) as HD.
  destruct (Delete fault id (appointments db)) as [[u|e] t']; now split.
Qed.

Lemma createMedicalHistory_keeps_nonzero (now : Time) (fault : Fault)
  (body : Body CreateMedicalHistoryRequest) (db : DB) :
  refersToNoZero db ->
  refersToNoZero (snd (createMedicalHistory now fault body db)).
Proof.
  intros [Ha Hh]. unfold createMedicalHistory.
  destruct (ShouldBindJSON body) as [req|e] eqn:Hb; [|now split].
  apply ShouldBindJSON_Ok in Hb as [_ Hm]. apply history_binds in Hm.
  match goal with
  | |- context [Create now fault ?v ?t] =>
      pose proof (Create_Forall
                    (fun h => MedicalHistory_PatientID h <> 0%N)
                    (fun _ _ H => H) (fun _ _ H => H) (fun _ H => H)
                    now fault v t) as HC;
      destruct (Create now fault v t) as [[h|e] t']
  end; [|now split].
  split; [exact Ha|]. simpl in *. apply HC; [tauto|exact Hh].
Qed.

Lemma deleteMedicalHistory_keeps_nonzero (fault : Fault) (id : Z)
  (db : DB) :
  refersToNoZero db ->
  refersToNoZero (snd (deleteMedicalHistory fault id db)).
Proof.
  intros [Ha Hh]. unfold deleteMedicalHistory.
  pose proof (Delete_Forall
                (fun h => MedicalHistory_PatientID h <> 0%N)
                fault id (medical_histories db) Hh) as HD.
  destruct (Delete fault id (medical_histories db)) as [[u|e] t'];
    now split.
Qed.

Lemma patient_handlers_keep_nonzero (now : Time) (fault1 fault2 : Fault)
  (id : Z) (body : Body CreatePatientRequest) (db : DB) :
  refersToNoZero db ->
  refersToNoZero (snd (createPatient now fault1 body db))
  /\ refersToNoZero (snd (updatePatient now fault1 fault2 id body db))
  /\ refersToNoZero (snd (deletePatient fault1 id db)).
Proof.
  intros H. unfold createPatient, updatePatient, deletePatient.
  split; [|split];
    repeat match goal with
      | |- context [match ?x with _ => _ end] => destruct x
      end; exact H.
Qed.

Lemma serve_keeps_nonzero {dialect : Dialector} (env : Env) (req : Request)
  (db : DB) :
  refersToNoZero db -> refersToNoZero (snd (serve env req db)).
Proof.
  intros H.
  destruct req as [ |id|b|id b|id|id|id| |id|id|p d|id|b|id b|id|id|p t|b|id];
    simpl; try exact H.
  - exact (proj1 (patient_handlers_keep_nonzero (env_now env)
                    (env_fault1 env) None 0 b db H)).
  - exact (proj1 (proj2 (patient_handlers_keep_nonzero (env_now env)
                           (env_fault1 env) (env_fault2 env) id b db H))).
  - exact (proj2 (proj2 (patient_handlers_keep_nonzero (env_now env)
                           (env_fault1 env) None id (Malformed "") db H))).
  - now apply createAppointment_keeps_nonzero.
  - now apply updateAppointment_keeps_nonzero.
  - now apply deleteAppointment_keeps_nonzero.
  - now apply createMedicalHistory_keeps_nonzero.
  - now apply deleteMedicalHistory_keeps_nonzero.
Qed.

Lemma serveAll_keeps_nonzero {dialect : Dialector}
  (reqs : list (Env * Request)) (db : DB) :
  refersToNoZero db -> refersToNoZero (serveAll reqs db).
Proof.
  revert db. induction reqs as [|[env req] reqs IH]; intros db H; simpl.
  - exact H.
  - apply IH. now apply serve_keeps_nonzero.
Qed.

(** A date that denotes the zero instant and is written with an offset of
    one hour is not the zero value of its type: the [required] tag passes
    it, and the appointment is created. *)
Lemma zero_instant_with_offset_binds :
  let date := mkTime 0 (FixedZone 3600) in
  let created :=
    createAppointment (exampleClock 10) None
      (Decoded (mkCreateAppointmentRequest 1 1 date "" "" "")) exampleDB in
  time.IsZero date = true
  /\ status (fst created) = http.StatusCreated
  /\ List.length (rows (appointments exampleDB)) = 5
  /\ List.length (rows (appointments (snd created))) = 6.
Proof. vm_compute. repeat split. Qed.

(** C10, amended: a POST /appointments whose decoded body has patient_id 0,
    doctor_id 0 or, as its date, the zero value of [time.Time] (the zero
    instant in UTC, which is also what an absent field holds), and a POST
    /medical_history whose decoded body has patient_id 0, fail to bind: the
    answer is 400 and the database is left as it was, whatever the storage
    engine would have done.  Consequently, from a database in which no
    appointment refers to patient 0 or doctor 0 and no history entry to
    patient 0, no sequence of requests leads to one in which some does. *)
Theorem zero_required_field_is_rejected :
  forall (dialect : Dialector) (now : Time) (fault : Fault) (db : DB),
    (forall req : CreateAppointmentRequest,
        CreateAppointmentRequest_PatientID req = 0%N
        \/ CreateAppointmentRequest_DoctorID req = 0%N
        \/ CreateAppointmentRequest_Date req = time.zero ->
        exists e : string,
          createAppointment now fault (Decoded req) db
          = (mkResponse http.StatusBadRequest (H_error e), db))
    /\ (forall req : CreateMedicalHistoryRequest,
          CreateMedicalHistoryRequest_PatientID req = 0%N ->
          exists e : string,
            createMedicalHistory now fault (Decoded req) db
            = (mkResponse http.StatusBadRequest (H_error e), db))
    /\ (forall reqs : list (Env * Request),
          refersToNoZero db -> refersToNoZero (serveAll reqs db)).
Proof.
  intros dialect now fault db. split; [|split].
  - intros req Hz. unfold createAppointment, ShouldBindJSON.
    destruct (outOfRange req); [|eauto].
    destruct (missing req) eqn:Hm; [|eauto].
    apply appointment_binds in Hm. tauto.
  - intros req Hz. unfold createMedicalHistory, ShouldBindJSON.
    destruct (outOfRange req); [|eauto].
    destruct (missing req) eqn:Hm; [|eauto].
    apply history_binds in Hm. tauto.
  - intros reqs. apply serveAll_keeps_nonzero.
Qed.

Lemma zero_required_field_is_rejected_witness :
  let now := exampleClock 10 in
  let areq :=
    mkCreateAppointmentRequest 0 1 (time.Date 2025 2 1 9 30 0 0) "" "" "" in
  let treq := mkCreateAppointmentRequest 1 1 time.zero "" "" "" in
  let hreq :=
    mkCreateMedicalHistoryRequest 0 "allergy" "Latex" time.zero "" "" "" in
  let reqs :=
    [ (mkEnv now None None, POST_appointments (Decoded areq));
      (mkEnv now None None, POST_medical_history (Decoded hreq));
      (mkEnv now None None,
       PUT_appointments_id 1
         (Decoded (mkCreateAppointmentRequest 2 0 now "" "" "")));
      (mkEnv now None None,
       POST_appointments
         (Decoded (mkCreateAppointmentRequest 9999 2 now "" "" ""))) ] in
  (exists e : string,
      createAppointment now None (Decoded areq) exampleDB
      = (mkResponse http.StatusBadRequest (H_error e), exampleDB))
  /\ (exists e : string,
        createAppointment now None (Decoded treq) exampleDB
        = (mkResponse http.StatusBadRequest (H_error e), exampleDB))
  /\ (exists e : string,
        createMedicalHistory now None (Decoded hreq) exampleDB
        = (mkResponse http.StatusBadRequest (H_error e), exampleDB))
  /\ refersToNoZero exampleDB
  /\ refersToNoZero (serveAll (dialect := sqlite) reqs exampleDB).
Proof.
  intros now areq treq hreq reqs.
  pose proof (zero_required_field_is_rejected sqlite now None exampleDB)
    as (Ha & Hh & Hs).
  assert (Hz : refersToNoZero exampleDB).
  { split; vm_compute; repeat constructor; discriminate. }
  split; [apply Ha; left; reflexivity|].
  split; [apply Ha; right; right; reflexivity|].
  split; [apply Hh; reflexivity|].
  split; [exact Hz | exact (Hs reqs Hz)].
Defined.

(** The answer to a POST /appointments with patient_id 0: the validation
    message names the field. *)
Example createAppointment_patient_zero :
  fst (createAppointment (exampleClock 10) None
         (Decoded
            (mkCreateAppointmentRequest 0 1 (time.Date 2025 2 1 9 30 0 0)
               "" "" ""))
         exampleDB)
  = mkResponse 400
      (H_error
         ("Key: 'CreateAppointmentRequest.PatientID' Error:"
          ++ "Field validation for 'PatientID' failed on the 'required' tag")).
Proof. vm_compute. reflexivity. Qed.

(** ** Answers of the route table *)


(** X1: a request answered with a status of 400 or more leaves the database
    exactly as it was, and so does every GET. *)
Theorem error_answers_change_nothing :
  forall (dialect : Dialector) (env : Env) (req : Request) (db : DB),
    ((400 <= status (fst (serve env req db)))%N ->
     snd (serve env req db) = db)
    /\ (isRead req = true -> snd (serve env req db) = db).
Proof.
  intros dialect env req db. split.
  - destruct req; simpl; try reflexivity;
      unfold createPatient, updatePatient, deletePatient, createAppointment,
        updateAppointment, deleteAppointment, createMedicalHistory,
        deleteMedicalHistory;
      split_handler; intros H; try reflexivity;
      exfalso; unfold http.StatusOK, http.StatusCreated in H; lia.
  - destruct req; simpl; try reflexivity; discriminate.
Qed.

Lemma error_answers_change_nothing_witness :
  let env := mkEnv (exampleClock 10) None None in
  let req :=
    PUT_patients_id 1
      (Decoded
         (mkCreatePatientRequest "" (time.Date 1990 1 1 0 0 0 0) "male"
            "" "")) in
  (400 <= status (fst (serve (dialect := sqlite) env req exampleDB)))%N
  /\ snd (serve (dialect := sqlite) env req exampleDB) = exampleDB
  /\ isRead (GET_patients_id 1) = true
  /\ snd (serve (dialect := sqlite) env (GET_patients_id 1) exampleDB)
     = exampleDB.
Proof.
  intros env req.
  assert (H : (400 <= status (fst (serve (dialect := sqlite) env req
                                     exampleDB)))%N)
    by (vm_compute; discriminate).
  split; [exact H|].
  split;
    [exact (proj1 (error_answers_change_nothing sqlite env req exampleDB) H)|].
  split; [reflexivity|].
  exact (proj2 (error_answers_change_nothing sqlite env (GET_patients_id 1)
                  exampleDB) eq_refl).
Defined.

(** X2: every route answers with one of its own status codes only, and the
    body is an error object exactly when the status is 400 or more. *)
Theorem route_statuses_and_error_bodies :
  forall (dialect : Dialector) (env : Env) (req : Request) (db : DB),
    In (status (fst (serve env req db))) (routeStatuses req)
    /\ isErrorBody (body (fst (serve env req db)))
       = (400 <=? status (fst (serve env req db)))%N.
Proof.
  intros dialect env req db.
  destruct req; simpl;
    unfold getPatients, getPatient, createPatient, updatePatient,
      deletePatient, getPatientAppointments, getPatientMedicalHistory,
      getDoctors, getDoctor, getDoctorAppointments, getAppointments,
      getAppointment, createAppointment, updateAppointment,
      deleteAppointment, getAppointmentTests, getMedicalHistory,
      createMedicalHistory, deleteMedicalHistory;
    split_handler; split; simpl; auto 6.
Qed.

(** ** Soundness of the stored tables *)

#[export] Instance Patient_ColumnLaws : ColumnLaws Patient.
Proof. split; reflexivity. Qed.

#[export] Instance Doctor_ColumnLaws : ColumnLaws Doctor.
Proof. split; reflexivity. Qed.

#[export] Instance Appointment_ColumnLaws : ColumnLaws Appointment.
Proof. split; reflexivity. Qed.

#[export] Instance MedicalTest_ColumnLaws : ColumnLaws MedicalTest.
Proof. split; reflexivity. Qed.

#[export] Instance MedicalHistory_ColumnLaws : ColumnLaws MedicalHistory.
Proof. split; reflexivity. Qed.

Section SoundFacts.
Context {T : Type} {M : Model T} {K : KeyLaws T} {C : ColumnLaws T}.

Lemma keys_app (l1 l2 : list T) : keys (l1 ++ l2) = keys l1 ++ keys l2.
Proof. unfold keys. apply map_app. Qed.

Lemma maxKey_snoc (l : list T) (r : T) :
  maxKey (l ++ [r]) = N.max (maxKey l) (primaryKey r).
Proof.
  unfold maxKey. rewrite keys_app. simpl.
  induction (keys l) as [|k ks IH]; simpl; lia.
Qed.

Lemma key_below_maxKey (l : list T) (k : N) :
  In k (keys l) -> (k <= maxKey l)%N.
Proof.
  unfold keys. intros Hin. apply in_map_iff in Hin as (r & <- & Hr).
  now apply maxKey_ge.
Qed.

Lemma NoDup_snoc (l : list N) (k : N) :
  NoDup l -> ~ In k l -> NoDup (l ++ [k]).
Proof.
  intros Hl Hk. induction l as [|x l IH]; simpl.
  - constructor; [easy|constructor].
  - apply NoDup_cons_iff in Hl as [Hx Hl]. constructor.
    + rewrite in_app_iff. simpl. intros [H|[H|[]]]; [easy|].
      apply Hk. left. congruence.
    + apply IH; [exact Hl|]. intros H. apply Hk. now right.
Qed.

Lemma existsb_hasKey_false (l : list T) (k : N) :
  existsb (hasKey (Z.of_N k)) l = false -> ~ In k (keys l).
Proof.
  intros He Hin. unfold keys in Hin.
  apply in_map_iff in Hin as (r & Hk & Hr).
  assert (Ht : existsb (hasKey (Z.of_N k)) l = true).
  { apply existsb_exists. exists r. split; [exact Hr|].
    apply hasKey_true. now rewrite Hk. }
  congruence.
Qed.

Lemma sound_snoc (t : Table T) (r : T) (s : N) :
  sound t -> ~ In (primaryKey r) (keys (rows t)) ->
  (seq t <= s)%N -> (primaryKey r <= s)%N -> columns r = r ->
  sound (mkTable (rows t ++ [r]) s).
Proof.
  intros (Hn & Hm & Hc) Hfresh Hs Hr Hcol. unfold sound. simpl.
  split; [|split].
  - rewrite keys_app. simpl. now apply NoDup_snoc.
  - rewrite maxKey_snoc. lia.
  - apply Forall_app. split; [exact Hc|]. now constructor.
Qed.

Lemma insertRow_sound (now : Time) (v v' : T) (t t' : Table T) :
  sound t -> insertRow now v t = Ok (v', t') -> sound t'.
Proof.
  intros Ht. unfold insertRow.
  set (v1 := if time.isZeroValue (createdAt v) then setCreatedAt now v else v).
  destruct (constraint v1); [discriminate|].
  destruct (primaryKey v1 =? 0)%N.
  - intros [= _ <-]. apply sound_snoc; auto.
    + rewrite primaryKey_columns, primaryKey_setPrimaryKey. intros Hin.
      apply key_below_maxKey in Hin. unfold nextKey in Hin. lia.
    + unfold nextKey. lia.
    + rewrite primaryKey_columns, primaryKey_setPrimaryKey. lia.
    + apply columns_columns.
  - destruct (existsb _ _) eqn:He; [discriminate|].
    intros [= _ <-]. apply sound_snoc; auto.
    + rewrite primaryKey_columns. now apply existsb_hasKey_false.
    + lia.
    + rewrite primaryKey_columns. lia.
    + apply columns_columns.
Qed.

Lemma insertRows_sound (now : Time) (vs vs' : list T) (t t' : Table T) :
  sound t -> insertRows now vs t = Ok (vs', t') -> sound t'.
Proof.
  revert vs' t t'. induction vs as [|v vs IH]; intros vs' t t' Ht; simpl.
  - now intros [= _ <-].
  - destruct (insertRow now v t) as [[v1 t1]|e] eqn:E; [|discriminate].
    destruct (insertRows now vs t1) as [[vs1 t2]|e] eqn:E'; [|discriminate].
    intros [= _ <-]. eapply IH; [|exact E'].
    eapply insertRow_sound; eauto.
Qed.

Lemma Create_sound (now : Time) (fault : Fault) (v : T) (t : Table T) :
  sound t -> sound (snd (Create now fault v t)).
Proof.
  intros Ht. unfold Create. destruct fault; [exact Ht|].
  destruct (insertRow now v t) as [[v' t1]|e] eqn:E; [|exact Ht].
  simpl. eapply insertRow_sound; eauto.
Qed.

Lemma CreateAll_sound (now : Time) (fault : Fault) (vs : list T)
  (t : Table T) :
  sound t -> sound (snd (CreateAll now fault vs t)).
Proof.
  intros Ht. unfold CreateAll. destruct fault; [exact Ht|].
  destruct (insertRows now vs t) as [[vs' t']|e] eqn:E; [|exact Ht].
  simpl. eapply insertRows_sound; eauto.
Qed.

Lemma ExecDeleteAll_sound (fault : Fault) (t : Table T) :
  sound t -> sound (snd (ExecDeleteAll fault t)).
Proof.
  intros Ht. unfold ExecDeleteAll. destruct fault; [exact Ht|].
  unfold sound. simpl. repeat split; try constructor. unfold maxKey. simpl.
  lia.
Qed.

Lemma keys_replaceRow (v : T) (l : list T) :
  keys (replaceRow v l) = keys l.
Proof.
  unfold keys, replaceRow. rewrite map_map. apply map_ext. intros r.
  destruct (hasKey _ r) eqn:E; [|reflexivity].
  apply hasKey_true in E. rewrite primaryKey_columns. lia.
Qed.

Lemma keys_filter_NoDup (f : T -> bool) (l : list T) :
  NoDup (keys l) -> NoDup (keys (filter f l)).
Proof.
  unfold keys. induction l as [|x l IH]; simpl; intros Hn; [constructor|].
  apply NoDup_cons_iff in Hn as [Hx Hn]. destruct (f x); simpl; auto.
  constructor; auto. intros Hin. apply Hx.
  apply in_map_iff in Hin as (r & Hk & Hr). apply filter_In in Hr as [Hr _].
  apply in_map_iff. now exists r.
Qed.

Lemma maxKey_filter (f : T -> bool) (l : list T) :
  (maxKey (filter f l) <= maxKey l)%N.
Proof.
  unfold maxKey, keys. induction l as [|x l IH]; simpl; [lia|].
  destruct (f x); simpl; lia.
Qed.

Lemma mutation_sound (t t' : Table T) : mutation t t' -> sound t -> sound t'.
Proof.
  intros Hm Ht. destruct Hm as [ |now fault v|now fault v|fault id].
  - exact Ht.
  - now apply Create_sound.
  - unfold Save. destruct fault; [exact Ht|].
    destruct (primaryKey v =? 0)%N; [now apply Create_sound|].
    destruct (constraint v); [exact Ht|].
    destruct (existsb _ _); [|now apply Create_sound].
    destruct Ht as (Hn & Hb & Hc). unfold sound. simpl.
    unfold maxKey. rewrite keys_replaceRow. repeat split; auto.
    apply Forall_replaceRow; [exact Hc|apply columns_columns].
  - unfold Delete. destruct fault; [exact Ht|].
    destruct Ht as (Hn & Hb & Hc). unfold sound. simpl. repeat split.
    + now apply keys_filter_NoDup.
    + pose proof (maxKey_filter (fun r => negb (selected id r)) (rows t)).
      lia.
    + now apply Forall_filter.
Qed.

End SoundFacts.

Lemma emptyDB_sound : soundDB emptyDB.
Proof.
  repeat split; try constructor; unfold maxKey; simpl; lia.
Qed.

Lemma seedDatabase_sound (clock : nat -> Time) (fault : nat -> Fault)
  (db : DB) :
  soundDB db -> soundDB (seedDatabase clock fault db).
Proof.
  intros (Hp & Hd & Ha & Ht & Hh). unfold seedDatabase, soundDB. simpl.
  repeat apply conj;
    apply CreateAll_sound; apply ExecDeleteAll_sound; assumption.
Qed.

Lemma serve_sound {dialect : Dialector} (env : Env) (req : Request)
  (db : DB) :
  soundDB db -> soundDB (snd (serve env req db)).
Proof.
  intros (Hp & Hd & Ha & Ht & Hh).
  destruct (serve_mutates env req db) as (Mp & Ed & Ma & Et & Mh).
  unfold soundDB. rewrite Ed, Et.
  split; [exact (mutation_sound _ _ Mp Hp)|]. split; [exact Hd|].
  split; [exact (mutation_sound _ _ Ma Ha)|]. split; [exact Ht|].
  exact (mutation_sound _ _ Mh Hh).
Qed.

Lemma serveAll_sound {dialect : Dialector} (reqs : list (Env * Request))
  (db : DB) :
  soundDB db -> soundDB (serveAll reqs db).
Proof.
  revert db. induction reqs as [|[env req] reqs IH]; intros db H; simpl.
  - exact H.
  - apply IH. now apply serve_sound.
Qed.

(** ** Validation and the gender check *)

Lemma Time_zero_dec (t : Time) : t = time.zero \/ t <> time.zero.
Proof.
  destruct (requiredTime "" t) eqn:E.
  - right. now apply (requiredTime_nil "" t).
  - left. unfold requiredTime, time.isZeroValue in E.
    destruct t as [i [ | |offset]]; simpl in E;
      destruct (Z.eqb_spec i 0); try discriminate. now subst.
Qed.

Lemma patient_missing (req : CreatePatientRequest) :
  missing req <> []
  <-> CreatePatientRequest_FullName req = ""
      \/ CreatePatientRequest_BirthDate req = time.zero
      \/ CreatePatientRequest_Gender req = "".
Proof.
  rewrite patient_binds.
  destruct (string_dec (CreatePatientRequest_FullName req) "");
    destruct (Time_zero_dec (CreatePatientRequest_BirthDate req));
    destruct (string_dec (CreatePatientRequest_Gender req) ""); tauto.
Qed.

Lemma appointment_missing (req : CreateAppointmentRequest) :
  missing req <> []
  <-> CreateAppointmentRequest_PatientID req = 0%N
      \/ CreateAppointmentRequest_DoctorID req = 0%N
      \/ CreateAppointmentRequest_Date req = time.zero.
Proof.
  rewrite appointment_binds.
  destruct (N.eq_dec (CreateAppointmentRequest_PatientID req) 0);
    destruct (N.eq_dec (CreateAppointmentRequest_DoctorID req) 0);
    destruct (Time_zero_dec (CreateAppointmentRequest_Date req)); tauto.
Qed.

Lemma history_missing (req : CreateMedicalHistoryRequest) :
  missing req <> []
  <-> CreateMedicalHistoryRequest_PatientID req = 0%N
      \/ CreateMedicalHistoryRequest_HistoryType req = ""
      \/ CreateMedicalHistoryRequest_Description req = "".
Proof.
  rewrite history_binds.
  destruct (N.eq_dec (CreateMedicalHistoryRequest_PatientID req) 0);
    destruct (string_dec (CreateMedicalHistoryRequest_HistoryType req) "");
    destruct (string_dec (CreateMedicalHistoryRequest_Description req) "");
    tauto.
Qed.

Lemma appointment_overflows (req : CreateAppointmentRequest) :
  outOfRange req <> []
  <-> ~ fitsUint (CreateAppointmentRequest_PatientID req)
      \/ ~ fitsUint (CreateAppointmentRequest_DoctorID req).
Proof. rewrite appointment_fits. unfold fitsUint. lia. Qed.

Lemma history_overflows (req : CreateMedicalHistoryRequest) :
  outOfRange req <> []
  <-> ~ fitsUint (CreateMedicalHistoryRequest_PatientID req).
Proof. rewrite history_fits. tauto. Qed.

(** X4: a create handler answers 400 exactly when the body does not decode
    (which includes a number that does not fit its field) or one of its
    required fields holds the zero value of its type; the fields that are
    not required (phone, email, diagnosis, treatment, notes, start date,
    severity, status) play no part, and neither does the storage engine. *)
Theorem create_answers_400_iff_binding_fails :
  forall (now : Time) (fault : Fault) (db : DB),
    (forall body : Body CreatePatientRequest,
        status (fst (createPatient now fault body db))
        = http.StatusBadRequest
        <-> match body with
            | Malformed _ => True
            | Decoded req =>
                CreatePatientRequest_FullName req = ""
                \/ CreatePatientRequest_BirthDate req = time.zero
                \/ CreatePatientRequest_Gender req = ""
            end)
    /\ (forall body : Body CreateAppointmentRequest,
          status (fst (createAppointment now fault body db))
          = http.StatusBadRequest
          <-> match body with
              | Malformed _ => True
              | Decoded req =>
                  (~ fitsUint (CreateAppointmentRequest_PatientID req)
                   \/ ~ fitsUint (CreateAppointmentRequest_DoctorID req))
                  \/ CreateAppointmentRequest_PatientID req = 0%N
                  \/ CreateAppointmentRequest_DoctorID req = 0%N
                  \/ CreateAppointmentRequest_Date req = time.zero
              end)
    /\ (forall body : Body CreateMedicalHistoryRequest,
          status (fst (createMedicalHistory now fault body db))
          = http.StatusBadRequest
          <-> match body with
              | Malformed _ => True
              | Decoded req =>
                  ~ fitsUint (CreateMedicalHistoryRequest_PatientID req)
                  \/ CreateMedicalHistoryRequest_PatientID req = 0%N
                  \/ CreateMedicalHistoryRequest_HistoryType req = ""
                  \/ CreateMedicalHistoryRequest_Description req = ""
              end).
Proof.
  intros now fault db. split; [|split]; intros [msg|req];
    try (split; [easy|reflexivity]).
  - unfold createPatient, ShouldBindJSON.
    cbn [outOfRange CreatePatientRequest_Binding].
    destruct (missing req) eqn:Hm.
    + match goal with
      | |- context [Create ?n ?f ?v ?t] => destruct (Create n f v t) as [[?|?] ?]
      end; not_400; apply patient_missing in H; congruence.
    + split; [intros _|reflexivity]. apply patient_missing. congruence.
  - unfold createAppointment, ShouldBindJSON.
    destruct (outOfRange req) eqn:Ho.
    + destruct (missing req) eqn:Hm.
      * match goal with
        | |- context [Create ?n ?f ?v ?t] =>
            destruct (Create n f v t) as [[?|?] ?]
        end; not_400;
          (destruct H as [H|H];
           [apply appointment_overflows in H
           |apply appointment_missing in H]); congruence.
      * split; [intros _|reflexivity]. right. apply appointment_missing.
        congruence.
    + split; [intros _|reflexivity]. left. apply appointment_overflows.
      congruence.
  - unfold createMedicalHistory, ShouldBindJSON.
    destruct (outOfRange req) eqn:Ho.
    + destruct (missing req) eqn:Hm.
      * match goal with
        | |- context [Create ?n ?f ?v ?t] =>
            destruct (Create n f v t) as [[?|?] ?]
        end; not_400;
          (destruct H as [H|H];
           [apply history_overflows in H
           |apply history_missing in H]); congruence.
      * split; [intros _|reflexivity]. right. apply history_missing.
        congruence.
    + split; [intros _|reflexivity]. left. apply history_overflows.
      congruence.
Qed.

Lemma create_answers_400_iff_binding_fails_witness :
  let now := exampleClock 10 in
  let withoutName :=
    Decoded
      (mkCreatePatientRequest "" (time.Date 1990 1 1 0 0 0 0) "male"
         "+79990000009" "user@mail.ru") in
  let tooLarge :=
    Decoded (mkCreateAppointmentRequest (2 ^ 64) 1 now "" "" "") in
  let withoutOptional :=
    Decoded
      (mkCreateMedicalHistoryRequest 1 "allergy" "Latex" time.zero
         "" "" "") in
  status (fst (createPatient now None withoutName exampleDB))
  = http.StatusBadRequest
  /\ status (fst (createAppointment now None tooLarge exampleDB))
     = http.StatusBadRequest
  /\ status (fst (createMedicalHistory now None withoutOptional exampleDB))
     <> http.StatusBadRequest.
Proof.
  intros now withoutName tooLarge withoutOptional.
  destruct (create_answers_400_iff_binding_fails now None exampleDB)
    as (Hp & Ha & Hh).
  split; [|split].
  - apply (Hp withoutName). left. reflexivity.
  - apply (Ha tooLarge). left. left. unfold fitsUint. simpl. lia.
  - intros H. apply (Hh withoutOptional) in H.
    destruct H as [H|[H|[H|H]]]; try discriminate H.
    apply H. unfold fitsUint. simpl. lia.
Defined.

(** X5: a patient body that binds but whose gender is neither male nor
    female is refused by the check constraint of the patients table: POST
    /patients, and PUT /patients/:id for an existing row, answer 500 and
    the database stays as it was. *)
Theorem gender_outside_the_check_is_refused :
  forall (now : Time) (fault : Fault) (req : CreatePatientRequest) (db : DB),
    CreatePatientRequest_FullName req <> "" ->
    CreatePatientRequest_BirthDate req <> time.zero ->
    CreatePatientRequest_Gender req <> "" ->
    allowedGender (CreatePatientRequest_Gender req) = false ->
    (exists e : string,
        createPatient now fault (Decoded req) db
        = (mkResponse http.StatusInternalServerError (H_error e), db))
    /\ (forall (id : Z) (old : Patient),
           keyed (patients db) ->
           find (hasKey id) (rows (patients db)) = Some old ->
           exists e : string,
             updatePatient now None fault id (Decoded req) db
             = (mkResponse http.StatusInternalServerError (H_error e), db)).
Proof.
  intros now fault req db Hn Hb Hg Ha.
  assert (Hm : missing req = []) by (now apply patient_binds).
  split.
  - unfold createPatient, ShouldBindJSON.
    cbn [outOfRange CreatePatientRequest_Binding]. rewrite Hm.
    destruct fault as [e|]; [now exists e|].
    rewrite Create_unset by reflexivity.
    cbn [constraint setCreatedAt Patient_Model]. unfold Patient_check.
    cbn [Patient_Gender]. unfold allowedGender in Ha. rewrite Ha. eauto.
  - intros id old Hk Hf.
    assert (Hr : exists r, First None id (patients db) = Ok r
                           /\ Patient_ID r <> 0%N).
    { destruct (lookup id (rows (patients db))) as [r|] eqn:El.
      - exists r. split; [now apply First_found|].
        apply lookup_In in El.
        exact (proj1 (Forall_forall _ _) Hk r El).
      - exfalso. unfold lookup in El. destruct (inInt64 id); [congruence|].
        apply firstRow_none in El. apply find_some in Hf as [Hin _].
        rewrite El in Hin. contradiction. }
    destruct Hr as (r & Hr & Hnz).
    unfold updatePatient, ShouldBindJSON. rewrite Hr.
    cbn [outOfRange CreatePatientRequest_Binding]. rewrite Hm.
    unfold Save. destruct fault as [e|]; [now exists e|].
    cbn [primaryKey Patient_Model Patient_ID].
    destruct (N.eqb_spec (Patient_ID r) 0) as [E|_]; [contradiction|].
    cbn [constraint Patient_Model]. unfold Patient_check.
    cbn [Patient_Gender]. unfold allowedGender in Ha. rewrite Ha. eauto.
Qed.

Lemma gender_outside_the_check_is_refused_witness :
  let now := exampleClock 10 in
  let req :=
    mkCreatePatientRequest "Test User" (time.Date 1990 1 1 0 0 0 0) "other"
      "" "" in
  (exists e : string,
      createPatient now None (Decoded req) exampleDB
      = (mkResponse http.StatusInternalServerError (H_error e), exampleDB))
  /\ exists e : string,
       updatePatient now None None 1 (Decoded req) exampleDB
       = (mkResponse http.StatusInternalServerError (H_error e), exampleDB).
Proof.
  intros now req.
  assert (H : CreatePatientRequest_FullName req <> ""
              /\ CreatePatientRequest_BirthDate req <> time.zero
              /\ CreatePatientRequest_Gender req <> ""
              /\ allowedGender (CreatePatientRequest_Gender req) = false)
    by (repeat split; vm_compute; discriminate || reflexivity).
  destruct H as (Hn & Hb & Hg & Ha).
  destruct (gender_outside_the_check_is_refused now None req exampleDB
              Hn Hb Hg Ha) as (Hc & Hu).
  split; [exact Hc|].
  destruct (find (hasKey 1) (rows (patients exampleDB))) as [old|] eqn:E;
    [|vm_compute in E; discriminate E].
  apply (Hu 1%Z old); [|exact E].
  vm_compute. repeat constructor; discriminate.
Defined.

(** ** Deleting: what else it leaves *)

Lemma find_filter_other {T : Type} `{Model T} (id id' : Z) (l : list T) :
  id' <> id ->
  find (hasKey id') (filter (fun r => negb (hasKey id r)) l)
  = find (hasKey id') l.
Proof.
  intros Hne. induction l as [|x l IH]; simpl; [reflexivity|].
  destruct (hasKey id x) eqn:E; simpl.
  - apply hasKey_true in E.
    assert (E' : hasKey id' x = false) by (apply hasKey_false; congruence).
    now rewrite E'.
  - now rewrite IH.
Qed.

Lemma filter_delete_twice {T : Type} `{Model T} (id : Z) (l : list T) :
  filter (fun r => negb (selected id r))
    (filter (fun r => negb (selected id r)) l)
  = filter (fun r => negb (selected id r)) l.
Proof.
  apply forallb_filter_id. apply forallb_forall. intros r Hr.
  now apply filter_In in Hr.
Qed.

(** A delete by an identifier within 64 bits leaves the lookup of every
    other such identifier as it was. *)
Lemma First_after_Delete_other {T : Type} `{Model T} (fault : Fault)
  (id id' : Z) (t : Table T) :
  inInt64 id = true -> inInt64 id' = true -> id' <> id ->
  First fault id' (snd (Delete None id t)) = First fault id' t.
Proof.
  intros Hid Hid' Hne. unfold First, Delete. cbn [snd rows].
  rewrite !lookup_inInt64 by exact Hid'.
  rewrite (selected_inInt64 id _ Hid).
  now rewrite (find_filter_other id id') by exact Hne.
Qed.

(** X6: deleting does not cascade.  After DELETE /patients/:id, whether it
    succeeded or not, GET /patients/:id/appointments and GET
    /patients/:id/medical-history answer what they answered before; after
    DELETE /appointments/:id so does GET /appointments/:id/tests. *)
Theorem delete_does_not_cascade :
  forall (fault fault' : Fault) (id id' : Z) (db : DB),
    getPatientAppointments fault' id' (snd (deletePatient fault id db))
    = getPatientAppointments fault' id' db
    /\ getPatientMedicalHistory fault' id' (snd (deletePatient fault id db))
       = getPatientMedicalHistory fault' id' db
    /\ getAppointmentTests fault' id' (snd (deleteAppointment fault id db))
       = getAppointmentTests fault' id' db.
Proof.
  intros fault fault' id id' db.
  unfold deletePatient, deleteAppointment, Delete.
  destruct fault; simpl; repeat split.
Qed.

(** X7: an appointment whose patient has been deleted is still served: GET
    /appointments/:id answers 200 with the columns of the appointment as
    they were, patient_id included, and a zero patient object. *)
Theorem orphaned_appointment_is_served_without_patient :
  forall (db : DB) (id : Z) (a : Appointment),
    sound (appointments db) ->
    First None id (appointments db) = Ok a ->
    exists a' : Appointment,
      getAppointment None id
        (snd (deletePatient None (Z.of_N (Appointment_PatientID a)) db))
      = mkResponse http.StatusOK (JAppointment a')
      /\ Appointment_columns a' = a
      /\ Appointment_Patient a' = zeroPatient
      /\ getPatient None (Z.of_N (Appointment_PatientID a))
           (snd (deletePatient None (Z.of_N (Appointment_PatientID a)) db))
         = mkResponse http.StatusNotFound (H_error "Patient not found").
Proof.
  intros db id a (_ & _ & Hc) Hf.
  destruct (First_Ok id (appointments db) a Hf) as [Hl Hs].
  assert (Hin : In a (rows (appointments db)))
    by (now apply lookup_In in Hl).
  assert (Ha : Appointment_columns a = a)
    by (exact (proj1 (Forall_forall _ _) Hc a Hin)).
  assert (Hpid : inInt64 (Z.of_N (Appointment_PatientID a)) = true).
  { apply inInt64_small. simpl in Hs. now apply andb_true_iff in Hs. }
  set (pid := Z.of_N (Appointment_PatientID a)) in *.
  set (db' := snd (deletePatient None pid db)).
  assert (Hf' : First None id (appointments db') = Ok a) by exact Hf.
  exists (loadedAppointment db' a).
  split; [now apply getAppointment_found|].
  assert (Hp : preloadPatient db' a = a).
  { unfold preloadPatient. subst db'. unfold deletePatient, Delete.
    cbn [snd patients with_patients rows]. fold pid.
    rewrite <- (lookup_inInt64 pid _ Hpid).
    now rewrite lookup_after_delete. }
  split; [|split].
  - exact Ha.
  - unfold loadedAppointment. cbn [Appointment_Patient]. rewrite Hp.
    now rewrite <- Ha.
  - destruct (First_after_Delete None pid (patients db)) as [e He].
    unfold getPatient.
    change (patients db') with (snd (Delete None pid (patients db))).
    now rewrite He.
Qed.

Lemma orphaned_appointment_is_served_without_patient_witness :
  exists a a' : Appointment,
    First None 1 (appointments exampleDB) = Ok a
    /\ Appointment_PatientID a = 1%N
    /\ getAppointment None 1 (snd (deletePatient None 1 exampleDB))
       = mkResponse http.StatusOK (JAppointment a')
    /\ Appointment_columns a' = a
    /\ Appointment_Patient a' = zeroPatient.
Proof.
  destruct (First None 1 (appointments exampleDB)) as [a|e] eqn:E;
    [|vm_compute in E; discriminate E].
  assert (Hs : sound (appointments exampleDB))
    by (destruct (seedDatabase_sound exampleClock noFault emptyDB
                    emptyDB_sound) as (_ & _ & H & _); exact H).
  assert (Hp : Appointment_PatientID a = 1%N)
    by (vm_compute in E; now injection E as <-).
  destruct (orphaned_appointment_is_served_without_patient exampleDB 1 a
              Hs E) as (a' & Hget & Hcol & Hzero & _).
  rewrite Hp in Hget. exists a, a'. repeat split; assumption.
Defined.

(** X8: a delete by an identifier within 64 bits reaches the row with
    that identifier only.  After DELETE /patients/:id every patient with
    another such identifier is read back as before, after DELETE
    /appointments/:id every such appointment, and after DELETE
    /medical_history/:id the history table holds the rows it held, in their
    order, but for the one with the identifier.  A second delete of the same
    identifier, whatever it is, changes nothing any more. *)
Theorem delete_leaves_other_records :
  forall (fault : Fault) (id id' : Z) (db : DB),
    (within64 id -> within64 id' -> id' <> id ->
     getPatient fault id' (snd (deletePatient None id db))
     = getPatient fault id' db
     /\ getAppointment fault id' (snd (deleteAppointment None id db))
        = getAppointment fault id' db)
    /\ (within64 id ->
        rows (medical_histories (snd (deleteMedicalHistory None id db)))
        = filter (fun h => negb (Z.of_N (MedicalHistory_ID h) =? id)%Z)
            (rows (medical_histories db)))
    /\ snd (deletePatient None id (snd (deletePatient None id db)))
       = snd (deletePatient None id db)
    /\ snd (deleteAppointment None id (snd (deleteAppointment None id db)))
       = snd (deleteAppointment None id db)
    /\ snd (deleteMedicalHistory None id
              (snd (deleteMedicalHistory None id db)))
       = snd (deleteMedicalHistory None id db).
Proof.
  intros fault id id' db. split; [|split].
  - intros Hid Hid' Hne. apply inInt64_spec in Hid, Hid'.
    pose proof (First_after_Delete_other fault id id' (patients db)
                  Hid Hid' Hne) as Hp.
    pose proof (First_after_Delete_other fault id id' (appointments db)
                  Hid Hid' Hne) as Ha.
    unfold getPatient, getAppointment.
    change (patients (snd (deletePatient None id db)))
      with (snd (Delete None id (patients db))).
    change (appointments (snd (deleteAppointment None id db)))
      with (snd (Delete None id (appointments db))).
    rewrite Hp, Ha. split; reflexivity.
  - intros Hid. apply inInt64_spec in Hid.
    unfold deleteMedicalHistory, Delete.
    cbn [snd medical_histories with_medical_histories rows].
    now rewrite (selected_inInt64 id _ Hid).
  - unfold deletePatient, deleteAppointment, deleteMedicalHistory, Delete.
    cbn [snd patients appointments medical_histories with_patients
           with_appointments with_medical_histories rows seq].
    rewrite !filter_delete_twice. repeat split.
Qed.

Lemma delete_leaves_other_records_witness :
  getPatient None 2 (snd (deletePatient None 1 exampleDB))
  = getPatient None 2 exampleDB
  /\ getAppointment None 2 (snd (deleteAppointment None 1 exampleDB))
     = getAppointment None 2 exampleDB
  /\ map MedicalHistory_ID
       (rows (medical_histories (snd (deleteMedicalHistory None 3 exampleDB))))
     = [1; 2; 4; 5; 6; 7; 8; 9; 10; 11]%N.
Proof.
  assert (H : (2 <> 1)%Z) by discriminate.
  assert (W1 : within64 1) by (unfold within64; lia).
  assert (W2 : within64 2) by (unfold within64; lia).
  assert (W3 : within64 3) by (unfold within64; lia).
  destruct (delete_leaves_other_records None 1 2 exampleDB)
    as (Hg & _).
  destruct (Hg W1 W2 H) as (Hp & Ha).
  destruct (delete_leaves_other_records None 3 2 exampleDB)
    as (_ & Hh & _).
  split; [exact Hp|]. split; [exact Ha|].
  rewrite (Hh W3). vm_compute. reflexivity.
Defined.
(** ** Details, sub-resources and filtered lists *)

Lemma satisfies_one {T : Type} (cond : T -> bool) (r : T) :
  satisfies (Where [] cond) r = cond r.
Proof. unfold satisfies, Where. simpl. apply andb_true_r. Qed.

(** The row that a get by an identifier within 64 bits reads bears that
    identifier. *)
Lemma First_key {T : Type} `{Model T} (id : Z) (t : Table T) (r : T) :
  inInt64 id = true -> First None id t = Ok r -> Z.of_N (primaryKey r) = id.
Proof.
  intros Hid Hf. apply First_Ok in Hf as [Hl _].
  rewrite lookup_inInt64 in Hl by exact Hid.
  apply find_some in Hl as [_ Hk]. now apply hasKey_true in Hk.
Qed.

Lemma getPatient_200 (fault : Fault) (id : Z) (db : DB) (p : Patient) :
  getPatient fault id db = mkResponse http.StatusOK (JPatient p) ->
  exists r : Patient,
    First None id (patients db) = Ok r
    /\ forallb scans (appointmentsOfPatient db r) = true
    /\ p = loadedPatient db r.
Proof.
  intros H. destruct fault as [e|]; [discriminate H|].
  destruct (First None id (patients db)) as [r|e] eqn:HF.
  - exists r. split; [reflexivity|].
    destruct (forallb scans (appointmentsOfPatient db r)) eqn:Hs.
    + rewrite (getPatient_found id db r HF Hs) in H.
      injection H as <-. now split.
    + rewrite (getPatient_unreadable id db r HF Hs) in H. discriminate H.
  - unfold getPatient in H. rewrite HF in H. discriminate H.
Qed.

Lemma getAppointment_200 (fault : Fault) (id : Z) (db : DB)
  (a : Appointment) :
  getAppointment fault id db = mkResponse http.StatusOK (JAppointment a) ->
  exists r : Appointment,
    First None id (appointments db) = Ok r /\ a = loadedAppointment db r.
Proof.
  intros H. destruct fault as [e|]; [discriminate H|].
  destruct (First None id (appointments db)) as [r|e] eqn:HF.
  - exists r. split; [reflexivity|].
    rewrite (getAppointment_found id db r HF) in H. now injection H as <-.
  - unfold getAppointment in H. rewrite HF in H. discriminate H.
Qed.

(** X9: what a detail embeds is what the sub-resource route lists, for an
    identifier within 64 bits.  When GET /patients/:id answers 200, the
    appointments and the history of the returned patient are the lists of
    GET /patients/:id/appointments and GET /patients/:id/medical-history;
    when GET /appointments/:id answers 200, the medical tests of the
    returned appointment are the list of GET /appointments/:id/tests. *)
Theorem detail_embeds_the_sub_resource_lists :
  forall (fault : Fault) (id : Z) (db : DB),
    within64 id ->
    (forall p : Patient,
        getPatient fault id db = mkResponse http.StatusOK (JPatient p) ->
        getPatientAppointments None id db
        = mkResponse http.StatusOK (JAppointments (Patient_Appointments p))
        /\ getPatientMedicalHistory None id db
           = mkResponse http.StatusOK
               (JMedicalHistories (Patient_MedicalHistory p)))
    /\ (forall a : Appointment,
          getAppointment fault id db
          = mkResponse http.StatusOK (JAppointment a) ->
          getAppointmentTests None id db
          = mkResponse http.StatusOK
              (JMedicalTests (Appointment_MedicalTests a))).
Proof.
  intros fault id db Hid. apply inInt64_spec in Hid. split.
  - intros p H. apply getPatient_200 in H as (r & HF & Hs & ->).
    pose proof (First_key id _ r Hid HF) as Hk. simpl in Hk.
    unfold getPatientAppointments, getPatientMedicalHistory, Find.
    rewrite !(filter_ext _ _ (satisfies_one _)).
    rewrite <- Hk.
    change (filter _ (rows (appointments db)))
      with (appointmentsOfPatient db r).
    change (filter _ (rows (medical_histories db))) with (historyOf db r).
    rewrite (scanned_readable _ Hs).
    rewrite (scanned_readable _ (historyOf_scans db r)).
    split; reflexivity.
  - intros a H. apply getAppointment_200 in H as (r & HF & ->).
    pose proof (First_key id _ r Hid HF) as Hk. simpl in Hk.
    unfold getAppointmentTests, Find.
    rewrite !(filter_ext _ _ (satisfies_one _)).
    rewrite <- Hk.
    change (filter _ (rows (medical_tests db))) with (testsOf db r).
    rewrite (scanned_readable _ (testsOf_scans db r)).
    reflexivity.
Qed.

Lemma detail_embeds_the_sub_resource_lists_witness :
  exists (p : Patient) (a : Appointment),
    getPatient None 1 exampleDB = mkResponse http.StatusOK (JPatient p)
    /\ getAppointment None 1 exampleDB
       = mkResponse http.StatusOK (JAppointment a)
    /\ getPatientAppointments None 1 exampleDB
       = mkResponse http.StatusOK (JAppointments (Patient_Appointments p))
    /\ getPatientMedicalHistory None 1 exampleDB
       = mkResponse http.StatusOK
           (JMedicalHistories (Patient_MedicalHistory p))
    /\ getAppointmentTests None 1 exampleDB
       = mkResponse http.StatusOK
           (JMedicalTests (Appointment_MedicalTests a))
    /\ List.length (Patient_MedicalHistory p) = 3%nat
    /\ List.length (Appointment_MedicalTests a) = 2%nat.
Proof.
  assert (W1 : within64 1) by (unfold within64; lia).
  destruct (detail_embeds_the_sub_resource_lists None 1 exampleDB W1)
    as (Hp & Ha).
  eexists. eexists.
  split; [vm_compute; reflexivity|]. split; [vm_compute; reflexivity|].
  split; [|split; [|split; [|split]]].
  - eapply Hp. vm_compute. reflexivity.
  - eapply Hp. vm_compute. reflexivity.
  - eapply Ha. vm_compute. reflexivity.
  - vm_compute. reflexivity.
  - vm_compute. reflexivity.
Defined.

(** Outside 64 bits the detail and the sub-resource differ: the detail is
    that of the first patient, with its appointment, and the sub-resource
    lists nothing. *)
Example detail_outside_int64 :
  (exists p : Patient,
      getPatient None (2 ^ 63) exampleDB
      = mkResponse http.StatusOK (JPatient p)
      /\ Patient_ID p = 1%N
      /\ List.length (Patient_Appointments p) = 1)
  /\ getPatientAppointments None (2 ^ 63) exampleDB
     = mkResponse http.StatusOK (JAppointments []).
Proof.
  split; [eexists; split; [vm_compute; reflexivity|]|];
    vm_compute; repeat split.
Qed.

Lemma Appointment_columns_preloads (db : DB) (l : list Appointment) :
  map Appointment_columns
    (map (fun a => preloadDoctor db (preloadPatient db a)) l)
  = map Appointment_columns l.
Proof.
  rewrite map_map. apply map_ext. intros a.
  now rewrite Appointment_columns_preloadDoctor,
    Appointment_columns_preloadPatient.
Qed.

(** X10: the sub-resource routes and the filtered lists select the same
    rows.  For a query value that the storage engine reads as the integer
    n, GET /appointments?patient_id= lists the rows, in the same order,
    that GET /patients/n/appointments lists, GET /appointments?doctor_id=
    those of GET /doctors/n/appointments, and GET
    /medical_history?patient_id= those of GET /patients/n/medical-history;
    the lists differ only in the associations that each route preloads. *)
Theorem filtered_list_selects_the_sub_resource_rows :
  forall (dialect : Dialector) (text : string) (n : Z) (db : DB),
    text <> "" ->
    numericValue text = Some n ->
    map Appointment_columns
      (appointmentsOf (getAppointments None text "" db))
    = map Appointment_columns
        (appointmentsOf (getPatientAppointments None n db))
    /\ map Appointment_columns
         (appointmentsOf (getAppointments None "" text db))
       = map Appointment_columns
           (appointmentsOf (getDoctorAppointments None n db))
    /\ map MedicalHistory_columns
         (historiesOf (getMedicalHistory None text "" db))
       = map MedicalHistory_columns
           (historiesOf (getPatientMedicalHistory None n db)).
Proof.
  intros dialect text n db Hne Hnum.
  apply String.eqb_neq in Hne.
  assert (He : forall col, eqText col text = eqParam col n)
    by (intros col; unfold eqText, eqParam; now rewrite Hnum).
  unfold getAppointments, getMedicalHistory, getPatientAppointments,
    getDoctorAppointments, getPatientMedicalHistory, Find, appointmentsOf,
    historiesOf.
  rewrite Hne. cbn [negb String.eqb].
  rewrite !(filter_ext _ _ (satisfies_one _)).
  rewrite (filter_ext (fun a => eqText (Appointment_PatientID a) text)
             (fun a => eqParam (Appointment_PatientID a) n))
    by (intros a; apply He).
  rewrite (filter_ext (fun a => eqText (Appointment_DoctorID a) text)
             (fun a => eqParam (Appointment_DoctorID a) n))
    by (intros a; apply He).
  rewrite (filter_ext (fun h => eqText (MedicalHistory_PatientID h) text)
             (fun h => eqParam (MedicalHistory_PatientID h) n))
    by (intros h; apply He).
  split; [|split].
  - destruct (scanned _) as [l|e]; cbn [body]; [|reflexivity].
    rewrite Appointment_columns_preloads, map_map.
    apply map_ext. intros a.
    now rewrite Appointment_columns_preloadDoctor.
  - destruct (scanned _) as [l|e]; cbn [body]; [|reflexivity].
    rewrite Appointment_columns_preloads, map_map.
    apply map_ext. intros a.
    now rewrite Appointment_columns_preloadPatient.
  - destruct (scanned _) as [l|e]; cbn [body]; [|reflexivity].
    rewrite map_map. apply map_ext. intros h.
    apply MedicalHistory_columns_preload.
Qed.

Lemma filtered_list_selects_the_sub_resource_rows_witness :
  ("1" <> "" /\ numericValue (Dialector := sqlite) "1" = Some 1%Z)
  /\ map Appointment_columns
       (appointmentsOf (getAppointments (dialect := sqlite) None "1" ""
                          exampleDB))
     = map Appointment_columns
         (appointmentsOf (getPatientAppointments None 1 exampleDB))
  /\ map MedicalHistory_columns
       (historiesOf (getMedicalHistory (dialect := sqlite) None "1" ""
                       exampleDB))
     = map MedicalHistory_columns
         (historiesOf (getPatientMedicalHistory None 1 exampleDB)).
Proof.
  assert (Hne : "1" <> "") by discriminate.
  assert (Hnum : numericValue (Dialector := sqlite) "1" = Some 1%Z)
    by reflexivity.
  destruct (filtered_list_selects_the_sub_resource_rows sqlite "1" 1
              exampleDB Hne Hnum) as (Ha & _ & Hh).
  split; [split; assumption|]. split; assumption.
Defined.
(** ** Replacing: what else it leaves *)

Lemma find_replaceRow_other {T : Type} `{Model T} {K : KeyLaws T}
  (id' : Z) (v : T) (l : list T) :
  Z.of_N (primaryKey v) <> id' ->
  find (hasKey id') (replaceRow v l) = find (hasKey id') l.
Proof.
  intros Hne. unfold replaceRow.
  induction l as [|x l IH]; simpl; [reflexivity|].
  destruct (hasKey (Z.of_N (primaryKey v)) x) eqn:E.
  - apply hasKey_true in E.
    assert (E1 : hasKey id' (columns v) = false)
      by (apply hasKey_false; now rewrite primaryKey_columns).
    assert (E2 : hasKey id' x = false)
      by (apply hasKey_false; congruence).
    now rewrite E1, E2.
  - now rewrite IH.
Qed.

Lemma find_key_of_In {T : Type} `{Model T} (l : list T) (r : T) :
  In r l -> exists r', find (hasKey (Z.of_N (primaryKey r))) l = Some r'.
Proof.
  intros Hin.
  destruct (find (hasKey (Z.of_N (primaryKey r))) l) as [r'|] eqn:E;
    [now exists r'|].
  exfalso. pose proof (find_none _ _ E r Hin) as Hk.
  apply hasKey_false in Hk. contradiction.
Qed.

Lemma Save_in_place {T : Type} `{Model T} {K : KeyLaws T} (now : Time)
  (fault : Fault) (v old : T) (t : Table T) :
  primaryKey v <> 0%N ->
  find (hasKey (Z.of_N (primaryKey v))) (rows t) = Some old ->
  snd (Save now fault v t) = t
  \/ snd (Save now fault v t) = mkTable (replaceRow v (rows t)) (seq t).
Proof.
  intros Hk Hf. unfold Save. destruct fault; [now left|].
  destruct (N.eqb_spec (primaryKey v) 0) as [E|_]; [contradiction|].
  destruct (constraint v); [now left|].
  rewrite (find_existsb _ _ _ Hf). now right.
Qed.

(** Saving a struct that bears the key of a row which a lookup returned. *)
Lemma Save_of_looked_up {T : Type} `{Model T} {K : KeyLaws T} (now : Time)
  (fault : Fault) (id : Z) (v old : T) (t : Table T) :
  keyed t ->
  First None id t = Ok old ->
  primaryKey v = primaryKey old ->
  keys (rows (snd (Save now fault v t))) = keys (rows t)
  /\ seq (snd (Save now fault v t)) = seq t
  /\ (within64 id ->
      forall id' : Z,
        within64 id' -> id' <> id ->
        First None id' (snd (Save now fault v t)) = First None id' t).
Proof.
  intros Hkeyed Hf Hv.
  pose proof (First_Ok id t old Hf) as [Hl _].
  pose proof (lookup_In _ _ _ Hl) as Hin.
  assert (Hn : primaryKey v <> 0%N)
    by (rewrite Hv; exact (proj1 (Forall_forall _ _) Hkeyed old Hin)).
  destruct (find_key_of_In _ _ Hin) as [old' Hf'].
  rewrite <- Hv in Hf'.
  destruct (Save_in_place now fault v old' t Hn Hf') as [-> | ->];
    [now repeat split|].
  cbn [rows seq]. split; [apply keys_replaceRow|]. split; [reflexivity|].
  intros Hid id' Hid' Hne. apply inInt64_spec in Hid, Hid'.
  unfold First. cbn [rows].
  rewrite !lookup_inInt64 by exact Hid'.
  rewrite find_replaceRow_other; [reflexivity|].
  rewrite Hv, (First_key id t old Hid Hf). congruence.
Qed.

(** X11: a PUT never adds or removes a row, and with an identifier within
    64 bits it reaches no other row.  Whatever the body and whatever the
    storage engine does, after PUT /patients/:id and PUT /appointments/:id
    the table holds the same identifiers in the same order with the same
    key counter; when the identifier is within 64 bits, a row with another
    such identifier is read as it was. *)
Theorem replace_keeps_every_row_in_place :
  forall (now : Time) (fault1 fault2 : Fault) (id : Z) (db : DB),
    keyed (patients db) ->
    keyed (appointments db) ->
    (forall body : Body CreatePatientRequest,
        let db' := snd (updatePatient now fault1 fault2 id body db) in
        keys (rows (patients db')) = keys (rows (patients db))
        /\ seq (patients db') = seq (patients db)
        /\ (within64 id ->
            forall id' : Z,
              within64 id' -> id' <> id ->
              First None id' (patients db')
              = First None id' (patients db)))
    /\ (forall body : Body CreateAppointmentRequest,
          let db' := snd (updateAppointment now fault1 fault2 id body db) in
          keys (rows (appointments db')) = keys (rows (appointments db))
          /\ seq (appointments db') = seq (appointments db)
          /\ (within64 id ->
              forall id' : Z,
                within64 id' -> id' <> id ->
                First None id' (appointments db')
                = First None id' (appointments db))).
Proof.
  intros now fault1 fault2 id db Kp Ka. split.
  - intros body db'. subst db'. unfold updatePatient.
    destruct (First fault1 id (patients db)) as [old|e] eqn:Ef;
      [|now repeat split].
    destruct fault1; [discriminate Ef|].
    destruct (ShouldBindJSON body) as [req|e]; [|now repeat split].
    match goal with
    | |- context [Save now fault2 ?v ?t] =>
        pose proof (Save_of_looked_up now fault2 id v old t Kp Ef eq_refl)
          as HS;
        destruct (Save now fault2 v t) as [[p|e] t']
    end; cbn [snd patients with_patients] in *; [exact HS|].
    now repeat split.
  - intros body db'. subst db'. unfold updateAppointment.
    destruct (First fault1 id (appointments db)) as [old|e] eqn:Ef;
      [|now repeat split].
    destruct fault1; [discriminate Ef|].
    destruct (ShouldBindJSON body) as [req|e]; [|now repeat split].
    match goal with
    | |- context [Save now fault2 ?v ?t] =>
        pose proof (Save_of_looked_up now fault2 id v old t Ka Ef eq_refl)
          as HS;
        destruct (Save now fault2 v t) as [[p|e] t']
    end; cbn [snd appointments with_appointments] in *; [exact HS|].
    now repeat split.
Qed.

Lemma replace_keeps_every_row_in_place_witness :
  let body :=
    Decoded
      (mkCreatePatientRequest "Ivanova Anna" (time.Date 1991 2 3 0 0 0 0)
         "female" "" "") in
  let db' := snd (updatePatient (exampleClock 10) None None 1 body exampleDB) in
  keys (rows (patients db')) = keys (rows (patients exampleDB))
  /\ seq (patients db') = seq (patients exampleDB)
  /\ First None 2 (patients db') = First None 2 (patients exampleDB).
Proof.
  intros body db'.
  assert (Kp : keyed (patients exampleDB))
    by (vm_compute; repeat constructor; discriminate).
  assert (Ka : keyed (appointments exampleDB))
    by (vm_compute; repeat constructor; discriminate).
  destruct (replace_keeps_every_row_in_place (exampleClock 10) None None 1
              exampleDB Kp Ka) as (Hp & _).
  destruct (Hp body) as (Hkeys & Hseq & Hother).
  split; [exact Hkeys|]. split; [exact Hseq|].
  apply Hother; [unfold within64; lia|unfold within64; lia|discriminate].
Defined.
(** ** Lists after a creation *)

Lemma patients_scan (l : list Patient) : forallb scans l = true.
Proof. now apply forallb_forall. Qed.

Lemma forallb_snoc {A : Type} (f : A -> bool) (l : list A) (x : A) :
  forallb f (l ++ [x]) = (forallb f l && f x)%bool.
Proof. rewrite forallb_app. simpl. now rewrite andb_true_r. Qed.

(** X12: a creation shows in the list route as one more element at the end
    and changes nothing else.  When POST /patients answers 201, GET
    /patients lists what it listed before followed by the returned record.
    When POST /appointments or POST /medical_history answers 201 on a table
    whose rows can be read back, the other four tables are as they were
    and, when the references of the new record are below 2^63, the
    unfiltered GET /appointments or GET /medical_history lists what it
    listed before followed by an element with the columns of the returned
    record; with a reference from 2^63 on, the list route then answers
    500. *)
Theorem list_grows_by_the_created_record :
  forall (dialect : Dialector) (now : Time) (fault : Fault) (db : DB),
    (forall body : Body CreatePatientRequest,
        let created := createPatient now fault body db in
        status (fst created) = http.StatusCreated ->
        exists (l : list Patient) (p : Patient),
          getPatients None db = mkResponse http.StatusOK (JPatients l)
          /\ fst created = mkResponse http.StatusCreated (JPatient p)
          /\ getPatients None (snd created)
             = mkResponse http.StatusOK (JPatients (l ++ [p]))
          /\ snd created = with_patients (patients (snd created)) db)
    /\ (forall body : Body CreateAppointmentRequest,
          let created := createAppointment now fault body db in
          status (fst created) = http.StatusCreated ->
          Forall readsBack (rows (appointments db)) ->
          exists (l : list Appointment) (a : Appointment),
            getAppointments None "" "" db
            = mkResponse http.StatusOK (JAppointments l)
            /\ fst created = mkResponse http.StatusCreated (JAppointment a)
            /\ snd created
               = with_appointments (appointments (snd created)) db
            /\ (readsBack a ->
                exists a' : Appointment,
                  getAppointments None "" "" (snd created)
                  = mkResponse http.StatusOK (JAppointments (l ++ [a']))
                  /\ Appointment_columns a' = a)
            /\ (~ readsBack a ->
                status (getAppointments None "" "" (snd created))
                = http.StatusInternalServerError))
    /\ (forall body : Body CreateMedicalHistoryRequest,
          let created := createMedicalHistory now fault body db in
          status (fst created) = http.StatusCreated ->
          Forall (fun h => below63 (MedicalHistory_PatientID h))
            (rows (medical_histories db)) ->
          exists (l : list MedicalHistory) (h : MedicalHistory),
            getMedicalHistory None "" "" db
            = mkResponse http.StatusOK (JMedicalHistories l)
            /\ fst created
               = mkResponse http.StatusCreated (JMedicalHistory h)
            /\ snd created
               = with_medical_histories (medical_histories (snd created)) db
            /\ (below63 (MedicalHistory_PatientID h) ->
                exists h' : MedicalHistory,
                  getMedicalHistory None "" "" (snd created)
                  = mkResponse http.StatusOK (JMedicalHistories (l ++ [h']))
                  /\ MedicalHistory_columns h' = h)
            /\ (~ below63 (MedicalHistory_PatientID h) ->
                status (getMedicalHistory None "" "" (snd created))
                = http.StatusInternalServerError)).
Proof.
  intros dialect now fault db. split; [|split].
  - intros body created H. subst created.
    destruct (createPatient_201 now fault body db H) as (req & _ & ->).
    cbn [fst snd]. do 2 eexists. unfold getPatients. rewrite !Find_all.
    unfold scanned. rewrite !patients_scan. repeat split.
  - intros body created H Hs. subst created.
    apply (forallb_Forall_iff scans readsBack _ scans_appointment) in Hs.
    destruct (createAppointment_201 now fault body db H) as (req & _ & ->).
    cbn [fst snd]. rewrite !getAppointments_all.
    cbn [appointments with_appointments rows].
    unfold scanned. rewrite forallb_snoc, Hs. cbn [andb].
    do 2 eexists. split; [reflexivity|]. split; [reflexivity|].
    split; [reflexivity|]. split; intros Hr.
    + apply scans_appointment in Hr. rewrite Hr.
      rewrite map_app. eexists. split; [reflexivity|].
      now rewrite Appointment_columns_preloadDoctor,
        Appointment_columns_preloadPatient.
    + destruct (scans _) eqn:E; [|reflexivity].
      exfalso. apply Hr. now apply scans_appointment.
  - intros body created H Hs. subst created.
    apply (forallb_Forall_iff scans _ _ scans_history) in Hs.
    destruct (createMedicalHistory_201 now fault body db H)
      as (req & _ & ->).
    cbn [fst snd]. rewrite !getMedicalHistory_unfiltered.
    cbn [medical_histories with_medical_histories rows].
    unfold scanned. rewrite forallb_snoc, Hs. cbn [andb].
    do 2 eexists. split; [reflexivity|]. split; [reflexivity|].
    split; [reflexivity|]. split; intros Hr.
    + apply scans_history in Hr. rewrite Hr.
      rewrite map_app. eexists. split; [reflexivity|].
      now rewrite MedicalHistory_columns_preload.
    + destruct (scans _) eqn:E; [|reflexivity].
      exfalso. apply Hr. now apply scans_history.
Qed.

Lemma list_grows_by_the_created_record_witness :
  let created :=
    createAppointment (exampleClock 10) None
      (Decoded
         (mkCreateAppointmentRequest 2 3 (time.Date 2025 2 1 9 30 0 0)
            "" "" ""))
      exampleDB in
  status (fst created) = http.StatusCreated
  /\ Forall readsBack (rows (appointments exampleDB))
  /\ exists (l : list Appointment) (a a' : Appointment),
       getAppointments (dialect := sqlite) None "" "" exampleDB
       = mkResponse http.StatusOK (JAppointments l)
       /\ fst created = mkResponse http.StatusCreated (JAppointment a)
       /\ getAppointments (dialect := sqlite) None "" "" (snd created)
          = mkResponse http.StatusOK (JAppointments (l ++ [a']))
       /\ Appointment_columns a' = a.
Proof.
  intros created.
  assert (H : status (fst created) = http.StatusCreated)
    by (vm_compute; reflexivity).
  assert (Hs : Forall readsBack (rows (appointments exampleDB))).
  { apply (forallb_Forall_iff scans readsBack _ scans_appointment).
    vm_compute. reflexivity. }
  split; [exact H|]. split; [exact Hs|].
  destruct (proj1 (proj2 (list_grows_by_the_created_record sqlite
                            (exampleClock 10) None exampleDB)) _ H Hs)
    as (l & a & El & Ea & _ & Hr & _).
  destruct Hr as (a' & Eg & Ec).
  - apply (f_equal body) in Ea. vm_compute in Ea. injection Ea as <-.
    split; reflexivity.
  - exists l, a, a'. repeat split; assumption.
Defined.
(** ** The keys of the seeded rows *)

Lemma insertRows_stamped {T : Type} `{Model T} {K : KeyLaws T}
  (now : Time) (vs : list T) (t : Table T) :
  (maxKey (rows t) <= seq t)%N ->
  Forall (fun v => createdAt v = time.zero
                   /\ primaryKey (setCreatedAt now v) = 0%N
                   /\ constraint (setCreatedAt now v) = None) vs ->
  insertRows now vs t
  = Ok (stamped now (seq t) vs,
        mkTable (rows t ++ map columns (stamped now (seq t) vs))
          (seq t + N.of_nat (List.length vs))).
Proof.
  revert t. induction vs as [|v vs IH]; intros t Hb Hv.
  - simpl. rewrite app_nil_r, N.add_0_r. now destruct t.
  - apply Forall_cons_iff in Hv as [(Hz & Hk & Hc) Hv].
    cbn [insertRows]. unfold insertRow. rewrite Hz.
    change (time.isZeroValue time.zero) with true. cbn iota.
    rewrite Hc, Hk. cbn [N.eqb].
    assert (Hn : nextKey t = N.succ (seq t)) by (unfold nextKey; lia).
    rewrite Hn.
    set (v2 := setPrimaryKey (N.succ (seq t)) (setCreatedAt now v)).
    rewrite (IH (mkTable (rows t ++ [columns v2]) (N.succ (seq t)))).
    + cbn [rows seq stamped map List.length]. fold v2.
      rewrite <- app_assoc. cbn [app]. do 3 f_equal. lia.
    + cbn [rows seq]. rewrite maxKey_snoc.
      subst v2. rewrite primaryKey_columns, primaryKey_setPrimaryKey. lia.
    + exact Hv.
Qed.

Lemma forallb_filter_id_nil {A : Type} (f : A -> bool) (l : list A) :
  (forall x, In x l -> f x = false) -> filter f l = [].
Proof.
  induction l as [|x l IH]; simpl; intros H; [reflexivity|].
  rewrite (H x) by now left. apply IH. intros y Hy. apply H. now right.
Qed.

(** The tables that a seed without faults leaves. *)
Lemma seedDatabase_tables (clock : nat -> Time) (file : DB) :
  let db := seedDatabase clock noFault file in
  rows (patients db)
  = map columns (stamped (clock 0%nat) (seq (patients file)) seedPatients)
  /\ rows (doctors db)
     = map columns (stamped (clock 1%nat) (seq (doctors file)) seedDoctors)
  /\ rows (appointments db)
     = map columns
         (stamped (clock 7%nat) (seq (appointments file))
            (seedAppointments clock))
  /\ rows (medical_histories db)
     = map columns
         (stamped (clock 9%nat) (seq (medical_histories file))
            seedMedicalHistories)
  /\ counters db
     = (seq (patients file) + 5, seq (doctors file) + 4,
        seq (appointments file) + 5, seq (medical_tests file) + 6,
        seq (medical_histories file) + 11)%N.
Proof.
  intros db. subst db. unfold seedDatabase, counters, CreateAll, noFault,
    ExecDeleteAll.
  cbn [snd patients doctors appointments medical_tests medical_histories
         with_patients with_doctors with_appointments with_medical_tests
         with_medical_histories].
  rewrite !insertRows_stamped;
    try (cbn [rows seq]; unfold maxKey; simpl; lia);
    repeat constructor.
Qed.

(** X13: the demonstration data refer to patients 1 to 5 and doctors 1 to
    4, while the seeded rows receive the keys that follow the key counters
    of the database file.  After a seed without faults the patients bear
    the five identifiers after the file's patients counter and the doctors
    the four after its doctors counter.  On a file whose counters are all
    zero every seeded appointment finds its patient and its doctor; on a
    file whose patients counter is 5 or more (one that has been seeded
    before), no patient that GET /patients/:id returns has an appointment
    or a history entry. *)
Theorem seeded_references_follow_the_key_counters :
  forall (clock : nat -> Time) (file : DB),
    let db := seedDatabase clock noFault file in
    keys (rows (patients db))
    = map (N.add (seq (patients file))) [1; 2; 3; 4; 5]%N
    /\ keys (rows (doctors db))
       = map (N.add (seq (doctors file))) [1; 2; 3; 4]%N
    /\ map Appointment_PatientID (rows (appointments db))
       = [1; 2; 3; 4; 5]%N
    /\ map Appointment_DoctorID (rows (appointments db))
       = [1; 2; 3; 4; 1]%N
    /\ (counters file = (0, 0, 0, 0, 0)%N ->
        Forall
          (fun a =>
             find (hasKey (Z.of_N (Appointment_PatientID a)))
               (rows (patients db)) <> None
             /\ find (hasKey (Z.of_N (Appointment_DoctorID a)))
                  (rows (doctors db)) <> None)
          (rows (appointments db)))
    /\ ((5 <= seq (patients file))%N ->
        forall (id : Z) (p : Patient),
          getPatient None id db = mkResponse http.StatusOK (JPatient p) ->
          Patient_Appointments p = [] /\ Patient_MedicalHistory p = []).
Proof.
  intros clock file db.
  destruct (seedDatabase_tables clock file) as (Rp & Rd & Ra & Rh & Rc).
  fold db in Rp, Rd, Ra, Rh, Rc. clearbody db.
  assert (Kp : keys (rows (patients db))
               = map (N.add (seq (patients file))) [1; 2; 3; 4; 5]%N).
  { rewrite Rp. unfold keys. rewrite map_map. cbn [stamped map seedPatients].
    rewrite !primaryKey_columns, !primaryKey_setPrimaryKey.
    repeat f_equal; lia. }
  assert (Kd : keys (rows (doctors db))
               = map (N.add (seq (doctors file))) [1; 2; 3; 4]%N).
  { rewrite Rd. unfold keys. rewrite map_map. cbn [stamped map seedDoctors].
    rewrite !primaryKey_columns, !primaryKey_setPrimaryKey.
    repeat f_equal; lia. }
  assert (Ap : map Appointment_PatientID (rows (appointments db))
               = [1; 2; 3; 4; 5]%N) by (rewrite Ra; reflexivity).
  assert (Ad : map Appointment_DoctorID (rows (appointments db))
               = [1; 2; 3; 4; 1]%N) by (rewrite Ra; reflexivity).
  assert (Hh : map MedicalHistory_PatientID (rows (medical_histories db))
               = [1; 2; 1; 3; 4; 2; 5; 1; 3; 3; 5]%N)
    by (rewrite Rh; reflexivity).
  split; [exact Kp|]. split; [exact Kd|]. split; [exact Ap|].
  split; [exact Ad|]. split.
  - intros Hc. unfold counters in Hc. injection Hc as Hp Hd Ha Ht Hs.
    assert (Hall : forallb
                     (fun a =>
                        match find (hasKey (Z.of_N (Appointment_PatientID a)))
                                (rows (patients db)),
                              find (hasKey (Z.of_N (Appointment_DoctorID a)))
                                (rows (doctors db))
                        with
                        | Some _, Some _ => true
                        | _, _ => false
                        end)
                     (rows (appointments db)) = true).
    { rewrite Rp, Rd, Ra, Hp, Hd, Ha. vm_compute. reflexivity. }
    apply Forall_forall. intros a Hin.
    pose proof (proj1 (forallb_forall _ _) Hall a Hin) as Hfound.
    cbv beta in Hfound.
    destruct (find _ (rows (patients db))); [|discriminate].
    destruct (find _ (rows (doctors db))); [|discriminate].
    split; discriminate.
  - intros Hs id p Hget.
    apply getPatient_200 in Hget as (r & HF & _ & ->).
    apply First_Ok in HF as [Hl _]. apply lookup_In in Hl as Hin.
    assert (Hr : (5 < Patient_ID r)%N).
    { assert (Hk : In (Patient_ID r) (keys (rows (patients db))))
        by (unfold keys; apply in_map_iff; now exists r).
      rewrite Kp in Hk. cbn [map In] in Hk.
      destruct Hk as [Hk|[Hk|[Hk|[Hk|[Hk|[]]]]]]; lia. }
    assert (Ea : appointmentsOfPatient db r = []).
    { apply forallb_filter_id_nil. intros a Ha.
      assert (Hk : In (Appointment_PatientID a)
                     (map Appointment_PatientID (rows (appointments db))))
        by (apply in_map_iff; now exists a).
      rewrite Ap in Hk. cbn [In] in Hk.
      destruct (eqParam (Appointment_PatientID a) (Z.of_N (Patient_ID r)))
        eqn:E; [|reflexivity].
      apply eqParam_key in E as [E _]. exfalso.
      destruct Hk as [Hk|[Hk|[Hk|[Hk|[Hk|[]]]]]]; lia. }
    assert (Eh : historyOf db r = []).
    { apply forallb_filter_id_nil. intros h Hin'.
      assert (Hk : In (MedicalHistory_PatientID h)
                     (map MedicalHistory_PatientID
                        (rows (medical_histories db))))
        by (apply in_map_iff; now exists h).
      rewrite Hh in Hk. cbn [In] in Hk.
      destruct (eqParam (MedicalHistory_PatientID h)
                  (Z.of_N (Patient_ID r))) eqn:E; [|reflexivity].
      apply eqParam_key in E as [E _]. exfalso.
      repeat (destruct Hk as [Hk|Hk]; [lia|]). destruct Hk. }
    unfold loadedPatient.
    cbn [Patient_Appointments Patient_MedicalHistory].
    rewrite Ea, Eh. split; reflexivity.
Qed.

Lemma seeded_references_follow_the_key_counters_witness :
  let first := seedDatabase exampleClock noFault emptyDB in
  let second := seedDatabase exampleClock noFault first in
  counters emptyDB = (0, 0, 0, 0, 0)%N
  /\ Forall
       (fun a =>
          find (hasKey (Z.of_N (Appointment_PatientID a)))
            (rows (patients first)) <> None
          /\ find (hasKey (Z.of_N (Appointment_DoctorID a)))
               (rows (doctors first)) <> None)
       (rows (appointments first))
  /\ (5 <= seq (patients first))%N
  /\ keys (rows (patients second)) = [6; 7; 8; 9; 10]%N
  /\ exists p : Patient,
       getPatient None 6 second = mkResponse http.StatusOK (JPatient p)
       /\ Patient_Appointments p = []
       /\ Patient_MedicalHistory p = [].
Proof.
  intros first second.
  destruct (seeded_references_follow_the_key_counters exampleClock emptyDB)
    as (_ & _ & _ & _ & Hfresh & _).
  destruct (seeded_references_follow_the_key_counters exampleClock first)
    as (Hkeys & _ & _ & _ & _ & Hagain).
  assert (Hc : counters emptyDB = (0, 0, 0, 0, 0)%N) by reflexivity.
  assert (Hs : (5 <= seq (patients first))%N)
    by (vm_compute; discriminate).
  split; [exact Hc|]. split; [exact (Hfresh Hc)|]. split; [exact Hs|].
  split; [exact Hkeys|].
  assert (E : exists p : Patient,
             getPatient None 6 second
             = mkResponse http.StatusOK (JPatient p))
    by (eexists; vm_compute; reflexivity).
  destruct E as [p E]. exists p. split; [exact E|].
  exact (Hagain Hs 6%Z p E).
Defined.

(** ** Tables the interface cannot write *)

(** X14: doctors and medical tests are read-only through the interface.
    No sequence of requests, whatever their bodies and whatever the storage
    engine does, changes the doctors table or the medical tests table, so
    GET /doctors, GET /doctors/:id and GET /appointments/:id/tests answer
    after any such sequence what they answered before it. *)
Theorem doctors_and_tests_are_read_only :
  forall (dialect : Dialector) (reqs : list (Env * Request)) (db : DB)
         (fault : Fault) (id : Z),
    doctors (serveAll reqs db) = doctors db
    /\ medical_tests (serveAll reqs db) = medical_tests db
    /\ getDoctors fault (serveAll reqs db) = getDoctors fault db
    /\ getDoctor fault id (serveAll reqs db) = getDoctor fault id db
    /\ getAppointmentTests fault id (serveAll reqs db)
       = getAppointmentTests fault id db.
Proof.
  intros dialect reqs db fault id.
  assert (H : doctors (serveAll reqs db) = doctors db
              /\ medical_tests (serveAll reqs db) = medical_tests db).
  { revert db. induction reqs as [|[env req] reqs IH]; intros db; simpl.
    - now split.
    - destruct (serve_mutates env req db) as (_ & Ed & _ & Et & _).
      destruct (IH (snd (serve env req db))) as (Id & It).
      split; congruence. }
  destruct H as (Hd & Ht).
  unfold getDoctors, getDoctor, getAppointmentTests.
  rewrite Hd, Ht. repeat split.
Qed.


(** ** Identifiers outside 64 bits and references from 2^63 on *)

Lemma inInt64_outside (id : Z) : ~ within64 id -> inInt64 id = false.
Proof.
  intros Hn. destruct (inInt64 id) eqn:E; [|reflexivity].
  exfalso. apply Hn. now apply inInt64_spec.
Qed.

Lemma firstRow_least {T : Type} `{Model T} (l : list T) (r : T) :
  firstRow l = Some r ->
  forall x, In x l -> (primaryKey r <= primaryKey x)%N.
Proof.
  revert r. induction l as [|y l IH]; simpl; [discriminate|]. intros r.
  destruct (firstRow l) as [r'|] eqn:E.
  - destruct (N.ltb_spec (primaryKey r') (primaryKey y)) as [Hlt|Hge];
      intros [= <-] x [<-|Hx]; try lia.
    + now apply IH.
    + specialize (IH r' eq_refl x Hx). lia.
  - intros [= <-] x [<-|Hx]; [lia|].
    apply firstRow_none in E. subst l. destruct Hx.
Qed.

Lemma firstRow_some {T : Type} `{Model T} (l : list T) :
  l <> [] -> exists r, firstRow l = Some r.
Proof.
  intros Hne. destruct (firstRow l) as [r|] eqn:E; [now exists r|].
  apply firstRow_none in E. contradiction.
Qed.

Lemma filter_none {A : Type} (l : list A) : filter (fun _ => false) l = [].
Proof. induction l; simpl; congruence. Qed.

Lemma Delete_outside {T : Type} `{Model T} (id : Z) (t : Table T) :
  ~ within64 id -> rows (snd (Delete None id t)) = [].
Proof.
  intros Hn. unfold Delete, selected. cbn [snd rows].
  rewrite (inInt64_outside id Hn). apply filter_none.
Qed.

(** X15: an identifier that is a numeral outside 64 bits is not compared
    with the primary key: it selects every row.  DELETE /patients/:id,
    DELETE /appointments/:id and DELETE /medical_history/:id with such an
    identifier empty their table, and GET /doctors/:id answers with the
    doctor of the least identifier, or with 404 when there is no doctor. *)
Theorem identifier_outside_64_bits_selects_every_row :
  forall (id : Z) (db : DB),
    ~ within64 id ->
    rows (patients (snd (deletePatient None id db))) = []
    /\ rows (appointments (snd (deleteAppointment None id db))) = []
    /\ rows (medical_histories (snd (deleteMedicalHistory None id db))) = []
    /\ (rows (doctors db) = [] ->
        getDoctor None id db
        = mkResponse http.StatusNotFound (H_error "Doctor not found"))
    /\ (rows (doctors db) <> [] ->
        exists d : Doctor,
          getDoctor None id db = mkResponse http.StatusOK (JDoctor d)
          /\ In d (rows (doctors db))
          /\ forall d' : Doctor,
               In d' (rows (doctors db)) ->
               (Doctor_ID d <= Doctor_ID d')%N).
Proof.
  intros id db Hn.
  split; [exact (Delete_outside id (patients db) Hn)|].
  split; [exact (Delete_outside id (appointments db) Hn)|].
  split; [exact (Delete_outside id (medical_histories db) Hn)|].
  unfold getDoctor, First, lookup. rewrite (inInt64_outside id Hn).
  split.
  - intros ->. reflexivity.
  - intros Hne. destruct (firstRow_some _ Hne) as [d Hd]. rewrite Hd.
    exists d. split; [reflexivity|]. split; [now apply firstRow_In|].
    exact (firstRow_least _ d Hd).
Qed.

Lemma identifier_outside_64_bits_selects_every_row_witness :
  ~ within64 (2 ^ 63)
  /\ List.length (rows (patients exampleDB)) = 5
  /\ rows (patients (snd (deletePatient None (2 ^ 63) exampleDB))) = []
  /\ exists d : Doctor,
       getDoctor None (2 ^ 63) exampleDB
       = mkResponse http.StatusOK (JDoctor d)
       /\ Doctor_ID d = 1%N.
Proof.
  assert (Hn : ~ within64 (2 ^ 63)) by (unfold within64; lia).
  destruct (identifier_outside_64_bits_selects_every_row (2 ^ 63) exampleDB
              Hn) as (Hp & _ & _ & _ & Hd).
  split; [exact Hn|]. split; [reflexivity|]. split; [exact Hp|].
  destruct Hd as (d & Eg & _ & _); [vm_compute; discriminate|].
  exists d. split; [exact Eg|].
  apply (f_equal body) in Eg. vm_compute in Eg. now injection Eg as <-.
Defined.

Lemma Delete_created {T : Type} `{Model T} (t : Table T) (r : T) :
  primaryKey r = nextKey t ->
  below63 (nextKey t) ->
  snd (Delete None (Z.of_N (nextKey t))
         (mkTable (rows t ++ [r]) (nextKey t)))
  = mkTable (rows t) (nextKey t).
Proof.
  intros Hk Hb. unfold Delete. cbn [snd rows seq].
  rewrite (selected_inInt64 _ _ (within64_below _ Hb)).
  rewrite filter_app. rewrite delete_absent.
  - simpl. assert (E : hasKey (Z.of_N (nextKey t)) r = true)
      by (apply hasKey_true; now rewrite Hk).
    rewrite E. simpl. now rewrite app_nil_r.
  - apply find_absent. intros x Hx. now apply nextKey_absent.
Qed.

(** X16: a DELETE with the identifier that a creation returned (a number
    below 2^63) removes the created row again: the table holds the rows it
    held before the creation, in their order, and only its key counter has
    moved on to that identifier.  This is so also for an appointment created
    with a reference from 2^63 on, which GET /appointments/:id cannot read
    and answers with 404. *)
Theorem delete_removes_the_created_row :
  forall (now : Time) (fault : Fault) (db : DB),
    (forall body : Body CreatePatientRequest,
        let created := createPatient now fault body db in
        status (fst created) = http.StatusCreated ->
        exists p : Patient,
          fst created = mkResponse http.StatusCreated (JPatient p)
          /\ (below63 (Patient_ID p) ->
              patients
                (snd (deletePatient None (Z.of_N (Patient_ID p))
                        (snd created)))
              = mkTable (rows (patients db)) (Patient_ID p)))
    /\ (forall body : Body CreateAppointmentRequest,
          let created := createAppointment now fault body db in
          status (fst created) = http.StatusCreated ->
          exists a : Appointment,
            fst created = mkResponse http.StatusCreated (JAppointment a)
            /\ (below63 (Appointment_ID a) ->
                appointments
                  (snd (deleteAppointment None (Z.of_N (Appointment_ID a))
                          (snd created)))
                = mkTable (rows (appointments db)) (Appointment_ID a))
            /\ (below63 (Appointment_ID a) ->
                ~ readsBack a ->
                getAppointment None (Z.of_N (Appointment_ID a))
                  (snd created)
                = mkResponse http.StatusNotFound
                    (H_error "Appointment not found")))
    /\ (forall body : Body CreateMedicalHistoryRequest,
          let created := createMedicalHistory now fault body db in
          status (fst created) = http.StatusCreated ->
          exists h : MedicalHistory,
            fst created = mkResponse http.StatusCreated (JMedicalHistory h)
            /\ (below63 (MedicalHistory_ID h) ->
                medical_histories
                  (snd (deleteMedicalHistory None
                          (Z.of_N (MedicalHistory_ID h)) (snd created)))
                = mkTable (rows (medical_histories db))
                    (MedicalHistory_ID h))).
Proof.
  intros now fault db. split; [|split].
  - intros body created H. subst created.
    destruct (createPatient_201 now fault body db H) as (req & _ & ->).
    cbn [fst snd]. eexists. split; [reflexivity|]. intros Hb.
    apply (Delete_created (patients db)); [reflexivity|exact Hb].
  - intros body created H. subst created.
    destruct (createAppointment_201 now fault body db H) as (req & _ & ->).
    cbn [fst snd]. set (a := createdAppointment now req (appointments db)).
    exists a. split; [reflexivity|]. split.
    + intros Hb.
      apply (Delete_created (appointments db)); [reflexivity|exact Hb].
    + intros Hb Hr. unfold getAppointment, First.
      cbn [appointments with_appointments rows].
      rewrite lookup_inInt64 by (now apply within64_below).
      rewrite find_app_absent; [| |reflexivity].
      * destruct (scans a) eqn:E; [|reflexivity].
        exfalso. apply Hr. now apply scans_appointment.
      * intros x Hx. now apply nextKey_absent.
  - intros body created H. subst created.
    destruct (createMedicalHistory_201 now fault body db H)
      as (req & _ & ->).
    cbn [fst snd]. eexists. split; [reflexivity|]. intros Hb.
    apply (Delete_created (medical_histories db)); [reflexivity|exact Hb].
Qed.

Lemma delete_removes_the_created_row_witness :
  let created :=
    createAppointment (exampleClock 10) None
      (Decoded
         (mkCreateAppointmentRequest (2 ^ 63) 1
            (time.Date 2025 2 1 9 30 0 0) "" "" ""))
      exampleDB in
  status (fst created) = http.StatusCreated
  /\ getAppointment None 6 (snd created)
     = mkResponse http.StatusNotFound (H_error "Appointment not found")
  /\ appointments (snd (deleteAppointment None 6 (snd created)))
     = mkTable (rows (appointments exampleDB)) 6.
Proof.
  intros created.
  assert (H : status (fst created) = http.StatusCreated)
    by (vm_compute; reflexivity).
  split; [exact H|].
  destruct (proj1 (proj2 (delete_removes_the_created_row (exampleClock 10)
                            None exampleDB)) _ H)
    as (a & Ea & Hdel & Hget).
  assert (Ia : a = createdAppointment (exampleClock 10)
                     (mkCreateAppointmentRequest (2 ^ 63) 1
                        (time.Date 2025 2 1 9 30 0 0) "" "" "")
                     (appointments exampleDB)).
  { apply (f_equal body) in Ea. vm_compute in Ea.
    injection Ea as <-. vm_compute. reflexivity. }
  assert (I6 : Appointment_ID a = 6%N) by (now rewrite Ia).
  assert (Hb : below63 6) by (unfold below63; lia).
  assert (Hr : ~ readsBack a).
  { rewrite Ia. unfold readsBack, below63. cbn. lia. }
  rewrite I6 in Hdel, Hget. change (Z.of_N 6) with 6%Z in Hdel, Hget.
  split; [exact (Hget Hb Hr) | exact (Hdel Hb)].
Defined.
